(** * Lifecycle handlers of the IBM Cloud provider plugin: a shallow embedding

    The handlers of the Power network, private DNS (GLB monitor, permitted
    network), CIS (firewall rules, mTLS) resources and of the HPCS data
    source are embedded as functions of a small state-and-error monad.  The
    monad threads the configuration record [d] and the trace of requests sent
    to the vendor, so that "which API calls were made, in which order, under
    which lock" is a property of the value a handler returns. *)

From Stdlib Require Import String Ascii ZArith List Lia Permutation.
From stdpp Require Import gmap strings list pretty sorting.

Open Scope string_scope.
Open Scope Z_scope.

(* ===================================================================== *)
(** * Part I: definitions *)
(* ===================================================================== *)

(** ** Go strings: the functions of [strings] and [sort] the handlers call *)

Module strings.

(** [strings.Split(s, sep)] for a one-byte separator, which is how every
    call site of the handlers uses it ([strings.Split(d.Id(), "/")]).  The
    result is never empty: a string without separator is returned whole. *)
Fixpoint Split (s : string) (sep : ascii) : list string :=
  match s with
  | EmptyString => [EmptyString]
  | String c rest =>
      if Ascii.eqb c sep then EmptyString :: Split rest sep
      else match Split rest sep with
           | hd :: tl => String c hd :: tl
           | [] => [String c EmptyString]
           end
  end.

(** [strings.Contains(s, substr)]. *)
Fixpoint Contains (s substr : string) : bool :=
  String.prefix substr s
  || match s with
     | EmptyString => false
     | String _ rest => Contains rest substr
     end.

(** [strings.ToLower] on the ASCII letters; bytes outside [A-Z] are kept. *)
Definition lower_byte (c : ascii) : ascii :=
  let n := nat_of_ascii c in
  if ((65 <=? n) && (n <=? 90))%nat then ascii_of_nat (n + 32) else c.

Fixpoint ToLower (s : string) : string :=
  match s with
  | EmptyString => EmptyString
  | String c rest => String (lower_byte c) (ToLower rest)
  end.

(** [strings.Join(elems, sep)]. *)
Fixpoint Join (elems : list string) (sep : string) : string :=
  match elems with
  | [] => ""
  | [x] => x
  | x :: rest => x +:+ sep +:+ Join rest sep
  end.

End strings.

Module sort.

(** [sort.Strings]: ascending byte-wise order.  The order is total and
    antisymmetric, so the sorted slice does not depend on the algorithm;
    insertion sort stands for the library's. *)
Fixpoint insert (x : string) (l : list string) : list string :=
  match l with
  | [] => [x]
  | y :: tl => if String.leb x y then x :: l else y :: insert x tl
  end.

Fixpoint Strings (l : list string) : list string :=
  match l with
  | [] => []
  | x :: tl => insert x (Strings tl)
  end.

End sort.

(** ** Errors, outcomes and the handler monad *)

(** What a Go [error] value is to the handlers: its message, and the dynamic
    type the callers switch on. *)
Inductive ErrKind :=
| Generic
| PcloudNetworksPostBadRequest
| PcloudNetworksPostUnprocessableEntity
| TimeoutError
| UnexpectedStateError
| NotFoundError.

Record error := mkError { Error : string; kind : ErrKind }.

(** [fmt.Errorf], [diag.Errorf]: a fresh error with the given text. *)
Definition Errorf (msg : string) : error := mkError msg Generic.

(** [flex.FmtErrorf] and [flex.TerraformErrorf] with a message that embeds the
    cause: the literal part of the format string followed by the cause's text
    (the rendering of the response detail is dropped). *)
Definition Wrapf (context : string) (cause : error) : error :=
  mkError (context +:+ Error cause) Generic.

(** What a client method hands back as [(result, err)]. *)
Inductive Reply (R : Type) : Type :=
| Success (r : R)
| Failure (err : error).
Arguments Success {R} r.
Arguments Failure {R} err.

(** A call returns normally, returns an error, or panics (nil dereference,
    index out of range). *)
Inductive result (A : Type) : Type :=
| Ok (a : A)
| Fail (e : error)
| Panic (reason : string).
Arguments Ok {A} a.
Arguments Fail {A} e.
Arguments Panic {A} reason.

Definition is_Ok {A} (r : result A) : bool :=
  match r with Ok _ => true | _ => false end.

#[export] Instance result_ret : MRet result := fun A a => Ok a.
#[export] Instance result_bind : MBind result := fun A B f r =>
  match r with
  | Ok a => f a
  | Fail e => Fail e
  | Panic s => Panic s
  end.

(** [p != nil]. *)
Definition not_nil {A} (p : option A) : bool :=
  match p with Some _ => true | None => false end.

(** Pointer dereference [*p]. *)
Definition deref {A} (p : option A) : result A :=
  match p with
  | Some a => Ok a
  | None => Panic "invalid memory address or nil pointer dereference"
  end.

(** Slice indexing [s[i]]. *)
Definition slice_at {A} (s : list A) (i : nat) : result A :=
  match s !! i with
  | Some a => Ok a
  | None => Panic "index out of range"
  end.

(** Values held by the configuration record. *)
#[warnings="-register-all"]
Inductive Value :=
| VNil
| VString (s : string)
| VInt (z : Z)
| VBool (b : bool)
| VList (l : list Value)
| VMap (m : list (string * Value)).

Definition VStrings (l : list string) : Value := VList (VString <$> l).

Definition VOptString (p : option string) : Value :=
  match p with Some s => VString s | None => VNil end.

Definition VOptInt (p : option Z) : Value :=
  match p with Some z => VInt z | None => VNil end.

Definition VOptBool (p : option bool) : Value :=
  match p with Some b => VBool b | None => VNil end.

(** The zero value test behind [GetOk]. *)
Definition is_zero (v : Value) : bool :=
  match v with
  | VNil | VString "" | VInt 0 | VBool false | VList [] | VMap [] => true
  | _ => false
  end.

(** [schema.ResourceData]: the identity string, the prior state, the current
    (planned, then written back) field values, and the keys the schema engine
    reports as changed. *)
Record ResourceData := mkResourceData {
  rd_id : string;
  rd_prior : gmap string Value;
  rd_fields : gmap string Value;
  rd_changed : gset string;
  rd_timeout : string -> nat
}.

(** Requests sent to the vendor, and the named-lock operations. *)
Inductive Event :=
| Call (service op : string) (args : list string)
| Lock (key : string)
| Unlock (key : string).

Definition is_call (e : Event) : bool :=
  match e with Call _ _ _ => true | _ => false end.

Definition is_call_of (service op : string) (e : Event) : bool :=
  match e with
  | Call s o _ => String.eqb s service && String.eqb o op
  | _ => false
  end.

(** The state a handler runs in: the record [d], the requests and lock
    operations so far, and the local string variables that a closure and its
    caller share through a pointer ([lastErr]). *)
Record World := mkWorld {
  d : ResourceData;
  trace : list Event;
  cells : gmap string string
}.

Definition M (A : Type) : Type := World -> World * result A.

#[export] Instance M_ret : MRet M := fun A a w => (w, Ok a).
#[export] Instance M_bind : MBind M := fun A B f m w =>
  match m w with
  | (w', Ok a) => f a w'
  | (w', Fail e) => (w', Fail e)
  | (w', Panic s) => (w', Panic s)
  end.

Definition fail {A} (e : error) : M A := fun w => (w, Fail e).
Definition panic {A} (reason : string) : M A := fun w => (w, Panic reason).
Definition lift {A} (r : result A) : M A := fun w => (w, r).

(** One request to the vendor: it is appended to the trace, and the vendor's
    answer may depend on everything sent before. *)
Definition request {R} (ev : Event) (answer : list Event -> R) : M R :=
  fun w => (mkWorld (d w) (trace w ++ [ev]) (cells w), Ok (answer (trace w))).

Definition emit (ev : Event) : M unit :=
  fun w => (mkWorld (d w) (trace w ++ [ev]) (cells w), Ok tt).

(** [*p = s] and [*p] for a shared string variable. *)
Definition store (p : string) (s : string) : M unit :=
  fun w => (mkWorld (d w) (trace w) (<[p := s]> (cells w)), Ok tt).

Definition load (p : string) : M string :=
  fun w => (w, Ok (default "" (cells w !! p))).

(** [r, err := f()] observed by the caller: an error becomes a value, a panic
    keeps unwinding. *)
Definition try {A} (m : M A) : M (Reply A) := fun w =>
  match m w with
  | (w', Ok a) => (w', Ok (Success a))
  | (w', Fail e) => (w', Ok (Failure e))
  | (w', Panic s) => (w', Panic s)
  end.

(** [defer f(); body]: [f] runs when [body] leaves, whatever the outcome
    (return, error or panic). *)
Definition defer {A} (f : M unit) (body : M A) : M A :=
  fun w => let (w', r) := body w in (fst (f w'), r).

(** *** The operations of [schema.ResourceData] the handlers consume *)

Module schema.

Definition Id : M string := fun w => (w, Ok (rd_id (d w))).

Definition SetId (id : string) : M unit := fun w =>
  let r := d w in
  (mkWorld (mkResourceData id (rd_prior r) (rd_fields r) (rd_changed r) (rd_timeout r))
           (trace w) (cells w), Ok tt).

Definition Get (key : string) : M Value := fun w =>
  (w, Ok (default VNil (rd_fields (d w) !! key))).

Definition GetOk (key : string) : M (Value * bool) := fun w =>
  let v := default VNil (rd_fields (d w) !! key) in
  (w, Ok (v, negb (is_zero v))).

(** [GetOkExists]: set at all, zero or not. *)
Definition GetOkExists (key : string) : M (Value * bool) := fun w =>
  match rd_fields (d w) !! key with
  | Some v => (w, Ok (v, true))
  | None => (w, Ok (VNil, false))
  end.

Definition GetChange (key : string) : M (Value * Value) := fun w =>
  (w, Ok (default VNil (rd_prior (d w) !! key), default VNil (rd_fields (d w) !! key))).

(** [d.Get(key + ".i")]: element [i] of a list field. *)
Definition GetElem (key : string) (i : nat) : M Value := fun w =>
  match rd_fields (d w) !! key with
  | Some (VList l) => (w, Ok (default VNil (l !! i)))
  | _ => (w, Ok VNil)
  end.

Definition HasChange (key : string) : M bool := fun w =>
  (w, Ok (bool_decide (key ∈ rd_changed (d w)))).

Fixpoint HasChanges (keys : list string) : M bool :=
  match keys with
  | [] => mret false
  | k :: rest => b ← HasChange k; if b : bool then mret true else HasChanges rest
  end.

Definition Set_ (key : string) (v : Value) : M unit := fun w =>
  let r := d w in
  (mkWorld (mkResourceData (rd_id r) (rd_prior r) (<[key := v]> (rd_fields r)) (rd_changed r)
                             (rd_timeout r))
           (trace w) (cells w), Ok tt).

(** [d.Timeout(key)], in seconds. *)
Definition Timeout (key : string) : M nat := fun w => (w, Ok (rd_timeout (d w) key)).

Definition TimeoutCreate := "create".
Definition TimeoutRead := "read".
Definition TimeoutUpdate := "update".
Definition TimeoutDelete := "delete".

(** Type assertions [v.(string)], [v.(int)], [v.(bool)]: a field that was
    never set reads as the zero value of its type. *)
Definition asString (v : Value) : M string :=
  match v with
  | VString s => mret s
  | VNil => mret ""
  | _ => panic "interface conversion: interface {} is not string"
  end.

Definition asInt (v : Value) : M Z :=
  match v with
  | VInt z => mret z
  | VNil => mret 0
  | _ => panic "interface conversion: interface {} is not int"
  end.

Definition asBool (v : Value) : M bool :=
  match v with
  | VBool b => mret b
  | VNil => mret false
  | _ => panic "interface conversion: interface {} is not bool"
  end.

Definition asList (v : Value) : M (list Value) :=
  match v with
  | VList l => mret l
  | VNil => mret []
  | _ => panic "interface conversion: interface {} is not []interface {}"
  end.

Definition asMap (v : Value) : M (list (string * Value)) :=
  match v with
  | VMap m => mret m
  | _ => panic "interface conversion: interface {} is not map[string]interface {}"
  end.

End schema.

(** A sequence of [d.Set] calls, first to last, on the field map. *)
Definition write_all (ws : list (string * Value)) (m : gmap string Value) : gmap string Value :=
  foldl (fun m kv => <[kv.1 := kv.2]> m) m ws.

(** Running a handler on a record with an empty trace. *)
Definition run {A} (m : M A) (r : ResourceData) : World * result A :=
  m (mkWorld r [] ∅).

Definition calls (w : World) : list Event := filter (fun e => is_call e = true) (trace w).

(** ** The poll-converge primitive *)

Module retry.

(** The configuration the handlers hand to the primitive.  Durations are
    whole seconds. *)
Record StateChangeConf (R : Type) := mkStateChangeConf {
  Pending : list string;
  Target : list string;
  Refresh : M (R * string);
  Timeout : nat;
  Delay : nat;
  MinTimeout : nat;
  NotFoundChecks : nat
}.
Arguments mkStateChangeConf {R}.
Arguments Pending {R}.
Arguments Target {R}.
Arguments Refresh {R}.
Arguments Timeout {R}.
Arguments Delay {R}.
Arguments MinTimeout {R}.
Arguments NotFoundChecks {R}.

Definition has (set : list string) (state : string) : bool :=
  existsb (String.eqb state) set.

Definition timeoutError : error := mkError "timeout while waiting for state" TimeoutError.

(** Modelled from the spec: the wait primitive
    ([retry.StateChangeConf.WaitForStateContext]) is supplied by the host
    framework and is not among the sources.  Section 4.1 of the
    specification: the refresh function is invoked repeatedly, separated by
    the poll interval, until the returned status is in the target set (the
    last snapshot is returned), in neither set ([UnexpectedState]), or the
    timeout elapses while still pending ([Timeout]); an error of the refresh
    function is propagated at once.  [polls] is the number of refreshes that
    fit in the window.  (The contract says nothing of [NotFoundChecks]; the
    field is carried and not read.) *)
Fixpoint poll {R} (conf : StateChangeConf R) (polls : nat) : M R :=
  match polls with
  | O => fail timeoutError
  | S polls' =>
      r ← Refresh conf;
      let '(snapshot, state) := r in
      if has (Target conf) state then mret snapshot
      else if has (Pending conf) state then poll conf polls'
      else fail (mkError ("unexpected state " +:+ state) UnexpectedStateError)
  end.

(** Modelled from the spec: refreshes happen at the instants [Delay],
    [Delay + interval], [Delay + 2 * interval], ... that lie before
    [Timeout]; the interval is [MinTimeout], at least one second (the
    optional backoff is not modelled). *)
Definition polls_within {R} (conf : StateChangeConf R) : nat :=
  if (Timeout conf <=? Delay conf)%nat then O
  else S ((Timeout conf - Delay conf - 1) / Nat.max 1 (MinTimeout conf)).

Definition WaitForStateContext {R} (conf : StateChangeConf R) : M R :=
  poll conf (polls_within conf).

(** A run of [k] refreshes that all answered with a pending status. *)
Inductive pending_run {R} (conf : StateChangeConf R) : nat -> World -> World -> Prop :=
| pending_done w : pending_run conf O w w
| pending_step k w w1 w2 snapshot state :
    Refresh conf w = (w1, Ok (snapshot, state)) ->
    has (Target conf) state = false ->
    has (Pending conf) state = true ->
    pending_run conf k w1 w2 ->
    pending_run conf (S k) w w2.

End retry.

(** ** Addresses: what the handlers use of [net], [strconv] and [go-cidr] *)

Module strconv.
(** [strconv.FormatUint(n, 10)]. *)
Definition FormatUint (n : Z) : string := pretty n.
End strconv.

Module net.

(** An IPv4 network: the 32-bit base address and the prefix length. *)
Record IPNet := mkIPNet { IP : Z; ones : Z }.

Definition is_digit (c : ascii) : bool :=
  let n := nat_of_ascii c in ((48 <=? n) && (n <=? 57))%nat.

Definition digit (c : ascii) : Z := Z.of_nat (nat_of_ascii c) - 48.

(** A run of decimal digits, most significant first; [None] when the string
    is empty or holds another byte. *)
Fixpoint digits (s : string) (acc : Z) : option Z :=
  match s with
  | EmptyString => Some acc
  | String c rest => if is_digit c then digits rest (10 * acc + digit c) else None
  end.

Definition dtoi (s : string) : option Z :=
  match s with
  | EmptyString => None
  | _ => digits s 0
  end.

(** One field of a dotted quad: one to three digits, no leading zero, at
    most 255. *)
Definition octet (s : string) : option Z :=
  match s with
  | String "0" (String _ _) => None
  | _ =>
      if (3 <? String.length s)%nat then None
      else match dtoi s with
           | Some n => if n <=? 255 then Some n else None
           | None => None
           end
  end.

Definition parseIPv4 (s : string) : option Z :=
  match strings.Split s "." with
  | [a; b; c; e] =>
      match octet a, octet b, octet c, octet e with
      | Some a, Some b, Some c, Some e => Some (((a * 256 + b) * 256 + c) * 256 + e)
      | _, _, _, _ => None
      end
  | _ => None
  end.

(** The bytes before and after the first occurrence of [sep]. *)
Fixpoint cut (s : string) (sep : ascii) : option (string * string) :=
  match s with
  | EmptyString => None
  | String c rest =>
      if Ascii.eqb c sep then Some (EmptyString, rest)
      else match cut rest sep with
           | Some (before, after) => Some (String c before, after)
           | None => None
           end
  end.

(** [net.ParseCIDR] on IPv4 notation ["a.b.c.d/n"]: the address and the
    network it implies (the address with its host bits cleared, and the
    prefix length). *)
Definition ParseCIDR (s : string) : result (Z * IPNet) :=
  let bad := Fail (mkError ("invalid CIDR address: " +:+ s) Generic) in
  match cut s "/" with
  | None => bad
  | Some (addr, mask) =>
      match parseIPv4 addr, dtoi mask with
      | Some ip, Some n =>
          if n <=? 32 then Ok (ip, mkIPNet (Z.land ip (Z.shiftl (Z.ones n) (32 - n))) n)
          else bad
      | _, _ => bad
      end
  end.

(** [IP.String()] of an IPv4 address. *)
Definition IP_String (ip : Z) : string :=
  pretty (Z.shiftr ip 24 mod 256) +:+ "." +:+ pretty (Z.shiftr ip 16 mod 256) +:+ "."
  +:+ pretty (Z.shiftr ip 8 mod 256) +:+ "." +:+ pretty (ip mod 256).

End net.

Module cidr.

(** [cidr.Host(base, num)] of go-cidr: the address of host number [num] in
    the network; a negative [num] counts from the end of the range ([-1] is
    the last address).  The number is or-ed into the base address. *)
Definition Host (base : net.IPNet) (num : Z) : result Z :=
  let hostLen := 32 - net.ones base in
  let maxHostNum := Z.shiftl 1 hostLen - 1 in
  let numUint := if num <? 0 then - num - 1 else num in
  let num := if num <? 0 then maxHostNum - numUint else num in
  if maxHostNum <? numUint
  then Fail (Errorf ("prefix of " +:+ pretty (net.ones base)
                     +:+ " does not accommodate a host numbered " +:+ pretty num))
  else Ok (Z.lor (net.IP base) num).

(** [cidr.AddressCount(network)]. *)
Definition AddressCount (network : net.IPNet) : Z :=
  Z.shiftl 1 (32 - net.ones network).

End cidr.

(** ** Power network resource ([resource_ibm_pi_network.go]) *)

Module power.

(** Package-level names declared in files of the package that are not among
    the sources (the constant table and the identity helper).  They are
    parameters of the embedding. *)
Class Externals := {
  Arg_Advertise : string;
  Arg_ARPBroadcast : string;
  Arg_Cidr : string;
  Arg_CloudInstanceID : string;
  Arg_DNS : string;
  Arg_EndingIPAddress : string;
  Arg_Gateway : string;
  Arg_IPAddressRange : string;
  Arg_NetworkMTU : string;
  Arg_NetworkName : string;
  Arg_NetworkPeer : string;
  Arg_NetworkType : string;
  Arg_StartingIPAddress : string;
  Arg_UserTags : string;
  Attr_CRN : string;
  Attr_ID : string;
  Attr_NetworkAddressTranslation : string;
  Attr_NetworkID : string;
  Attr_PeerID : string;
  Attr_SourceIP : string;
  Attr_Type : string;
  Attr_VLanID : string;
  NotFound : string;
  PER : string;
  PubVlan : string;
  Vlan : string;
  UserTagType : string;
  State_Active : string;
  State_Available : string;
  State_Build : string;
  State_Configuring : string;
  State_Error : string;
  State_Failed : string;
  State_Found : string;
  State_Inactive : string;
  State_NotFound : string;
  State_Retry : string;
  Retry_Delay : nat;
  Retries : nat;
  (** [splitID(d.Id())]: the cloud instance and the network identifier. *)
  splitID : string -> result (string * string);
  (** [flex.ExpandStringList] and [flex.FlattenSet]. *)
  ExpandStringList : list Value -> result (list string);
  FlattenSet : Value -> result (list string)
}.

(** *** The vendor's models, as far as the handlers read or write them *)

Module IPAddressRange.
Record t := mk { EndingIPAddress : option string; StartingIPAddress : option string }.
End IPAddressRange.

Module NetworkAddressTranslation.
Record t := mk { SourceIP : string }.
End NetworkAddressTranslation.

Module Network.
Record t := mk {
  Advertise : string;
  ArpBroadcast : string;
  Cidr : string;
  Crn : string;
  DNSServers : list string;
  Gateway : string;
  IPAddressRanges : list (option IPAddressRange.t);
  Mtu : Z;
  Name : option string;
  NetworkAddressTranslation : option NetworkAddressTranslation.t;
  NetworkID : option string;
  PeerID : string;
  Type_ : option string;
  (** a [*float64]; only its presence is tested, the number is passed on *)
  VlanID : option Z
}.

(** The network after [sort.Strings(network.DNSServers)] sorted the slice
    in place. *)
Definition sortDNSServers (n : t) : t :=
  mk (Advertise n) (ArpBroadcast n) (Cidr n) (Crn n) (sort.Strings (DNSServers n))
     (Gateway n) (IPAddressRanges n) (Mtu n) (Name n) (NetworkAddressTranslation n)
     (NetworkID n) (PeerID n) (Type_ n) (VlanID n).
End Network.

Module NetworkUpdate.
Record t := mk {
  Advertise : string;
  ArpBroadcast : string;
  DNSServers : list string;
  Gateway : option string;
  IPAddressRanges : list (option IPAddressRange.t);
  Name : option string
}.
End NetworkUpdate.

Module NetworkCreatePeer.
Record t := mk {
  ID : option string;
  NetworkAddressTranslation : option NetworkAddressTranslation.t;
  Type_ : string
}.
End NetworkCreatePeer.

Module NetworkCreate.
Record t := mk {
  Type_ : option string;
  Name : string;
  DNSServers : list string;
  UserTags : list string;
  Mtu : option Z;
  Peer : option NetworkCreatePeer.t;
  IPAddressRanges : list (option IPAddressRange.t);
  Gateway : string;
  Cidr : string;
  Advertise : option string;
  ArpBroadcast : option string
}.
End NetworkCreate.

Module Workspace.
Record PowerEdgeRouter := mkPER { State : option string }.
Record Details_t := mkDetails { PowerEdgeRouter_ : option PowerEdgeRouter }.
Record t := mk { Capabilities : gmap string bool; Details : option Details_t }.
End Workspace.

(** *** The vendor's clients: every answer may depend on the requests sent
    so far *)

Module IBMPINetworkClient.
Record t := mk {
  Get : string -> list Event -> Reply Network.t;
  Create : NetworkCreate.t -> list Event -> Reply Network.t;
  Update : string -> NetworkUpdate.t -> list Event -> Reply Network.t;
  Delete : string -> list Event -> option error
}.
End IBMPINetworkClient.

Module IBMPIWorkspacesClient.
Record t := mk { Get : string -> list Event -> Reply Workspace.t }.
End IBMPIWorkspacesClient.

Record IBMPISession := mkSession {
  IsOnPrem : bool;
  NewIBMPINetworkClient : string -> IBMPINetworkClient.t;
  NewIBMPIWorkspacesClient : string -> IBMPIWorkspacesClient.t
}.

Record Meta := mkMeta {
  IBMPISession_ : Reply IBMPISession;
  GetGlobalTagsUsingCRN : string -> list Event -> Value * option error;
  UpdateGlobalTagsUsingCRN : Value -> Value -> string -> list Event -> option error
}.

Definition client_Get (client : IBMPINetworkClient.t) (id : string) : M (Reply Network.t) :=
  request (Call "IBMPINetworkClient" "Get" [id]) (IBMPINetworkClient.Get client id).

Definition client_Create (client : IBMPINetworkClient.t) (body : NetworkCreate.t)
  : M (Reply Network.t) :=
  request (Call "IBMPINetworkClient" "Create" [NetworkCreate.Name body])
          (IBMPINetworkClient.Create client body).

Definition client_Update (client : IBMPINetworkClient.t) (id : string) (body : NetworkUpdate.t)
  : M (Reply Network.t) :=
  request (Call "IBMPINetworkClient" "Update" [id]) (IBMPINetworkClient.Update client id body).

Definition client_Delete (client : IBMPINetworkClient.t) (id : string) : M (option error) :=
  request (Call "IBMPINetworkClient" "Delete" [id]) (IBMPINetworkClient.Delete client id).

Definition wsclient_Get (client : IBMPIWorkspacesClient.t) (id : string)
  : M (Reply Workspace.t) :=
  request (Call "IBMPIWorkspacesClient" "Get" [id]) (IBMPIWorkspacesClient.Get client id).

(** *** [generateIPData] *)

Definition subnetToSize : gmap string Z :=
  list_to_map
    [("21", 2048); ("22", 1024); ("23", 512); ("24", 256); ("25", 128); ("26", 64);
     ("27", 32); ("28", 16); ("29", 8); ("30", 4); ("31", 2)].

(** A Go map read [m[k]]: the zero value when the key is absent. *)
Definition map_get (m : gmap string Z) (k : string) : Z := default 0 (m !! k).

Definition generateIPData (cdir : string) : result (string * string * string) :=
  parsed ← net.ParseCIDR cdir;
  let ipv4Net := snd parsed in
  gateway ← cidr.Host ipv4Net 1;
  let ad := cidr.AddressCount ipv4Net in
  let convertedad := strconv.FormatUint ad in
  firstusable ← cidr.Host ipv4Net 4;
  lastusable ← cidr.Host ipv4Net (map_get subnetToSize convertedad - 2);
  Ok (net.IP_String gateway, net.IP_String firstusable, net.IP_String lastusable).

(** *** Loops with an early [return]: the body answers [true] when it takes
    the return *)

Fixpoint range_slice {A} (i : nat) (l : list A) (body : nat -> A -> result bool)
  : result bool :=
  match l with
  | [] => Ok false
  | x :: tl => b ← body i x; if b : bool then Ok true else range_slice (S i) tl body
  end.

Fixpoint range_int (i n : nat) (body : nat -> result bool) : result bool :=
  match n with
  | O => Ok false
  | S n' => b ← body i; if b : bool then Ok true else range_int (S i) n' body
  end.

(** Appending one formatted range per index to both slices. *)
Fixpoint joinRanges (i n : nat) (a b : list (option IPAddressRange.t))
  : result (list string * list string) :=
  match n with
  | O => Ok ([], [])
  | S n' =>
      ra ← slice_at a i ≫= deref;
      sa ← deref (IPAddressRange.StartingIPAddress ra);
      ea ← deref (IPAddressRange.EndingIPAddress ra);
      rb ← slice_at b i ≫= deref;
      sb ← deref (IPAddressRange.StartingIPAddress rb);
      eb ← deref (IPAddressRange.EndingIPAddress rb);
      rest ← joinRanges (S i) n' a b;
      Ok ((sa +:+ "-" +:+ ea) :: fst rest, (sb +:+ "-" +:+ eb) :: snd rest)
  end.

Section Refresh.
Context `{Externals}.

Definition isIBMPINetworkRefreshFunc (client : IBMPINetworkClient.t) (id : string)
  : M (option Network.t * string) :=
  r ← client_Get client id;
  match r with
  | Failure err => fail err
  | Success network =>
      match Network.VlanID network with
      | Some _ => mret (Some network, State_Available)
      | None => mret (Some network, State_Build)
      end
  end.

Definition isIBMPINetworkRefreshDeleteFunc (client : IBMPINetworkClient.t) (id : string)
  : M (option Network.t * string) :=
  r ← client_Get client id;
  match r with
  | Failure err => mret (None, State_NotFound)
  | Success network => mret (Some network, State_Found)
  end.

(** The comparison of the update body with the network just read.  The
    two [sort.Strings] calls sort in place, so the network handed back
    carries the sorted DNS servers. *)
Definition compareUpdate (updateBody : NetworkUpdate.t) (network : Network.t)
  : result (option Network.t * string) :=
  if negb (String.eqb (NetworkUpdate.Advertise updateBody) "")
     && negb (String.eqb (NetworkUpdate.Advertise updateBody) (Network.Advertise network))
  then Ok (Some network, State_Retry)
  else
  if negb (String.eqb (NetworkUpdate.ArpBroadcast updateBody) "")
     && negb (String.eqb (NetworkUpdate.ArpBroadcast updateBody) (Network.ArpBroadcast network))
  then Ok (Some network, State_Retry)
  else
  let sorted := (0 <? length (NetworkUpdate.DNSServers updateBody))%nat in
  let updateDNS := sort.Strings (NetworkUpdate.DNSServers updateBody) in
  let network := if sorted then Network.sortDNSServers network else network in
  dnsDiffers ←
    (if sorted then
       if negb (length updateDNS =? length (Network.DNSServers network))%nat
       then Ok true
       else range_slice 0 (Network.DNSServers network)
              (fun index dnsServer =>
                 other ← slice_at (Network.DNSServers network) index;
                 Ok (negb (String.eqb dnsServer other)))
     else Ok false);
  if dnsDiffers : bool then Ok (Some network, State_Retry)
  else
  gatewayDiffers ←
    match NetworkUpdate.Gateway updateBody with
    | Some gateway => Ok (negb (String.eqb gateway (Network.Gateway network)))
    | None => Ok false
    end;
  if gatewayDiffers : bool then Ok (Some network, State_Retry)
  else
  rangesDiffer ←
    (let n := length (NetworkUpdate.IPAddressRanges updateBody) in
     if (0 <? n)%nat then
       if negb (n =? length (Network.IPAddressRanges network))%nat
       then Ok true
       else
         joined ← joinRanges 0 n (NetworkUpdate.IPAddressRanges updateBody)
                                 (Network.IPAddressRanges network);
         let updateBodyIPAddressRanges := sort.Strings (fst joined) in
         let networkIPAddressRanges := sort.Strings (snd joined) in
         range_int 0 n
           (fun index =>
              a ← slice_at updateBodyIPAddressRanges index;
              b ← slice_at networkIPAddressRanges index;
              Ok (negb (String.eqb a b)))
     else Ok false);
  if rangesDiffer : bool then Ok (Some network, State_Retry)
  else
  nameDiffers ←
    match NetworkUpdate.Name updateBody with
    | Some name =>
        networkName ← deref (Network.Name network);
        Ok (negb (String.eqb name networkName))
    | None => Ok false
    end;
  if nameDiffers : bool then Ok (Some network, State_Retry)
  else Ok (Some network, State_Available).

Definition isIBMPINetworkRefreshUpdateFunc (client : IBMPINetworkClient.t)
    (updateBody : NetworkUpdate.t) (id : string) : M (option Network.t * string) :=
  r ← client_Get client id;
  match r with
  | Failure err => fail err
  | Success network => lift (compareUpdate updateBody network)
  end.

End Refresh.

(** A Go map read [m[key]] on a [map[string]interface{}]: nil when absent. *)
Definition map_index (m : list (string * Value)) (key : string) : Value :=
  default VNil (snd <$> List.find (fun p => String.eqb (fst p) key) m).

(** Strict assertions [v.(string)], [v.([]interface{})],
    [v.(map[string]interface{})] on a value taken out of a map: nil panics. *)
Definition assertString (v : Value) : result string :=
  match v with
  | VString s => Ok s
  | _ => Panic "interface conversion: interface {} is not string"
  end.

Definition assertList (v : Value) : result (list Value) :=
  match v with
  | VList l => Ok l
  | _ => Panic "interface conversion: interface {} is not []interface {}"
  end.

Definition assertMap (v : Value) : result (list (string * Value)) :=
  match v with
  | VMap m => Ok m
  | _ => Panic "interface conversion: interface {} is not map[string]interface {}"
  end.

Section Handlers.
Context `{Externals}.

Fixpoint getIPAddressRanges (ipAddressRanges : list Value)
  : result (list (option IPAddressRange.t)) :=
  match ipAddressRanges with
  | [] => Ok []
  | VNil :: rest => getIPAddressRanges rest
  | v :: rest =>
      ipAddressRange ← assertMap v;
      ending ← assertString (map_index ipAddressRange Arg_EndingIPAddress);
      starting ← assertString (map_index ipAddressRange Arg_StartingIPAddress);
      ipRanges ← getIPAddressRanges rest;
      Ok (Some (IPAddressRange.mk (Some ending) (Some starting)) :: ipRanges)
  end.

Definition natMapToNetworkAddressTranslation
    (networkAddressTranslationMap : list (string * Value))
  : result NetworkAddressTranslation.t :=
  sourceIP ← assertString (map_index networkAddressTranslationMap Attr_SourceIP);
  Ok (NetworkAddressTranslation.mk sourceIP).

Definition networkMapToNetworkCreatePeer (networkCreatePeerMap : list (string * Value))
  : result NetworkCreatePeer.t :=
  id ← assertString (map_index networkCreatePeerMap Attr_ID);
  nat_ ←
    match map_index networkCreatePeerMap Attr_NetworkAddressTranslation with
    | VNil => Ok None
    | v =>
        l ← assertList v;
        match l with
        | [] => Ok None
        | first :: _ =>
            m ← assertMap first;
            n ← natMapToNetworkAddressTranslation m;
            Ok (Some n)
        end
    end;
  type ← assertString (map_index networkCreatePeerMap Attr_Type);
  Ok (NetworkCreatePeer.mk (if String.eqb id "" then None else Some id) nat_ type).

Definition networkAddressTranslationToMap (nat_ : NetworkAddressTranslation.t)
  : list (string * Value) :=
  if String.eqb (NetworkAddressTranslation.SourceIP nat_) "" then []
  else [(Attr_SourceIP, VString (NetworkAddressTranslation.SourceIP nat_))].

(** *** The waits *)

Definition isWaitForIBMPINetworkAvailable (client : IBMPINetworkClient.t) (id : string)
    (timeout : nat) : M (option Network.t) :=
  let stateConf :=
    retry.mkStateChangeConf [State_Retry; State_Build] [State_Available]
      (isIBMPINetworkRefreshFunc client id) timeout 10%nat 10%nat 0%nat in
  retry.WaitForStateContext stateConf.

Definition isWaitForIBMPINetworkDeleted (client : IBMPINetworkClient.t) (id : string)
    (timeout : nat) : M (option Network.t) :=
  let stateConf :=
    retry.mkStateChangeConf [State_Found] [State_NotFound]
      (isIBMPINetworkRefreshDeleteFunc client id) timeout 10%nat 10%nat 0%nat in
  retry.WaitForStateContext stateConf.

Definition isWaitForIBMPINetworkUpdated (client : IBMPINetworkClient.t)
    (updateBody : NetworkUpdate.t) (id : string) (timeout : nat) : M (option Network.t) :=
  let stateConf :=
    retry.mkStateChangeConf [State_Retry] [State_Available]
      (isIBMPINetworkRefreshUpdateFunc client updateBody id) timeout 10%nat 10%nat 0%nat in
  retry.WaitForStateContext stateConf.

Definition isPERWorkspaceRefreshFunc (client : IBMPIWorkspacesClient.t) (id : string)
  : M (option Workspace.t * string) :=
  r ← wsclient_Get client id;
  match r with
  | Failure err => fail err
  | Success ws =>
      details ← lift (deref (Workspace.Details ws));
      match Workspace.PowerEdgeRouter_ details with
      | None => mret (Some ws, State_Active)
      | Some router =>
          state ← lift (deref (Workspace.State router));
          if String.eqb state State_Active then mret (Some ws, State_Active)
          else if String.eqb state State_Inactive then mret (Some ws, State_Inactive)
          else if String.eqb state State_Error
               then fail (Errorf "[ERROR] workspace PER configuration failed to initialize. Please try again later")
               else mret (Some ws, State_Configuring)
      end
  end.

Definition waitForPERWorkspaceActive (client : IBMPIWorkspacesClient.t) (id : string)
    (timeout : nat) : M (option Workspace.t) :=
  let stateConf :=
    retry.mkStateChangeConf [State_Inactive; State_Configuring] [State_Active]
      (isPERWorkspaceRefreshFunc client id) timeout 10%nat 10%nat 0%nat in
  retry.WaitForStateContext stateConf.

(** *** Creation and deletion with retry *)

Definition retryNetworkCreationFunc (client : IBMPINetworkClient.t)
    (body : NetworkCreate.t) (errPointer : string) : M (option Network.t * string) :=
  r ← client_Create client body;
  match r with
  | Failure err =>
      store errPointer (Error err);;
      match kind err with
      | PcloudNetworksPostBadRequest => fail err
      | PcloudNetworksPostUnprocessableEntity => fail err
      | _ => mret (None, State_Retry)
      end
  | Success network => mret (Some network, State_Active)
  end.

Definition createNetworkWithRetry (client : IBMPINetworkClient.t) (body : NetworkCreate.t)
  : M (option Network.t) :=
  store "lastErr" "";;
  let stateConf :=
    retry.mkStateChangeConf [State_Retry] [State_Active; State_Failed]
      (retryNetworkCreationFunc client body "lastErr") 600%nat 0%nat Retry_Delay Retries in
  r ← try (retry.WaitForStateContext stateConf);
  match r with
  | Failure _ => lastErr ← load "lastErr"; fail (Errorf lastErr)
  | Success network => mret network
  end.

Definition retryNetworkDeleteFunc (client : IBMPINetworkClient.t) (id : string)
    (errPointer : string) : M (option string * string) :=
  err ← client_Delete client id;
  match err with
  | Some e =>
      if negb (strings.Contains (strings.ToLower (Error e)) NotFound)
      then store errPointer (Error e);; mret (None, State_Retry)
      else mret (Some "", State_NotFound)
  | None => mret (Some "", State_NotFound)
  end.

Definition deleteNetworkWithRetry (client : IBMPINetworkClient.t) (id : string) : M unit :=
  store "lastErr" "";;
  let stateConf :=
    retry.mkStateChangeConf [State_Retry] [State_NotFound]
      (retryNetworkDeleteFunc client id "lastErr") 600%nat 0%nat Retry_Delay Retries in
  r ← try (retry.WaitForStateContext stateConf);
  match r with
  | Failure _ => lastErr ← load "lastErr"; fail (Errorf lastErr)
  | Success _ => mret tt
  end.

(** *** The handlers *)

Definition getString (key : string) : M string := schema.Get key ≫= schema.asString.

(** [if v, ok := d.GetOk(key); ok { field = &v }] for a string field. *)
Definition optString (key : string) : M (option string) :=
  vo ← schema.GetOk key;
  if snd vo : bool then s ← schema.asString (fst vo); mret (Some s) else mret None.

Definition resourceIBMPINetworkRead (meta : Meta) : M unit :=
  match IBMPISession_ meta with
  | Failure err => fail err
  | Success sess =>
      id ← schema.Id;
      ids ← lift (splitID id);
      let cloudInstanceID := fst ids in
      let networkID := snd ids in
      let networkC := NewIBMPINetworkClient sess cloudInstanceID in
      r ← client_Get networkC networkID;
      match r with
      | Failure err => fail err
      | Success networkdata =>
          (if negb (String.eqb (Network.Crn networkdata) "") then
             schema.Set_ Attr_CRN (VString (Network.Crn networkdata));;
             t ← request (Call "GlobalTagging" "GetGlobalTagsUsingCRN" [Network.Crn networkdata])
                   (GetGlobalTagsUsingCRN meta (Network.Crn networkdata));
             match snd t with
             | Some _ => lift (deref (Network.NetworkID networkdata));; mret tt
             | None => mret tt
             end;;
             schema.Set_ Arg_UserTags (fst t)
           else mret tt);;
          (if negb (IsOnPrem sess) then
             let wsclient := NewIBMPIWorkspacesClient sess cloudInstanceID in
             w ← wsclient_Get wsclient cloudInstanceID;
             match w with
             | Failure err => fail err
             | Success wsData =>
                 if default false (Workspace.Capabilities wsData !! PER) then
                   timeout ← schema.Timeout schema.TimeoutRead;
                   waitForPERWorkspaceActive wsclient cloudInstanceID timeout;;
                   type ← lift (deref (Network.Type_ networkdata));
                   if String.eqb type Vlan then
                     schema.Set_ Arg_Advertise (VString (Network.Advertise networkdata));;
                     schema.Set_ Arg_ARPBroadcast (VString (Network.ArpBroadcast networkdata))
                   else mret tt
                 else mret tt
             end
           else mret tt);;
          schema.Set_ Arg_Cidr (VString (Network.Cidr networkdata));;
          schema.Set_ Arg_DNS (VStrings (Network.DNSServers networkdata));;
          schema.Set_ Arg_Gateway (VString (Network.Gateway networkdata));;
          schema.Set_ Arg_NetworkMTU (VInt (Network.Mtu networkdata));;
          schema.Set_ Arg_NetworkName (VOptString (Network.Name networkdata));;
          schema.Set_ Arg_NetworkType (VOptString (Network.Type_ networkdata));;
          schema.Set_ Attr_NetworkID (VOptString (Network.NetworkID networkdata));;
          schema.Set_ Attr_NetworkAddressTranslation
            (VList match Network.NetworkAddressTranslation networkdata with
                   | Some nat_ => [VMap (networkAddressTranslationToMap nat_)]
                   | None => []
                   end);;
          schema.Set_ Attr_PeerID (VString (Network.PeerID networkdata));;
          schema.Set_ Attr_VLanID (VOptInt (Network.VlanID networkdata));;
          schema.Set_ Arg_IPAddressRange
            (VList (omap (fun n : option IPAddressRange.t =>
                            match n with
                            | Some n =>
                                Some (VMap [(Arg_EndingIPAddress,
                                             VOptString (IPAddressRange.EndingIPAddress n));
                                            (Arg_StartingIPAddress,
                                             VOptString (IPAddressRange.StartingIPAddress n))])
                            | None => None
                            end)
                         (Network.IPAddressRanges networkdata)))
      end
  end.

(** The tag write-back shared by Create and Update: a failure is logged
    and does not fail the handler. *)
Definition updateTags (meta : Meta) (crn : string) : M unit :=
  lists ← schema.GetChange Arg_UserTags;
  request (Call "GlobalTagging" "UpdateGlobalTagsUsingCRN" [crn])
          (UpdateGlobalTagsUsingCRN meta (fst lists) (snd lists) crn);;
  mret tt.

Definition resourceIBMPINetworkCreate (meta : Meta) : M unit :=
  match IBMPISession_ meta with
  | Failure err => fail err
  | Success sess =>
      cloudInstanceID ← getString Arg_CloudInstanceID;
      networkname ← getString Arg_NetworkName;
      networktype ← getString Arg_NetworkType;
      let client := NewIBMPINetworkClient sess cloudInstanceID in
      dnsServers ←
        (vo ← schema.GetOk Arg_DNS;
         if snd vo : bool
         then l ← schema.asList (fst vo); lift (ExpandStringList l)
         else mret []);
      userTags ←
        (vo ← schema.GetOk Arg_UserTags;
         if snd vo : bool then lift (FlattenSet (fst vo)) else mret []);
      mtu ←
        (vo ← schema.GetOk Arg_NetworkMTU;
         if snd vo : bool then z ← schema.asInt (fst vo); mret (Some z) else mret None);
      peer ←
        (vo ← schema.GetOk Arg_NetworkPeer;
         if snd vo : bool then
           m ← schema.GetElem Arg_NetworkPeer 0 ≫= schema.asMap;
           peerModel ← lift (networkMapToNetworkCreatePeer m);
           mret (Some peerModel)
         else mret None);
      vlan ←
        (if String.eqb networktype Vlan then
           vo ← schema.GetOk Arg_Cidr;
           if snd vo : bool then
             networkcidr ← schema.asString (fst vo);
             ipData ← lift (generateIPData networkcidr);
             let '(gateway, firstip, lastip) := ipData in
             gateway ←
               (g ← schema.GetOk Arg_Gateway;
                if snd g : bool then schema.asString (fst g) else mret gateway);
             ipBodyRanges ←
               (ips ← schema.GetOk Arg_IPAddressRange;
                if snd ips : bool
                then l ← schema.asList (fst ips); lift (getIPAddressRanges l)
                else mret [Some (IPAddressRange.mk (Some lastip) (Some firstip))]);
             mret (ipBodyRanges, gateway, networkcidr)
           else fail (Errorf (Arg_Cidr +:+ " is required when " +:+ Arg_NetworkType
                              +:+ " is vlan"))
         else mret ([], "", ""));
      let '(ipBodyRanges, gateway, networkcidr) := vlan in
      cidrSet ← schema.GetOk Arg_Cidr;
      if snd cidrSet && String.eqb networktype PubVlan
      then fail (Errorf (Arg_Cidr +:+ " cannot be set when " +:+ Arg_NetworkType
                         +:+ " is pub-vlan"))
      else
      per ←
        (if negb (IsOnPrem sess) then
           let wsclient := NewIBMPIWorkspacesClient sess cloudInstanceID in
           w ← wsclient_Get wsclient cloudInstanceID;
           match w with
           | Failure err => fail err
           | Success wsData =>
               if default false (Workspace.Capabilities wsData !! PER) then
                 timeout ← schema.Timeout schema.TimeoutRead;
                 waitForPERWorkspaceActive wsclient cloudInstanceID timeout;;
                 if String.eqb networktype Vlan then
                   advertise ← optString Arg_Advertise;
                   arpBroadcast ← optString Arg_ARPBroadcast;
                   mret (advertise, arpBroadcast)
                 else mret (None, None)
               else mret (None, None)
           end
         else mret (None, None));
      let body :=
        NetworkCreate.mk (Some networktype) networkname dnsServers userTags mtu peer
          ipBodyRanges gateway networkcidr (fst per) (snd per) in
      response ← createNetworkWithRetry client body;
      networkResponse ← lift (deref response);
      networkID ← lift (deref (Network.NetworkID networkResponse));
      schema.SetId (cloudInstanceID +:+ "/" +:+ networkID);;
      timeout ← schema.Timeout schema.TimeoutCreate;
      isWaitForIBMPINetworkAvailable client networkID timeout;;
      tags ← schema.GetOk Arg_UserTags;
      (if snd tags && negb (String.eqb (Network.Crn networkResponse) "")
       then updateTags meta (Network.Crn networkResponse)
       else mret tt);;
      resourceIBMPINetworkRead meta
  end.

Definition resourceIBMPINetworkUpdate (meta : Meta) : M unit :=
  match IBMPISession_ meta with
  | Failure err => fail err
  | Success sess =>
      id ← schema.Id;
      ids ← lift (splitID id);
      let cloudInstanceID := fst ids in
      let networkID := snd ids in
      changes ← schema.HasChanges [Arg_Advertise; Arg_ARPBroadcast; Arg_DNS; Arg_Gateway;
                                   Arg_IPAddressRange; Arg_NetworkName];
      (if changes : bool then
         let client := NewIBMPINetworkClient sess cloudInstanceID in
         advertise ←
           (c ← schema.HasChange Arg_Advertise;
            if c : bool then getString Arg_Advertise else mret "");
         arpBroadcast ←
           (c ← schema.HasChange Arg_ARPBroadcast;
            if c : bool then getString Arg_ARPBroadcast else mret "");
         dnsServers ←
           (c ← schema.HasChange Arg_DNS;
            if c : bool
            then l ← schema.Get Arg_DNS ≫= schema.asList; lift (ExpandStringList l)
            else mret []);
         networkType ← getString Arg_NetworkType;
         rangeChange ← schema.HasChange Arg_IPAddressRange;
         gatewayChange ← schema.HasChange Arg_Gateway;
         vlan ←
           (if rangeChange || gatewayChange then
              if String.eqb networkType Vlan then
                ranges ←
                  (if rangeChange : bool
                   then l ← schema.Get Arg_IPAddressRange ≫= schema.asList;
                        lift (getIPAddressRanges l)
                   else mret []);
                gateway ←
                  (if gatewayChange : bool
                   then g ← getString Arg_Gateway; mret (Some g)
                   else mret None);
                mret (ranges, gateway)
              else fail (Errorf (networkType
                                 +:+ " type does not allow ip-address range or gateway update"))
            else mret ([], None));
         name ←
           (c ← schema.HasChange Arg_NetworkName;
            if c : bool then n ← getString Arg_NetworkName; mret (Some n) else mret None);
         let body :=
           NetworkUpdate.mk advertise arpBroadcast dnsServers (snd vlan) (fst vlan) name in
         r ← client_Update client networkID body;
         match r with
         | Failure err => fail err
         | Success _ =>
             timeout ← schema.Timeout schema.TimeoutUpdate;
             isWaitForIBMPINetworkUpdated client body networkID timeout;;
             mret tt
         end
       else mret tt);;
      tagChange ← schema.HasChange Arg_UserTags;
      (if tagChange : bool then
         crn ← schema.GetOk Attr_CRN;
         if snd crn : bool then c ← schema.asString (fst crn); updateTags meta c else mret tt
       else mret tt);;
      resourceIBMPINetworkRead meta
  end.

Definition resourceIBMPINetworkDelete (meta : Meta) : M unit :=
  match IBMPISession_ meta with
  | Failure err => fail err
  | Success sess =>
      id ← schema.Id;
      ids ← lift (splitID id);
      let cloudInstanceID := fst ids in
      let networkID := snd ids in
      let client := NewIBMPINetworkClient sess cloudInstanceID in
      deleteNetworkWithRetry client networkID;;
      timeout ← schema.Timeout schema.TimeoutDelete;
      isWaitForIBMPINetworkDeleted client networkID timeout;;
      schema.SetId ""
  end.

End Handlers.

End power.

(** ** What an IBM SDK service method hands back as
    [(result, response, err)] *)

Record DetailedResponse := mkDetailedResponse { StatusCode : Z }.

Inductive SdkReply (R : Type) : Type :=
| SdkOk (result : R) (response : DetailedResponse)
| SdkErr (result : option R) (response : option DetailedResponse) (err : error).
Arguments SdkOk {R} result response.
Arguments SdkErr {R} result response err.

(** [response != nil && response.StatusCode == 404]. *)
Definition is404 (response : option DetailedResponse) : bool :=
  match response with
  | Some r => StatusCode r =? 404
  | None => false
  end.

(** The vendor answered a request with an error and status 404. *)
Definition replied404 {R} (r : SdkReply R) : bool :=
  match r with
  | SdkErr _ response _ => is404 response
  | SdkOk _ _ => false
  end.

(** ** Private DNS: GLB monitor and permitted network *)

Module dnsservices.

Definition ibmDNSGlbMonitor := "ibm_dns_glb_monitor".
Definition pdnsGlbMonitorName := "name".
Definition pdnsGlbMonitorID := "monitor_id".
Definition pdnsGlbMonitorDescription := "description".
Definition pdnsGlbMonitorType := "type".
Definition pdnsGlbMonitorPort := "port".
Definition pdnsGlbMonitorInterval := "interval".
Definition pdnsGlbMonitorRetries := "retries".
Definition pdnsGlbMonitorTimeout := "timeout".
Definition pdnsGlbMonitorMethod := "method".
Definition pdnsGlbMonitorPath := "path".
Definition pdnsGlbMonitorAllowInsecure := "allow_insecure".
Definition pdnsGlbMonitorExpectedCodes := "expected_codes".
Definition pdnsGlbMonitorExpectedBody := "expected_body".
Definition pdnsGlbMonitorHeaders := "headers".
Definition pdnsGlbMonitorHeadersName := "name".
Definition pdnsGlbMonitorHeadersValue := "value".
Definition pdnsGlbMonitorCreatedOn := "created_on".
Definition pdnsGlbMonitorModifiedOn := "modified_on".

Definition pdnsVpcCRN := "vpc_crn".
Definition pdnsNetworkType := "type".
Definition pdnsPermittedNetworkID := "permitted_network_id".
Definition pdnsPermittedNetworkCreatedOn := "created_on".
Definition pdnsPermittedNetworkModifiedOn := "modified_on".
Definition pdnsPermittedNetworkState := "state".
Definition pdnsPermittedNetwork := "permitted_network".

(** Names of the package declared outside the sources at hand. *)
Class Externals := {
  pdnsInstanceID : string;
  pdnsZoneID : string;
  (** [flex.ExpandStringList], [flex.FlattenStringList] *)
  ExpandStringList : list Value -> result (list string);
  FlattenStringList : list string -> Value
}.

Module HealthcheckHeader.
Record t := mk { Name : option string; Value_ : list string }.
End HealthcheckHeader.

Module Monitor.
Record t := mk {
  ID : option string;
  Name : option string;
  Description : option string;
  Type_ : option string;
  Port : option Z;
  Interval : option Z;
  Retries : option Z;
  Timeout : option Z;
  Method : option string;
  Path : option string;
  HeadersVar : list HealthcheckHeader.t;
  AllowInsecure : option bool;
  ExpectedCodes : option string;
  ExpectedBody : option string;
  (** the timestamps, already rendered by [String()] *)
  CreatedOn : option string;
  ModifiedOn : option string
}.
End Monitor.

Module UpdateMonitorOptions.
Record t := mk {
  InstanceID : string;
  MonitorID : string;
  Name : option string;
  Description : option string;
  Interval : option Z;
  Retries : option Z;
  Timeout : option Z;
  Type_ : option string;
  Port : option Z;
  Path : option string;
  ExpectedCodes : option string;
  Method : option string;
  ExpectedBody : option string;
  HeadersVar : option (list HealthcheckHeader.t);
  AllowInsecure : option bool
}.
End UpdateMonitorOptions.

Module PermittedNetwork.
Record Vpc := mkVpc { VpcCrn : option string }.
Record t := mk {
  ID : option string;
  CreatedOn : option string;
  ModifiedOn : option string;
  PermittedNetwork_ : option Vpc;
  Type_ : option string;
  State : option string
}.
End PermittedNetwork.

(** The private DNS service client. *)
Record Session := mkSession {
  GetMonitor : string -> string -> list Event -> SdkReply Monitor.t;
  UpdateMonitor : UpdateMonitorOptions.t -> list Event -> SdkReply Monitor.t;
  DeleteMonitor : string -> string -> list Event -> SdkReply unit;
  NewPermittedNetworkVpc : string -> Reply PermittedNetwork.Vpc;
  CreatePermittedNetwork :
    string -> string -> string -> PermittedNetwork.Vpc -> list Event -> SdkReply PermittedNetwork.t;
  GetPermittedNetwork : string -> string -> string -> list Event -> SdkReply PermittedNetwork.t;
  DeletePermittedNetwork : string -> string -> string -> list Event -> SdkReply unit
}.

Record Meta := mkMeta { PrivateDNSClientSession : Reply Session }.

Section Handlers.
Context `{Externals}.

Definition getString (key : string) : M string := schema.Get key ≫= schema.asString.
Definition getInt (key : string) : M Z := schema.Get key ≫= schema.asInt.

Definition optString (key : string) : M (option string) :=
  vo ← schema.GetOk key;
  if snd vo : bool then s ← schema.asString (fst vo); mret (Some s) else mret None.

(** [d.Set(key, p)] under [if p != nil]. *)
Definition setIfPresent (key : string) (p : Value) : M unit :=
  match p with
  | VNil => mret tt
  | v => schema.Set_ key v
  end.

Fixpoint expandPDNSGLBMonitorsHeader (headers : list Value)
  : result (list HealthcheckHeader.t) :=
  match headers with
  | [] => Ok []
  | v :: rest =>
      locationConfig ← power.assertMap v;
      hname ← power.assertString (power.map_index locationConfig pdnsGlbMonitorHeadersName);
      values ← power.assertList (power.map_index locationConfig pdnsGlbMonitorHeadersValue);
      headers ← ExpandStringList values;
      expandheaders ← expandPDNSGLBMonitorsHeader rest;
      Ok (HealthcheckHeader.mk (Some hname) headers :: expandheaders)
  end.

Definition flattenDataSourceLoadBalancerHeader (header : list HealthcheckHeader.t) : Value :=
  VList ((fun v => VMap [(pdnsGlbMonitorHeadersName, VOptString (HealthcheckHeader.Name v));
                         (pdnsGlbMonitorHeadersValue,
                          FlattenStringList (HealthcheckHeader.Value_ v))]) <$> header).

(** *** GLB monitor *)

Definition resourceIBMPrivateDNSGLBMonitorRead (meta : Meta) : M unit :=
  match PrivateDNSClientSession meta with
  | Failure err => fail err
  | Success sess =>
      id ← schema.Id;
      let idset := strings.Split id "/" in
      instanceID ← lift (slice_at idset 0);
      monitorID ← lift (slice_at idset 1);
      r ← request (Call "dnssvcs" "GetMonitor" [instanceID; monitorID])
            (GetMonitor sess instanceID monitorID);
      match r with
      | SdkErr _ _ err =>
          fail (Wrapf "[ERROR] Error fetching dns services GLB Monitor:" err)
      | SdkOk response _ =>
          schema.Set_ pdnsInstanceID (VString instanceID);;
          schema.Set_ pdnsGlbMonitorID (VOptString (Monitor.ID response));;
          schema.Set_ pdnsGlbMonitorName (VOptString (Monitor.Name response));;
          createdOn ← lift (deref (Monitor.CreatedOn response));
          schema.Set_ pdnsGlbMonitorCreatedOn (VString createdOn);;
          modifiedOn ← lift (deref (Monitor.ModifiedOn response));
          schema.Set_ pdnsGlbMonitorModifiedOn (VString modifiedOn);;
          schema.Set_ pdnsGlbMonitorType (VOptString (Monitor.Type_ response));;
          schema.Set_ pdnsGlbMonitorPort (VOptInt (Monitor.Port response));;
          setIfPresent pdnsGlbMonitorPath (VOptString (Monitor.Path response));;
          setIfPresent pdnsGlbMonitorInterval (VOptInt (Monitor.Interval response));;
          setIfPresent pdnsGlbMonitorRetries (VOptInt (Monitor.Retries response));;
          setIfPresent pdnsGlbMonitorTimeout (VOptInt (Monitor.Timeout response));;
          setIfPresent pdnsGlbMonitorMethod (VOptString (Monitor.Method response));;
          setIfPresent pdnsGlbMonitorExpectedCodes (VOptString (Monitor.ExpectedCodes response));;
          setIfPresent pdnsGlbMonitorAllowInsecure (VOptBool (Monitor.AllowInsecure response));;
          setIfPresent pdnsGlbMonitorDescription (VOptString (Monitor.Description response));;
          setIfPresent pdnsGlbMonitorExpectedBody (VOptString (Monitor.ExpectedBody response));;
          schema.Set_ pdnsGlbMonitorHeaders
            (flattenDataSourceLoadBalancerHeader (Monitor.HeadersVar response))
      end
  end.

Definition monitorKeys : list string :=
  [pdnsGlbMonitorName; pdnsGlbMonitorDescription; pdnsGlbMonitorInterval;
   pdnsGlbMonitorRetries; pdnsGlbMonitorTimeout; pdnsGlbMonitorExpectedBody;
   pdnsGlbMonitorType; pdnsGlbMonitorPort; pdnsGlbMonitorPath;
   pdnsGlbMonitorAllowInsecure; pdnsGlbMonitorExpectedCodes; pdnsGlbMonitorHeaders].

Definition resourceIBMPrivateDNSGLBMonitorUpdate (meta : Meta) : M unit :=
  match PrivateDNSClientSession meta with
  | Failure err => fail err
  | Success sess =>
      id ← schema.Id;
      let idset := strings.Split id "/" in
      changes ← schema.HasChanges monitorKeys;
      (if changes : bool then
         instanceID ← lift (slice_at idset 0);
         monitorID ← lift (slice_at idset 1);
         uname ← getString pdnsGlbMonitorName;
         udescription ← getString pdnsGlbMonitorDescription;
         uinterval ← getInt pdnsGlbMonitorInterval;
         uretries ← getInt pdnsGlbMonitorRetries;
         utimeout ← getInt pdnsGlbMonitorTimeout;
         Mtype ← optString pdnsGlbMonitorType;
         Mport ←
           (vo ← schema.GetOk pdnsGlbMonitorPort;
            if snd vo : bool then z ← schema.asInt (fst vo); mret (Some z) else mret None);
         monitorpath ← optString pdnsGlbMonitorPath;
         monitorexpectedcodes ← optString pdnsGlbMonitorExpectedCodes;
         monitormethod ← optString pdnsGlbMonitorMethod;
         monitorexpectedbody ← optString pdnsGlbMonitorExpectedBody;
         monitorheaders ←
           (vo ← schema.GetOk pdnsGlbMonitorHeaders;
            if snd vo : bool then
              l ← schema.asList (fst vo);
              expanded ← lift (expandPDNSGLBMonitorsHeader l);
              mret (Some expanded)
            else mret None);
         monitorallowinsecure ←
           (vo ← schema.GetOkExists pdnsGlbMonitorAllowInsecure;
            if snd vo : bool then b ← schema.asBool (fst vo); mret (Some b) else mret None);
         let updateMonitorOptions :=
           UpdateMonitorOptions.mk instanceID monitorID (Some uname) (Some udescription)
             (Some uinterval) (Some uretries) (Some utimeout) Mtype Mport monitorpath
             monitorexpectedcodes monitormethod monitorexpectedbody monitorheaders
             monitorallowinsecure in
         r ← request (Call "dnssvcs" "UpdateMonitor" [instanceID; monitorID])
               (UpdateMonitor sess updateMonitorOptions);
         match r with
         | SdkErr _ _ err =>
             fail (Wrapf "[ERROR] Error updating dns services GLB Monitor:" err)
         | SdkOk _ _ => mret tt
         end
       else mret tt);;
      resourceIBMPrivateDNSGLBMonitorRead meta
  end.

Definition resourceIBMPrivateDNSGLBMonitorDelete (meta : Meta) : M unit :=
  match PrivateDNSClientSession meta with
  | Failure err => fail err
  | Success sess =>
      id ← schema.Id;
      let idset := strings.Split id "/" in
      instanceID ← lift (slice_at idset 0);
      monitorID ← lift (slice_at idset 1);
      r ← request (Call "dnssvcs" "DeleteMonitor" [instanceID; monitorID])
            (DeleteMonitor sess instanceID monitorID);
      match r with
      | SdkErr _ _ err =>
          fail (Wrapf "[ERROR] Error deleting dns services GLB Monitor:" err)
      | SdkOk _ _ => schema.SetId ""
      end
  end.

Definition resourceIBMPrivateDNSGLBMonitorExists (meta : Meta) : M bool :=
  match PrivateDNSClientSession meta with
  | Failure err => fail err
  | Success sess =>
      id ← schema.Id;
      let idset := strings.Split id "/" in
      if (length idset <? 2)%nat then
        fail (Errorf ("[ERROR] Incorrect ID " +:+ id
                      +:+ ": Id should be a combination of InstanceID/monitorID"))
      else
        instanceID ← lift (slice_at idset 0);
        monitorID ← lift (slice_at idset 1);
        r ← request (Call "dnssvcs" "GetMonitor" [instanceID; monitorID])
              (GetMonitor sess instanceID monitorID);
        match r with
        | SdkErr response detail err =>
            if not_nil response && is404 detail then mret false else fail err
        | SdkOk _ _ => mret true
        end
  end.

(** *** Permitted network *)

(** [conns.IbmMutexKV.Lock(mk); defer conns.IbmMutexKV.Unlock(mk)]. *)
Definition locked {A} (mk : string) (body : M A) : M A :=
  emit (Lock mk);; defer (emit (Unlock mk)) body.

Definition resourceIBMPrivateDNSPermittedNetworkRead (meta : Meta) : M unit :=
  match PrivateDNSClientSession meta with
  | Failure err => fail err
  | Success sess =>
      id ← schema.Id;
      let idSet := strings.Split id "/" in
      instanceID ← lift (slice_at idSet 0);
      zoneID ← lift (slice_at idSet 1);
      permittedNetworkID ← lift (slice_at idSet 2);
      r ← request (Call "dnssvcs" "GetPermittedNetwork" [instanceID; zoneID; permittedNetworkID])
            (GetPermittedNetwork sess instanceID zoneID permittedNetworkID);
      match r with
      | SdkErr _ _ err =>
          fail (Wrapf "[ERROR] Error reading dns services permitted network:" err)
      | SdkOk response _ =>
          schema.Set_ pdnsInstanceID (VString instanceID);;
          schema.Set_ pdnsZoneID (VString zoneID);;
          schema.Set_ pdnsPermittedNetworkID (VOptString (PermittedNetwork.ID response));;
          createdOn ← lift (deref (PermittedNetwork.CreatedOn response));
          schema.Set_ pdnsPermittedNetworkCreatedOn (VString createdOn);;
          modifiedOn ← lift (deref (PermittedNetwork.ModifiedOn response));
          schema.Set_ pdnsPermittedNetworkModifiedOn (VString modifiedOn);;
          vpc ← lift (deref (PermittedNetwork.PermittedNetwork_ response));
          schema.Set_ pdnsVpcCRN (VOptString (PermittedNetwork.VpcCrn vpc));;
          schema.Set_ pdnsNetworkType (VOptString (PermittedNetwork.Type_ response));;
          schema.Set_ pdnsPermittedNetworkState (VOptString (PermittedNetwork.State response))
      end
  end.

Definition resourceIBMPrivateDNSPermittedNetworkCreate (meta : Meta) : M unit :=
  match PrivateDNSClientSession meta with
  | Failure err => fail err
  | Success sess =>
      instanceID ← getString pdnsInstanceID;
      zoneID ← getString pdnsZoneID;
      vpcCRN ← getString pdnsVpcCRN;
      nwType ← getString pdnsNetworkType;
      let mk := "private_dns_permitted_network_" +:+ instanceID +:+ zoneID in
      locked mk
        (match NewPermittedNetworkVpc sess vpcCRN with
         | Failure err => fail err
         | Success permittedNetworkCrn =>
             r ← request (Call "dnssvcs" "CreatePermittedNetwork" [instanceID; zoneID])
                   (CreatePermittedNetwork sess instanceID zoneID nwType permittedNetworkCrn);
             match r with
             | SdkErr _ _ err =>
                 fail (Wrapf "[ERROR] Error creating dns services permitted network:" err)
             | SdkOk response _ =>
                 responseID ← lift (deref (PermittedNetwork.ID response));
                 schema.SetId (instanceID +:+ "/" +:+ zoneID +:+ "/" +:+ responseID);;
                 resourceIBMPrivateDNSPermittedNetworkRead meta
             end
         end)
  end.

Definition resourceIBMPrivateDNSPermittedNetworkDelete (meta : Meta) : M unit :=
  match PrivateDNSClientSession meta with
  | Failure err => fail err
  | Success sess =>
      id ← schema.Id;
      let idSet := strings.Split id "/" in
      instanceID ← lift (slice_at idSet 0);
      zoneID ← lift (slice_at idSet 1);
      let mk := "private_dns_permitted_network_" +:+ instanceID +:+ zoneID in
      locked mk
        (permittedNetworkID ← lift (slice_at idSet 2);
         r ← request (Call "dnssvcs" "DeletePermittedNetwork"
                           [instanceID; zoneID; permittedNetworkID])
               (DeletePermittedNetwork sess instanceID zoneID permittedNetworkID);
         match r with
         | SdkErr _ _ err =>
             fail (Wrapf "[ERROR] Error deleting dns services permitted network:" err)
         | SdkOk _ _ => schema.SetId ""
         end)
  end.

Definition resourceIBMPrivateDNSPermittedNetworkExists (meta : Meta) : M bool :=
  match PrivateDNSClientSession meta with
  | Failure err => fail err
  | Success sess =>
      id ← schema.Id;
      let idSet := strings.Split id "/" in
      if (length idSet <? 3)%nat then
        fail (Errorf ("[ERROR] Incorrect ID " +:+ id
                      +:+ ": Id should be a combination of InstanceID/zoneID/permittedNetworkID"))
      else
        instanceID ← lift (slice_at idSet 0);
        zoneID ← lift (slice_at idSet 1);
        let mk := "private_dns_permitted_network_" +:+ instanceID +:+ zoneID in
        locked mk
          (permittedNetworkID ← lift (slice_at idSet 2);
           r ← request (Call "dnssvcs" "GetPermittedNetwork"
                             [instanceID; zoneID; permittedNetworkID])
                 (GetPermittedNetwork sess instanceID zoneID permittedNetworkID);
           match r with
           | SdkErr _ response err => if is404 response then mret false else fail err
           | SdkOk _ _ => mret true
           end)
  end.

End Handlers.

(** *** Creating a GLB monitor *)

(** What [sess.NewCreateMonitorOptions(instanceID, name, type)] and the
    setters called on it build. *)
Module CreateMonitorOptions.
Record t := mk {
  InstanceID : string;
  Name : string;
  Type_ : string;
  Interval : option Z;
  Retries : option Z;
  Timeout : option Z;
  Description : option string;
  Port : option Z;
  Path : option string;
  ExpectedCodes : option string;
  Method : option string;
  ExpectedBody : option string;
  HeadersVar : option (list HealthcheckHeader.t);
  AllowInsecure : option bool
}.
End CreateMonitorOptions.

Section Creation.
Context `{Externals}.

(** [sess.CreateMonitor]: the one method of the session that only the create
    handler calls; it is passed beside [meta]. *)
Variable CreateMonitor : CreateMonitorOptions.t -> list Event -> SdkReply Monitor.t.

Definition resourceIBMPrivateDNSGLBMonitorCreate (meta : Meta) : M unit :=
  match PrivateDNSClientSession meta with
  | Failure err => fail err
  | Success sess =>
      instanceID ← getString pdnsInstanceID;
      monitorname ← getString pdnsGlbMonitorName;
      monitorinterval ← getInt pdnsGlbMonitorInterval;
      monitorretries ← getInt pdnsGlbMonitorRetries;
      monitortimeout ← getInt pdnsGlbMonitorTimeout;
      monitordescription ← optString pdnsGlbMonitorDescription;
      Mtype ← optString pdnsGlbMonitorType;
      Mport ←
        (vo ← schema.GetOk pdnsGlbMonitorPort;
         if snd vo : bool then z ← schema.asInt (fst vo); mret (Some z) else mret None);
      monitorpath ← optString pdnsGlbMonitorPath;
      monitorexpectedcodes ← optString pdnsGlbMonitorExpectedCodes;
      monitormethod ← optString pdnsGlbMonitorMethod;
      monitorexpectedbody ← optString pdnsGlbMonitorExpectedBody;
      monitorheaders ←
        (vo ← schema.GetOk pdnsGlbMonitorHeaders;
         if snd vo : bool then
           l ← schema.asList (fst vo);
           expanded ← lift (expandPDNSGLBMonitorsHeader l);
           mret (Some expanded)
         else mret None);
      monitorallowinsecure ←
        (vo ← schema.GetOkExists pdnsGlbMonitorAllowInsecure;
         if snd vo : bool then b ← schema.asBool (fst vo); mret (Some b) else mret None);
      let createMonitorOptions :=
        CreateMonitorOptions.mk instanceID monitorname (default "" Mtype)
          (Some monitorinterval) (Some monitorretries) (Some monitortimeout)
          monitordescription Mport monitorpath monitorexpectedcodes monitormethod
          monitorexpectedbody monitorheaders monitorallowinsecure in
      r ← request (Call "dnssvcs" "CreateMonitor" [instanceID; monitorname])
            (CreateMonitor createMonitorOptions);
      match r with
      | SdkErr _ _ err =>
          fail (Wrapf "[ERROR] Error creating dns services GLB monitor:" err)
      | SdkOk response _ =>
          responseID ← lift (deref (Monitor.ID response));
          schema.SetId (instanceID +:+ "/" +:+ responseID);;
          resourceIBMPrivateDNSGLBMonitorRead meta
      end
  end.

End Creation.

End dnsservices.

(** ** CIS: firewall rules and mTLS certificates *)

Module cis.

Definition ibmCISFirewallrules := "ibm_cis_firewall_rules".
Definition cisFirewallrulesID := "firewall_rule_id".
Definition cisFilter := "filter".
Definition cisFirewallrulesAction := "action".
Definition cisFirewallrulesPaused := "paused".
Definition cisFirewallrulesPriority := "priority".
Definition cisFirewallrulesDescription := "description".
Definition cisFirewallrulesList := "firewall_rules".

Definition cisMtlsID := "mtls_id".
Definition cisMtlsCert := "certificate".
Definition cisMtlsHostNames := "associated_hostnames".
Definition cisMtlsCertExpireOn := "expires_on".

(** Names of the package declared outside the sources at hand. *)
Class Externals := {
  cisID : string;
  cisDomainID : string;
  cisFilterID : string;
  cisFilterDescription : string;
  cisMtlsCertName : string;
  cisMtlsCertCreatedAt : string;
  cisMtlsCertUpdatedAt : string;
  cisMtlsCertID : string;
  (** [flex.ConvertTfToCisThreeVar(id)]: the three parts and the error
      value, which every caller discards. *)
  ConvertTfToCisThreeVar : string -> string * string * string * option error;
  ExpandStringList : list Value -> result (list string)
}.

Module FirewallRule.
Record Filter_t := mkFilter { Filter_ID : option string }.
Record Object := mkObject {
  ID : option string;
  Paused : option bool;
  Description : option string;
  Action : option string;
  Filter : option Filter_t
}.
(** [GetFirewallRuleResp] *)
Record Resp := mkResp { Result : option Object }.
End FirewallRule.

Module FirewallRulesUpdateInputItem.
Record t := mk {
  ID : option string;
  Action : option string;
  Paused : option bool;
  Description : option string;
  Priority : option Z;
  Filter : option string
}.
End FirewallRulesUpdateInputItem.

Module AccessCertificate.
Record Object := mkObject {
  ID : option string;
  CreatedAt : option string;
  UpdatedAt : option string;
  ExpiresOn : option string
}.
Record Resp := mkResp { Result : option Object }.
End AccessCertificate.

Record FirewallRulesSession := mkFirewallRulesSession {
  GetFirewallRule : string -> string -> string -> list Event -> SdkReply FirewallRule.Resp;
  (** the result may be nil without an error *)
  UpdateFirewllRules :
    string -> string -> FirewallRulesUpdateInputItem.t -> list Event -> SdkReply (option unit);
  DeleteFirewallRules : string -> string -> string -> list Event -> SdkReply unit
}.

Record FiltersSession := mkFiltersSession {
  DeleteFilters : string -> string -> string -> list Event -> SdkReply unit
}.

Record MtlsSession := mkMtlsSession {
  GetAccessCertificate :
    string -> string -> string -> list Event -> SdkReply AccessCertificate.Resp;
  UpdateAccessCertificate :
    string -> string -> string -> option (list string) -> option string -> list Event
    -> SdkReply AccessCertificate.Resp;
  DeleteAccessCertificate : string -> string -> string -> list Event -> SdkReply unit
}.

Record Meta := mkMeta {
  (** [BluemixSession()]: the IAM access token of the session *)
  BluemixSession : Reply string;
  CisFirewallRulesSession : Reply FirewallRulesSession;
  CisFiltersSession : Reply FiltersSession;
  CisMtlsSession : Reply MtlsSession
}.

(** [flex.TerraformErrorf(err, msg, resource, operation).GetDiag()] where
    [msg] is a literal followed by the text of [cause]. *)
Definition TerraformErrorf (context : string) (cause : error) : error := Wrapf context cause.

Section Handlers.
Context `{Externals}.

Definition optString (key : string) : M (option string) :=
  vo ← schema.GetOk key;
  if snd vo : bool then s ← schema.asString (fst vo); mret (Some s) else mret None.

(** *** Firewall rules *)

Definition ResourceIBMCISFirewallrulesRead (meta : Meta) : M unit :=
  match BluemixSession meta with
  | Failure err =>
      fail (TerraformErrorf "ResourceIBMCISFirewallrulesRead BluemixSession initialization failed: " err)
  | Success xAuthtoken =>
      match CisFirewallRulesSession meta with
      | Failure err =>
          fail (TerraformErrorf "ResourceIBMCISFirewallrulesRead CisFirewallRulesSession initialization failed: " err)
      | Success cisClient =>
          id ← schema.Id;
          let '(firwallruleID, zoneID, crn, _) := ConvertTfToCisThreeVar id in
          r ← request (Call "firewallrules" "GetFirewallRule" [crn; zoneID; firwallruleID])
                (GetFirewallRule cisClient crn zoneID firwallruleID);
          match r with
          | SdkErr _ response err =>
              if is404 response then schema.SetId ""
              else fail (TerraformErrorf "ResourceIBMCISFirewallrulesRead GetFirewallRuleWithContext failed: " err)
          | SdkOk result _ =>
              schema.Set_ cisID (VString crn);;
              schema.Set_ cisDomainID (VString zoneID);;
              rule ← lift (deref (FirewallRule.Result result));
              filter ← lift (deref (FirewallRule.Filter rule));
              schema.Set_ cisFilterID (VOptString (FirewallRule.Filter_ID filter));;
              schema.Set_ cisFirewallrulesAction (VOptString (FirewallRule.Action rule));;
              schema.Set_ cisFirewallrulesPaused (VOptBool (FirewallRule.Paused rule));;
              schema.Set_ cisFilterDescription (VOptString (FirewallRule.Description rule))
          end
      end
  end.

Definition ResourceIBMCISFirewallrulesUpdate (meta : Meta) : M unit :=
  match BluemixSession meta with
  | Failure err =>
      fail (TerraformErrorf "ResourceIBMCISFirewallrulesUpdate BluemixSession initialization failed: " err)
  | Success xAuthtoken =>
      match CisFirewallRulesSession meta with
      | Failure err =>
          fail (TerraformErrorf "ResourceIBMCISFirewallrulesUpdate CisFirewallRulesSession initialization failed: " err)
      | Success cisClient =>
          id ← schema.Id;
          let '(firewallruleID, zoneID, crn, _) := ConvertTfToCisThreeVar id in
          changes ← schema.HasChanges [cisFilterID; cisFirewallrulesAction; cisFirewallrulesPaused;
                                       cisFilterDescription; cisFirewallrulesPriority];
          (if changes : bool then
             action ← optString cisFirewallrulesAction;
             paused ←
               (vo ← schema.GetOk cisFirewallrulesPaused;
                if snd vo : bool then b ← schema.asBool (fst vo); mret (Some b) else mret None);
             description ← optString cisFilterDescription;
             priority ←
               (vo ← schema.GetOk cisFirewallrulesPriority;
                if snd vo : bool then z ← schema.asInt (fst vo); mret (Some z) else mret None);
             filter ← optString cisFilterID;
             let updatefirewallrules :=
               FirewallRulesUpdateInputItem.mk (Some firewallruleID) action paused description
                 priority filter in
             r ← request (Call "firewallrules" "UpdateFirewllRules" [crn; zoneID; firewallruleID])
                   (UpdateFirewllRules cisClient crn zoneID updatefirewallrules);
             match r with
             | SdkErr _ _ err =>
                 fail (TerraformErrorf "ResourceIBMCISFirewallrulesUpdate UpdateFirewllRulesWithContext failed: " err)
             | SdkOk None _ => panic "invalid memory address or nil pointer dereference"
             | SdkOk (Some _) _ => mret tt
             end
           else mret tt);;
          ResourceIBMCISFirewallrulesRead meta
      end
  end.

Definition ResourceIBMCISFirewallrulesDelete (meta : Meta) : M unit :=
  match BluemixSession meta with
  | Failure err =>
      fail (TerraformErrorf "ResourceIBMCISFirewallrulesDelete BluemixSession initialization failed: " err)
  | Success xAuthtoken =>
      match CisFirewallRulesSession meta with
      | Failure err =>
          fail (TerraformErrorf "ResourceIBMCISFirewallrulesDelete CisFirewallRulesSession initialization failed: " err)
      | Success cisClient =>
          id ← schema.Id;
          let '(firewallruleid, zoneID, crn, _) := ConvertTfToCisThreeVar id in
          r ← request (Call "firewallrules" "DeleteFirewallRules" [crn; zoneID; firewallruleid])
                (DeleteFirewallRules cisClient crn zoneID firewallruleid);
          match r with
          | SdkErr _ response err =>
              if is404 response then mret tt
              else fail (TerraformErrorf "ResourceIBMCISFirewallrulesDelete DeleteFirewallRulesWithContext failed: " err)
          | SdkOk _ _ =>
              vo ← schema.GetOk cisFilterID;
              if snd vo : bool then
                match CisFiltersSession meta with
                | Failure _ => mret tt
                | Success cisFilterClient =>
                    filter_id ← schema.asString (fst vo);
                    f ← request (Call "filters" "DeleteFilters" [crn; zoneID; filter_id])
                          (DeleteFilters cisFilterClient crn zoneID filter_id);
                    match f with
                    | SdkErr _ _ err =>
                        fail (TerraformErrorf "ResourceIBMCISFirewallrulesDelete DeleteFilters failed: " err)
                    | SdkOk _ _ => schema.SetId ""
                    end
                end
              else schema.SetId ""
          end
      end
  end.

(** *** mTLS certificates *)

Definition resourceIBMCISMtlsRead (meta : Meta) : M unit :=
  match CisMtlsSession meta with
  | Failure err =>
      fail (TerraformErrorf "resourceIBMCISMtlsRead CisMtlsSession initialization failed: " err)
  | Success sess =>
      id ← schema.Id;
      let '(certID, zoneID, crn, _) := ConvertTfToCisThreeVar id in
      r ← request (Call "mtls" "GetAccessCertificate" [crn; zoneID; certID])
            (GetAccessCertificate sess crn zoneID certID);
      match r with
      | SdkErr _ response err =>
          if is404 response then schema.SetId ""
          else fail (TerraformErrorf "resourceIBMCISMtlsRead GetAccessCertificate failed: " err)
      | SdkOk result _ =>
          schema.Set_ cisID (VString crn);;
          schema.Set_ cisDomainID (VString zoneID);;
          cert ← lift (deref (AccessCertificate.Result result));
          certId ← lift (deref (AccessCertificate.ID cert));
          schema.Set_ cisMtlsID (VString certId);;
          createdAt ← lift (deref (AccessCertificate.CreatedAt cert));
          schema.Set_ cisMtlsCertCreatedAt (VString createdAt);;
          updatedAt ← lift (deref (AccessCertificate.UpdatedAt cert));
          schema.Set_ cisMtlsCertUpdatedAt (VString updatedAt);;
          expiresOn ← lift (deref (AccessCertificate.ExpiresOn cert));
          schema.Set_ cisMtlsCertExpireOn (VString expiresOn);;
          schema.Set_ cisMtlsCertID (VString certId)
      end
  end.

Definition resourceIBMCISMtlsUpdate (meta : Meta) : M unit :=
  match CisMtlsSession meta with
  | Failure err =>
      fail (TerraformErrorf "resourceIBMCISMtlsUpdate CisMtlsSession initialization failed: " err)
  | Success sess =>
      crn ← schema.Get cisID ≫= schema.asString;
      id ← schema.Id;
      let '(certID, zoneID, _, _) := ConvertTfToCisThreeVar id in
      changes ← schema.HasChanges [cisMtlsCertName; cisMtlsHostNames];
      (if changes : bool then
         hostnames ←
           (vo ← schema.GetOk cisMtlsHostNames;
            if snd vo : bool then
              l ← schema.Get cisMtlsHostNames ≫= schema.asList;
              names ← lift (ExpandStringList l);
              mret (Some names)
            else mret None);
         name ← optString cisMtlsCertName;
         r ← request (Call "mtls" "UpdateAccessCertificate" [crn; zoneID; certID])
               (UpdateAccessCertificate sess crn zoneID certID hostnames name);
         match r with
         | SdkErr _ _ updateErr =>
             fail (TerraformErrorf "resourceIBMCISMtlsUpdate UpdateAccessCertificate failed: " updateErr)
         | SdkOk _ _ => mret tt
         end
       else mret tt);;
      resourceIBMCISMtlsRead meta
  end.

Definition resourceIBMCISMtlsDelete (meta : Meta) : M unit :=
  match CisMtlsSession meta with
  | Failure err =>
      fail (TerraformErrorf "resourceIBMCISMtlsDelete CisMtlsSession initialization failed: " err)
  | Success sess =>
      id ← schema.Id;
      let '(certID, zoneID, crn, _) := ConvertTfToCisThreeVar id in
      r ← request (Call "mtls" "DeleteAccessCertificate" [crn; zoneID; certID])
            (DeleteAccessCertificate sess crn zoneID certID);
      match r with
      | SdkErr _ _ delErr =>
          fail (TerraformErrorf "resourceIBMCISMtlsDelete CisMtlsSession initialization failed: " delErr)
      | SdkOk _ _ => mret tt
      end
  end.

End Handlers.

(** *** Creating a firewall rule and an mTLS certificate *)

Module FirewallRuleInput.
Record t := mk {
  Action : option string;
  Paused : option bool;
  Description : option string;
  Filter : option string;
  Priority : option Z
}.
End FirewallRuleInput.

Section Creation.
Context `{Externals}.

(** Names that only the create handlers use: [flex.ConvertTftoCisTwoVar],
    [flex.ConvertCisToTfThreeVar], and the creation methods of the two
    clients (their result may be nil without an error).  They are passed
    beside [meta]. *)
Variable ConvertTftoCisTwoVar : string -> string * string * option error.
Variable ConvertCisToTfThreeVar : string -> string -> string -> string.
Variable CreateFirewallRules :
  string -> string -> FirewallRuleInput.t -> list Event
  -> SdkReply (option (list FirewallRule.Object)).
Variable CreateAccessCertificate :
  string -> string -> option string -> option string -> option (list string) -> list Event
  -> SdkReply (option AccessCertificate.Resp).

Definition ResourceIBMCISFirewallrulesCreate (meta : Meta) : M unit :=
  match BluemixSession meta with
  | Failure err =>
      fail (TerraformErrorf "ResourceIBMCISFirewallrulesCreate BluemixSession initialization failed: " err)
  | Success xAuthtoken =>
      match CisFirewallRulesSession meta with
      | Failure err =>
          fail (TerraformErrorf "ResourceIBMCISFirewallrulesCreate CisFirewallRulesSession initialization failed: " err)
      | Success cisClient =>
          crn ← schema.Get cisID ≫= schema.asString;
          domain ← schema.Get cisDomainID ≫= schema.asString;
          let '(zoneID, _, _) := ConvertTftoCisTwoVar domain in
          action ← optString cisFirewallrulesAction;
          paused ←
            (vo ← schema.GetOk cisFirewallrulesPaused;
             if snd vo : bool then b ← schema.asBool (fst vo); mret (Some b) else mret None);
          description ← optString cisFilterDescription;
          filter ← optString cisFilterID;
          priority ←
            (vo ← schema.GetOk cisFirewallrulesPriority;
             if snd vo : bool then z ← schema.asInt (fst vo); mret (Some z) else mret None);
          let newFirewallRules :=
            FirewallRuleInput.mk action paused description filter priority in
          r ← request (Call "firewallrules" "CreateFirewallRules" [crn; zoneID])
                (CreateFirewallRules crn zoneID newFirewallRules);
          match r with
          | SdkErr _ _ err =>
              fail (TerraformErrorf "ResourceIBMCISFirewallrulesCreate CreateFirewallRulesWithContext failed: " err)
          | SdkOk None _ => panic "invalid memory address or nil pointer dereference"
          | SdkOk (Some rules) _ =>
              first ← lift (slice_at rules 0);
              ruleID ← lift (deref (FirewallRule.ID first));
              schema.SetId (ConvertCisToTfThreeVar ruleID zoneID crn);;
              ResourceIBMCISFirewallrulesRead meta
          end
      end
  end.

Definition resourceIBMCISMtlsCreate (meta : Meta) : M unit :=
  match CisMtlsSession meta with
  | Failure err =>
      fail (TerraformErrorf "resourceIBMCISMtlsCreate CisMtlsSession initialization failed: " err)
  | Success sess =>
      crn ← schema.Get cisID ≫= schema.asString;
      zoneID ← schema.Get cisDomainID ≫= schema.asString;
      name ← optString cisMtlsCertName;
      cert_val ← optString cisMtlsCert;
      hostnames ←
        (vo ← schema.GetOk cisMtlsHostNames;
         if snd vo : bool then
           l ← schema.Get cisMtlsHostNames ≫= schema.asList;
           names ← lift (ExpandStringList l);
           mret (Some names)
         else mret None);
      r ← request (Call "mtls" "CreateAccessCertificate" [crn; zoneID])
            (CreateAccessCertificate crn zoneID name cert_val hostnames);
      match r with
      | SdkErr _ _ err =>
          fail (TerraformErrorf "resourceIBMCISMtlsCreate CreateAccessCertificate failed: " err)
      | SdkOk None _ => panic "invalid memory address or nil pointer dereference"
      | SdkOk (Some result) _ =>
          cert ← lift (deref (AccessCertificate.Result result));
          certID ← lift (deref (AccessCertificate.ID cert));
          schema.SetId (ConvertCisToTfThreeVar certID zoneID crn);;
          resourceIBMCISMtlsRead meta
      end
  end.

End Creation.

End cis.

(** ** HPCS data source *)

Module hpcs.

Module ResourceInstance.
Record t := mk {
  ID : option string;
  State : option string;
  ResourceGroupID : option string;
  RegionID : option string;
  ResourceID : option string;
  ResourcePlanID : option string;
  GUID : option string;
  CRN : option string;
  Extensions : list (string * Value);
  Parameters : option (list (string * Value))
}.
End ResourceInstance.

Module ListResourceInstancesOptions.
Record t := mk {
  Name : option string;
  ResourceGroupID : option string;
  ResourceID : option string;
  Start : option string
}.
Definition SetStart (o : t) (start : string) : t :=
  mk (Name o) (ResourceGroupID o) (ResourceID o) (Some start).
End ListResourceInstancesOptions.

Module ResourceInstancesList.
Record t := mk { NextURL : option string; Resources : list ResourceInstance.t }.
End ResourceInstancesList.

Module HsmInfo.
Record Admin := mkAdmin { AdminName : string; AdminSKI : string }.
Record t := mk {
  HsmId : string;
  HsmLocation : string;
  HsmType : string;
  SignatureThreshold : Z;
  RevocationThreshold : Z;
  CurrentMKStatus : string;
  NewMKStatus : string;
  CurrentMKVP : string;
  NewMKVP : string;
  Admins : list Admin
}.
End HsmInfo.

Record ResourceControllerV2 := mkResourceControllerV2 {
  ListResourceInstances :
    ListResourceInstancesOptions.t -> list Event -> SdkReply ResourceInstancesList.t
}.

Record ResourceCatalog := mkResourceCatalog {
  (** the identifiers of the offerings found *)
  FindByName : string -> list Event -> Reply (list string);
  GetServiceName : string -> list Event -> Reply string;
  GetServicePlanName : string -> list Event -> Reply string
}.

Record Meta := mkMeta {
  ResourceControllerV2API : Reply ResourceControllerV2;
  ResourceCatalogAPI : Reply ResourceCatalog;
  (** [hsmClient(d, meta)] and [tkesdk.Query] *)
  hsmClient : Reply unit;
  Query : string -> list Event -> Reply (list HsmInfo.t)
}.

(** Functions of other packages, parameters of the embedding. *)
Class Externals := {
  (** [url.Parse(s)], reduced to the query pairs of the URL *)
  url_Parse : string -> Reply (list (string * string));
  (** [flex.GetLocationV2], [flex.Flatten] *)
  GetLocationV2 : ResourceInstance.t -> string;
  Flatten : list (string * Value) -> list (string * string);
  (** [strconv.Atoi] *)
  Atoi : string -> Reply Z
}.

(** [url.Values.Get(key)]: the first value of the key, or the empty
    string. *)
Definition Values_Get (q : list (string * string)) (key : string) : string :=
  default "" (snd <$> List.find (fun p => String.eqb (fst p) key) q).

Definition FlattenHSMInfo (hsmInfo : list HsmInfo.t) : Value :=
  VList ((fun h =>
            VMap [("hsm_id", VString (HsmInfo.HsmId h));
                  ("hsm_location", VString (HsmInfo.HsmLocation h));
                  ("hsm_type", VString (HsmInfo.HsmType h));
                  ("signature_threshold", VInt (HsmInfo.SignatureThreshold h));
                  ("revocation_threshold", VInt (HsmInfo.RevocationThreshold h));
                  ("current_mk_status", VString (HsmInfo.CurrentMKStatus h));
                  ("new_mk_status", VString (HsmInfo.NewMKStatus h));
                  ("current_mkvp", VString (HsmInfo.CurrentMKVP h));
                  ("new_mkvp", VString (HsmInfo.NewMKVP h));
                  ("admins",
                   VList ((fun a => VMap [("name", VString (HsmInfo.AdminName a));
                                          ("ski", VString (HsmInfo.AdminSKI a))])
                            <$> HsmInfo.Admins h))])
           <$> hsmInfo).

Section Handlers.
Context `{Externals}.

Definition getInstancesNext (next : option string) : result string :=
  match next with
  | None => Ok ""
  | Some next =>
      match url_Parse next with
      | Failure err => Fail err
      | Success q => Ok (Values_Get q "next_url")
      end
  end.

(** The paging loop of the read: [None] when [fuel] requests did not reach
    the last page. *)
Fixpoint listInstances (fuel : nat) (rsConClient : ResourceControllerV2)
    (options : ListResourceInstancesOptions.t) (next_url : string)
    (instances : list ResourceInstance.t) : M (option (list ResourceInstance.t)) :=
  match fuel with
  | O => mret None
  | S fuel' =>
      let options :=
        if negb (String.eqb next_url "")
        then ListResourceInstancesOptions.SetStart options next_url
        else options in
      r ← request (Call "resource-controller" "ListResourceInstances"
                        [default "" (ListResourceInstancesOptions.Start options)])
            (ListResourceInstances rsConClient options);
      match r with
      | SdkErr _ _ err =>
          fail (Wrapf "[ERROR] Error retrieving resource instance: " err)
      | SdkOk listInstanceResponse _ =>
          match getInstancesNext (ResourceInstancesList.NextURL listInstanceResponse) with
          | Fail err =>
              fail (Wrapf "[DEBUG] ListResourceInstances failed. Error occurred while parsing NextURL: " err)
          | Panic s => panic s
          | Ok next_url =>
              let instances :=
                (instances ++ ResourceInstancesList.Resources listInstanceResponse)%list in
              if String.eqb next_url "" then mret (Some instances)
              else listInstances fuel' rsConClient options next_url instances
          end
      end
  end.

Definition setParameters (instance : ResourceInstance.t) : M unit :=
  match ResourceInstance.Parameters instance with
  | None => mret tt
  | Some parameters =>
      let instanceParameters := Flatten parameters in
      match List.find (fun p => String.eqb (fst p) "allowed_network") instanceParameters with
      | Some (_, endpoint) =>
          schema.Set_ "service_endpoints"
            (VString (if negb (String.eqb endpoint "private-only")
                      then "public-and-private" else endpoint))
      | None => schema.Set_ "service_endpoints" (VString "public-and-private")
      end;;
      match List.find (fun p => String.eqb (fst p) "units") instanceParameters with
      | Some (_, u) =>
          schema.Set_ "units" (VInt match Atoi u with Success n => n | Failure _ => 0 end)
      | None => mret tt
      end;;
      match List.find (fun p => String.eqb (fst p) "failover_units") instanceParameters with
      | Some (_, f) =>
          schema.Set_ "failover_units"
            (VInt match Atoi f with Success n => n | Failure _ => 0 end)
      | None => mret tt
      end
  end.

(** What the read does with the single instance it selected. *)
Definition populate (meta : Meta) (rsCatRepo : ResourceCatalog)
    (instance : ResourceInstance.t) : M unit :=
  id ← lift (deref (ResourceInstance.ID instance));
  schema.SetId id;;
  schema.Set_ "status" (VOptString (ResourceInstance.State instance));;
  schema.Set_ "resource_group_id" (VOptString (ResourceInstance.ResourceGroupID instance));;
  schema.Set_ "location" (VOptString (ResourceInstance.RegionID instance));;
  resourceID ← lift (deref (ResourceInstance.ResourceID instance));
  serviceOff ← request (Call "catalog" "GetServiceName" [resourceID])
                 (GetServiceName rsCatRepo resourceID);
  match serviceOff with
  | Failure err => fail (Wrapf "[ERROR] Error retrieving service offering: " err)
  | Success serviceOff =>
      schema.Set_ "service" (VString serviceOff);;
      schema.Set_ "guid" (VOptString (ResourceInstance.GUID instance));;
      (if (length (ResourceInstance.Extensions instance) =? 0)%nat
       then schema.Set_ "extensions" (VMap (ResourceInstance.Extensions instance))
       else schema.Set_ "extensions"
              (VMap ((fun p => (fst p, VString (snd p)))
                       <$> Flatten (ResourceInstance.Extensions instance))));;
      setParameters instance;;
      planID ← lift (deref (ResourceInstance.ResourcePlanID instance));
      servicePlan ← request (Call "catalog" "GetServicePlanName" [planID])
                      (GetServicePlanName rsCatRepo planID);
      match servicePlan with
      | Failure err => fail (Wrapf "[ERROR] Error retrieving plan: " err)
      | Success servicePlan =>
          schema.Set_ "plan" (VString servicePlan);;
          schema.Set_ "crn" (VOptString (ResourceInstance.CRN instance));;
          match hsmClient meta with
          | Failure err => fail err
          | Success _ =>
              guid ← lift (deref (ResourceInstance.GUID instance));
              hsmInfo ← request (Call "tke" "Query" [guid]) (Query meta guid);
              match hsmInfo with
              | Failure err => fail (Wrapf "[ERROR] Error Quering HSM config " err)
              | Success hsmInfo => schema.Set_ "hsm_info" (FlattenHSMInfo hsmInfo)
              end
          end
      end
  end.

Definition noInstance (name : string) : error :=
  Errorf ("[ERROR] No resource instance found with name [" +:+ name +:+ "]").

Definition moreThanOne (name : string) : error :=
  Errorf ("[ERROR] More than one resource instance found with name matching ["
          +:+ name +:+ "]").

Definition dataSourceIBMHPCSRead (fuel : nat) (meta : Meta) : M (option unit) :=
  match ResourceControllerV2API meta with
  | Failure err => fail err
  | Success rsConClient =>
      name ← schema.Get "name" ≫= schema.asString;
      resourceGroupID ←
        (vo ← schema.GetOk "resource_group_id";
         if snd vo : bool then rg ← schema.asString (fst vo); mret (Some rg) else mret None);
      match ResourceCatalogAPI meta with
      | Failure err => fail err
      | Success rsCatRepo =>
          resourceID ←
            (vo ← schema.GetOk "service";
             if snd vo : bool then
               service ← schema.asString (fst vo);
               found ← request (Call "catalog" "FindByName" [service])
                         (FindByName rsCatRepo service);
               match found with
               | Failure err =>
                   fail (Wrapf "[ERROR] Error retrieving service offering: " err)
               | Success serviceOff =>
                   resourceId ← lift (slice_at serviceOff 0);
                   mret (Some resourceId)
               end
             else mret None);
          let resourceInstanceListOptions :=
            ListResourceInstancesOptions.mk (Some name) resourceGroupID resourceID None in
          listed ← listInstances fuel rsConClient resourceInstanceListOptions "" [];
          match listed with
          | None => mret None
          | Some instances =>
              loc ← schema.GetOk "location";
              filteredInstances ←
                (if snd loc : bool then
                   location ← schema.asString (fst loc);
                   mret (List.filter
                           (fun instance => String.eqb (GetLocationV2 instance) location)
                           instances)
                 else mret instances);
              match filteredInstances with
              | [] => fail (noInstance name)
              | [instance] => populate meta rsCatRepo instance;; mret (Some tt)
              | _ => fail (moreThanOne name)
              end
          end
      end
  end.

End Handlers.

Section Paging.
Context `{Externals}.





End Paging.

End hpcs.

(** ** Instantiations used to run the handlers *)

Module samples.

Fixpoint expandStrings (l : list Value) : result (list string) :=
  match l with
  | [] => Ok []
  | v :: rest =>
      s ← power.assertString v;
      tl ← expandStrings rest;
      Ok (s :: tl)
  end.

Definition splitTwo (id : string) : result (string * string) :=
  match strings.Split id "/" with
  | a :: b :: _ => Ok (a, b)
  | _ => Fail (Errorf ("The given id " +:+ id +:+ " does not contain /"))
  end.

Definition power_externals : power.Externals := {|
  power.Arg_Advertise := "pi_advertise";
  power.Arg_ARPBroadcast := "pi_arp_broadcast";
  power.Arg_Cidr := "pi_cidr";
  power.Arg_CloudInstanceID := "pi_cloud_instance_id";
  power.Arg_DNS := "pi_dns";
  power.Arg_EndingIPAddress := "pi_ending_ip_address";
  power.Arg_Gateway := "pi_gateway";
  power.Arg_IPAddressRange := "pi_ipaddress_range";
  power.Arg_NetworkMTU := "pi_network_mtu";
  power.Arg_NetworkName := "pi_network_name";
  power.Arg_NetworkPeer := "pi_network_peer";
  power.Arg_NetworkType := "pi_network_type";
  power.Arg_StartingIPAddress := "pi_starting_ip_address";
  power.Arg_UserTags := "pi_user_tags";
  power.Attr_CRN := "crn";
  power.Attr_ID := "id";
  power.Attr_NetworkAddressTranslation := "network_address_translation";
  power.Attr_NetworkID := "network_id";
  power.Attr_PeerID := "peer_id";
  power.Attr_SourceIP := "source_ip";
  power.Attr_Type := "type";
  power.Attr_VLanID := "vlan_id";
  power.NotFound := "not found";
  power.PER := "power-edge-router";
  power.PubVlan := "pub-vlan";
  power.Vlan := "vlan";
  power.UserTagType := "user";
  power.State_Active := "active";
  power.State_Available := "available";
  power.State_Build := "build";
  power.State_Configuring := "configuring";
  power.State_Error := "error";
  power.State_Failed := "failed";
  power.State_Found := "found";
  power.State_Inactive := "inactive";
  power.State_NotFound := "notfound";
  power.State_Retry := "retry";
  power.Retry_Delay := 10%nat;
  power.Retries := 5%nat;
  power.splitID := splitTwo;
  power.ExpandStringList := expandStrings;
  power.FlattenSet := fun v => power.assertList v ≫= expandStrings
|}.

Definition dns_externals : dnsservices.Externals := {|
  dnsservices.pdnsInstanceID := "instance_id";
  dnsservices.pdnsZoneID := "zone_id";
  dnsservices.ExpandStringList := expandStrings;
  dnsservices.FlattenStringList := VStrings
|}.

(** The identity of a CIS resource as ["id:zone:crn"]; the error of a short
    identity is the one the callers throw away. *)
Definition threeVar (id : string) : string * string * string * option error :=
  match strings.Split id ":" with
  | a :: b :: c :: rest => (a, b, strings.Join (c :: rest) ":", None)
  | a :: _ => (a, "", "", Some (Errorf "cis_id or zone_id not passed"))
  | [] => ("", "", "", Some (Errorf "cis_id or zone_id not passed"))
  end.

Definition cis_externals : cis.Externals := {|
  cis.cisID := "cis_id";
  cis.cisDomainID := "domain_id";
  cis.cisFilterID := "filter_id";
  cis.cisFilterDescription := "description";
  cis.cisMtlsCertName := "name";
  cis.cisMtlsCertCreatedAt := "created_at";
  cis.cisMtlsCertUpdatedAt := "updated_at";
  cis.cisMtlsCertID := "cert_id";
  cis.ConvertTfToCisThreeVar := threeVar;
  cis.ExpandStringList := expandStrings
|}.

(** The query pairs of ["path?k=v&k=v"], undecoded. *)
Definition queryPairs (u : string) : list (string * string) :=
  match net.cut u "?" with
  | None => []
  | Some (_, q) =>
      omap (fun kv => match net.cut kv "=" with
                      | Some (k, v) => Some (k, v)
                      | None => Some (kv, "")
                      end)
           (strings.Split q "&")
  end.

Definition hpcs_externals : hpcs.Externals := {|
  hpcs.url_Parse := fun u => Success (queryPairs u);
  hpcs.GetLocationV2 := fun i => default "" (hpcs.ResourceInstance.RegionID i);
  hpcs.Flatten := fun m => omap (fun p => match snd p with
                                          | VString s => Some (fst p, s)
                                          | _ => None
                                          end) m;
  hpcs.Atoi := fun s => match net.dtoi s with
                        | Some n => Success n
                        | None => Failure (Errorf "strconv.Atoi: invalid syntax")
                        end
|}.

(** A record with the given identity and fields, nothing changed. *)
Definition record (id : string) (fields : list (string * Value)) : ResourceData :=
  mkResourceData id (list_to_map fields) (list_to_map fields) ∅ (fun _ => 600%nat).

Definition notFound : error := mkError "resource not found" Generic.

Definition answer404 {R} : SdkReply R :=
  SdkErr None (Some (mkDetailedResponse 404)) notFound.

(** A network as read back from the vendor, and an update body that asks
    for another DNS server. *)
Definition observed : power.Network.t :=
  power.Network.mk "" "" "10.0.0.0/24" "" ["8.8.8.8"] "10.0.0.1" [] 1450 (Some "net") None
    (Some "id1") "" (Some "vlan") (Some 7).

Definition requested : power.NetworkUpdate.t :=
  power.NetworkUpdate.mk "" "" ["9.9.9.9"] None [] None.

(** The same network while it is being built: no VLAN yet. *)
Definition building : power.Network.t :=
  power.Network.mk "" "" "10.0.0.0/24" "" ["8.8.8.8"] "10.0.0.1" [] 1450 (Some "net") None
    (Some "id1") "" (Some "vlan") None.

(** A vendor that reports the network as built from the third status query
    on. *)
Definition slowClient : power.IBMPINetworkClient.t :=
  power.IBMPINetworkClient.mk
    (fun _ history => if (length history <? 2)%nat then Success building else Success observed)
    (fun _ _ => Success observed)
    (fun _ _ _ => Success observed)
    (fun _ _ => None).

(** The configuration [isWaitForIBMPINetworkAvailable] builds. *)
Definition availableConf (timeout : nat) : retry.StateChangeConf (option power.Network.t) :=
  retry.mkStateChangeConf ["retry"; "build"] ["available"]
    (@power.isIBMPINetworkRefreshFunc power_externals slowClient "id1")
    timeout 10%nat 10%nat 0%nat.

Definition world0 : World := mkWorld (record "inst/id1" []) [] ∅.

Definition piGone : power.IBMPINetworkClient.t :=
  power.IBMPINetworkClient.mk
    (fun _ _ => Failure notFound) (fun _ _ => Failure notFound)
    (fun _ _ _ => Failure notFound) (fun _ _ => Some notFound).

(** A vendor on which the monitor exists. *)
Definition monitor : dnsservices.Monitor.t :=
  dnsservices.Monitor.mk (Some "mon1") (Some "health") None (Some "HTTPS") (Some 443)
    (Some 60) (Some 2) (Some 5) (Some "GET") (Some "/") [] (Some false) (Some "200") None
    (Some "2024-01-01T00:00:00Z") (Some "2024-01-02T00:00:00Z").

Definition ok200 : DetailedResponse := mkDetailedResponse 200.

Definition dnsPresent : dnsservices.Session :=
  dnsservices.mkSession
    (fun _ _ _ => SdkOk monitor ok200) (fun _ _ => SdkOk monitor ok200)
    (fun _ _ _ => SdkOk tt ok200)
    (fun crn => Success (dnsservices.PermittedNetwork.mkVpc (Some crn)))
    (fun _ _ _ _ _ => answer404) (fun _ _ _ _ => answer404) (fun _ _ _ _ => answer404).

Definition dnsMetaPresent : dnsservices.Meta := dnsservices.mkMeta (Success dnsPresent).

Definition piMetaGone : power.Meta :=
  power.mkMeta
    (Success (power.mkSession true (fun _ => piGone)
                (fun _ => power.IBMPIWorkspacesClient.mk (fun _ _ => Failure notFound))))
    (fun _ _ => (VNil, None)) (fun _ _ _ _ => None).

(** A vendor on which the firewall rule and the certificate exist. *)
Definition rule : cis.FirewallRule.Object :=
  cis.FirewallRule.mkObject (Some "rule1") (Some false) (Some "block bots") (Some "block")
    (Some (cis.FirewallRule.mkFilter (Some "filter1"))).

Definition firewallPresent : cis.FirewallRulesSession :=
  cis.mkFirewallRulesSession
    (fun _ _ _ _ => SdkOk (cis.FirewallRule.mkResp (Some rule)) ok200)
    (fun _ _ _ _ => SdkOk (Some tt) ok200) (fun _ _ _ _ => SdkOk tt ok200).

Definition certificate : cis.AccessCertificate.Object :=
  cis.AccessCertificate.mkObject (Some "cert1") (Some "2024-01-01") (Some "2024-01-02")
    (Some "2034-01-01").

Definition mtlsPresent : cis.MtlsSession :=
  cis.mkMtlsSession
    (fun _ _ _ _ => SdkOk (cis.AccessCertificate.mkResp (Some certificate)) ok200)
    (fun _ _ _ _ _ _ => SdkOk (cis.AccessCertificate.mkResp (Some certificate)) ok200)
    (fun _ _ _ _ => SdkOk tt ok200).

Definition cisMetaPresent : cis.Meta :=
  cis.mkMeta (Success "token") (Success firewallPresent)
    (Success (cis.mkFiltersSession (fun _ _ _ _ => SdkOk tt ok200))) (Success mtlsPresent).

Definition piSessionGone : power.IBMPISession :=
  power.mkSession true (fun _ => piGone)
    (fun _ => power.IBMPIWorkspacesClient.mk (fun _ _ => Failure notFound)).

(** A resource controller that lists two instances on two pages. *)
Definition instanceDallas : hpcs.ResourceInstance.t :=
  hpcs.ResourceInstance.mk (Some "crn:hpcs-dallas") (Some "active") (Some "rg1")
    (Some "us-south") (Some "res1") (Some "plan1") (Some "guid-dallas") (Some "crn:hpcs-dallas")
    [] None.

Definition instanceFrankfurt : hpcs.ResourceInstance.t :=
  hpcs.ResourceInstance.mk (Some "crn:hpcs-frankfurt") (Some "active") (Some "rg1")
    (Some "eu-de") (Some "res1") (Some "plan1") (Some "guid-frankfurt")
    (Some "crn:hpcs-frankfurt") [] None.

Definition pageOne : hpcs.ResourceInstancesList.t :=
  hpcs.ResourceInstancesList.mk (Some "/v2/resource_instances?next_url=page2")
    [instanceDallas].

Definition pageTwo : hpcs.ResourceInstancesList.t :=
  hpcs.ResourceInstancesList.mk None [instanceFrankfurt].

Definition twoPages : hpcs.ResourceControllerV2 :=
  hpcs.mkResourceControllerV2
    (fun options _ =>
       if String.eqb (default "" (hpcs.ListResourceInstancesOptions.Start options)) "page2"
       then SdkOk pageTwo ok200 else SdkOk pageOne ok200).



Definition worldHpcs : World :=
  mkWorld (record "" [("name", VString "my-hpcs"); ("location", VString "eu-de")]) [] ∅.

Definition worldVlan : World :=
  mkWorld (record "" [("pi_network_type", VString "vlan");
                      ("pi_network_name", VString "net")]) [] ∅.

Definition worldPubVlan : World :=
  mkWorld (record "" [("pi_network_type", VString "pub-vlan");
                      ("pi_network_name", VString "net");
                      ("pi_cidr", VString "10.0.0.0/24")]) [] ∅.

Definition worldCis : World := mkWorld (record "rule1:zone1:crn1" []) [] ∅.
Definition worldDns : World := mkWorld (record "inst1/zone1/net1" []) [] ∅.

(** Vendors on which the entity is gone: every request is answered 404. *)
Definition dnsGone : dnsservices.Session :=
  dnsservices.mkSession
    (fun _ _ _ => answer404) (fun _ _ => answer404) (fun _ _ _ => answer404)
    (fun crn => Success (dnsservices.PermittedNetwork.mkVpc (Some crn)))
    (fun _ _ _ _ _ => answer404) (fun _ _ _ _ => answer404) (fun _ _ _ _ => answer404).

Definition dnsMetaGone : dnsservices.Meta := dnsservices.mkMeta (Success dnsGone).

Definition firewallGone : cis.FirewallRulesSession :=
  cis.mkFirewallRulesSession
    (fun _ _ _ _ => answer404) (fun _ _ _ _ => answer404) (fun _ _ _ _ => answer404).

Definition mtlsGone : cis.MtlsSession :=
  cis.mkMtlsSession
    (fun _ _ _ _ => answer404) (fun _ _ _ _ _ _ => answer404) (fun _ _ _ _ => answer404).

Definition cisMetaGone : cis.Meta :=
  cis.mkMeta (Success "token") (Success firewallGone)
    (Success (cis.mkFiltersSession (fun _ _ _ _ => answer404))) (Success mtlsGone).

(** *** Records and vendors for the further properties *)

(** A network that is not a VLAN, and a plan that changes its gateway. *)
Definition worldGatewayChanged : World :=
  mkWorld (mkResourceData "inst/id1"
             (list_to_map [("pi_network_type", VString "pub-vlan")])
             (list_to_map [("pi_network_type", VString "pub-vlan");
                           ("pi_gateway", VString "10.0.0.2")])
             {["pi_gateway"]} (fun _ => 600%nat)) [] ∅.


(** A network read back with its two address ranges in the other order than
    the one they were asked in. *)
Definition shuffled : power.Network.t :=
  power.Network.mk "" "" "10.0.0.0/24" "" [] "10.0.0.1"
    [Some (power.IPAddressRange.mk (Some "10.0.0.30") (Some "10.0.0.20"));
     Some (power.IPAddressRange.mk (Some "10.0.0.9") (Some "10.0.0.5"))]
    1450 (Some "net") None (Some "id1") "" (Some "vlan") (Some 7).

(** An on-premise session on which that network exists. *)
Definition piMetaRanges : power.Meta :=
  power.mkMeta
    (Success (power.mkSession true
                (fun _ => power.IBMPINetworkClient.mk
                            (fun _ _ => Success shuffled) (fun _ _ => Success shuffled)
                            (fun _ _ _ => Success shuffled) (fun _ _ => None))
                (fun _ => power.IBMPIWorkspacesClient.mk (fun _ _ => Failure notFound))))
    (fun _ _ => (VNil, None)) (fun _ _ _ _ => None).

(** A plan that changes the user tags only. *)
Definition worldTagsChanged : World :=
  mkWorld (mkResourceData "inst/id1"
             (list_to_map [("crn", VString "crn:v1:net")])
             (list_to_map [("crn", VString "crn:v1:net")])
             {["pi_user_tags"]} (fun _ => 600%nat)) [] ∅.


(** A plan that renames the monitor, and the plan of a new monitor. *)
Definition worldMonitorRenamed : World :=
  mkWorld (mkResourceData "inst1/mon1" ∅ (list_to_map [("name", VString "health2")])
             {["name"]} (fun _ => 600%nat)) [] ∅.

Definition worldMonitorNew : World :=
  mkWorld (record "" [("instance_id", VString "inst1"); ("name", VString "health")]) [] ∅.

(** A vendor that accepts the permitted network, and the plan of one. *)
Definition permitted : dnsservices.PermittedNetwork.t :=
  dnsservices.PermittedNetwork.mk (Some "net1") (Some "2024-01-01T00:00:00Z")
    (Some "2024-01-01T00:00:00Z") (Some (dnsservices.PermittedNetwork.mkVpc (Some "crn:v1:vpc")))
    (Some "vpc") (Some "ACTIVE").

Definition dnsCreating : dnsservices.Session :=
  dnsservices.mkSession
    (fun _ _ _ => SdkOk monitor ok200) (fun _ _ => SdkOk monitor ok200)
    (fun _ _ _ => SdkOk tt ok200)
    (fun crn => Success (dnsservices.PermittedNetwork.mkVpc (Some crn)))
    (fun _ _ _ _ _ => SdkOk permitted ok200) (fun _ _ _ _ => SdkOk permitted ok200)
    (fun _ _ _ _ => SdkOk tt ok200).

Definition worldNetworkNew : World :=
  mkWorld (record "" [("instance_id", VString "inst1"); ("zone_id", VString "zone1");
                      ("vpc_crn", VString "crn:v1:vpc"); ("type", VString "vpc")]) [] ∅.

(** A firewall client whose update and create return neither a result nor
    an error, and a plan that changes the action of the rule. *)
Definition firewallSilent : cis.FirewallRulesSession :=
  cis.mkFirewallRulesSession
    (fun _ _ _ _ => SdkOk (cis.FirewallRule.mkResp (Some rule)) ok200)
    (fun _ _ _ _ => SdkOk None ok200) (fun _ _ _ _ => SdkOk tt ok200).

Definition worldRuleChanged : World :=
  mkWorld (mkResourceData "rule1:zone1:crn1" ∅ (list_to_map [("action", VString "allow")])
             {["action"]} (fun _ => 600%nat)) [] ∅.

(** [flex.ConvertTftoCisTwoVar] and [flex.ConvertCisToTfThreeVar] on
    ["zone:crn"] and ["id:zone:crn"]. *)
Definition twoVar (id : string) : string * string * option error :=
  match strings.Split id ":" with
  | a :: b :: rest => (a, strings.Join (b :: rest) ":", None)
  | _ => ("", "", Some (Errorf "The given id does not contain all expected sections"))
  end.

Definition joinThree (a b c : string) : string := a +:+ ":" +:+ b +:+ ":" +:+ c.

Definition worldCertificate : World :=
  mkWorld (record "cert1:zone1:crn1" [("cis_id", VString "crn1")]) [] ∅.

(** An instance restricted to the private network, a catalog that knows no
    offering, and a read that names the service. *)
Definition instancePrivate : hpcs.ResourceInstance.t :=
  hpcs.ResourceInstance.mk (Some "crn:hpcs-private") (Some "active") (Some "rg1")
    (Some "us-south") (Some "res1") (Some "plan1") (Some "guid-private")
    (Some "crn:hpcs-private") []
    (Some [("allowed_network", VString "private-only"); ("units", VString "2")]).

Definition catalogEmpty : hpcs.ResourceCatalog :=
  hpcs.mkResourceCatalog (fun _ _ => Success []) (fun _ _ => Success "hs-crypto")
    (fun _ _ => Success "standard").

Definition worldHpcsService : World :=
  mkWorld (record "" [("name", VString "my-hpcs"); ("service", VString "hs-crypto")]) [] ∅.

End samples.

(** ** Reasoning about what a handler sends *)

(** A request to one of the update endpoints. *)
Definition is_update_call (e : Event) : bool :=
  match e with
  | Call _ op _ =>
      existsb (String.eqb op)
        ["Update"; "UpdateMonitor"; "UpdateFirewllRules"; "UpdateAccessCertificate"]
  | _ => false
  end.

(** Run from [w], the handler only appends to the trace, and nothing it
    appends is a request to an update endpoint. *)
Definition sends_no_update {A} (m : M A) (w : World) : Prop :=
  exists l, trace (fst (m w)) = (trace w ++ l)%list
            /\ Forall (fun e => is_update_call e = false) l.

(** [quiet m]: [m] leaves the world as it found it (no request, no write). *)
Definition quiet {A} (m : M A) : Prop := forall w, fst (m w) = w.

(** [emits P m]: [m] only appends to the trace, and every event it appends
    satisfies [P]. *)
Definition emits {A} (P : Event -> Prop) (m : M A) : Prop :=
  forall w, exists l, trace (fst (m w)) = (trace w ++ l)%list /\ Forall P l.

(** The outcome [p] of a handler run from [w] is a refusal: the handler did
    not succeed, and it left the world as it was (nothing sent, nothing
    written). *)
Definition refused {A} (w : World) (p : World * result A) : Prop :=
  fst p = w /\ is_Ok (snd p) = false.


(** What a handler appended to the trace when run from [w]. *)
Definition appended {A} (m : M A) (w : World) (l : list Event) : Prop :=
  trace (fst (m w)) = (trace w ++ l)%list.

(** One critical section on the named lock [key]: the lock is taken, the
    requests [ops] of the DNS service are sent in this order, the lock is
    released, and nothing else happens. *)
Definition critical (key : string) (ops : list string) (l : list Event) : Prop :=
  exists calls, l = (Lock key :: calls ++ [Unlock key])%list
                /\ Forall2 (fun op e => is_call_of "dnssvcs" op e = true) ops calls.

(** The string a field of the record holds, and segment [i] of its
    identity. *)
Definition fieldString (w : World) (key : string) : string :=
  match default VNil (rd_fields (d w) !! key) with
  | VString s => s
  | _ => ""
  end.

Definition segment (w : World) (i : nat) : string :=
  default "" (strings.Split (rd_id (d w)) "/" !! i).

(** The lock key of the permitted networks of one zone. *)
Definition permittedNetworkKey (instanceID zoneID : string) : string :=
  "private_dns_permitted_network_" +:+ instanceID +:+ zoneID.

(** ** Vocabulary of the further properties *)

(** The world after the events [l] were appended to the trace. *)
Definition sent (w : World) (l : list Event) : World :=
  mkWorld (d w) (trace w ++ l) (cells w).

(** The outcome [p] of a run from [w] is a failure (error or panic) that left
    the record as it was and sent nothing but requests [op] of [service]. *)
Definition aborts_sending {A} (service op : string) (w : World) (p : World * result A) : Prop :=
  is_Ok (snd p) = false
  /\ d (fst p) = d w
  /\ exists l, trace (fst p) = (trace w ++ l)%list
               /\ Forall (fun e => is_call_of service op e = true) l.

(** The same, where the failure is a panic. *)
Definition panics_sending {A} (service op : string) (w : World) (p : World * result A) : Prop :=
  (exists reason, snd p = Panic reason)
  /\ d (fst p) = d w
  /\ exists l, trace (fst p) = (trace w ++ l)%list
               /\ Forall (fun e => is_call_of service op e = true) l.

(** The outcome [p] of a run from [w] left an identity that splits into
    [segments], having sent exactly [requests]. *)
Definition created {A} (w : World) (segments : list string) (requests : list Event)
    (p : World * result A) : Prop :=
  strings.Split (rd_id (d (fst p))) "/" = segments
  /\ trace (fst p) = (trace w ++ requests)%list.

(** An address range given by its first and last address, as the vendor's
    model holds it, and the text the update refresh compares. *)
Definition mkRange (p : string * string) : option power.IPAddressRange.t :=
  Some (power.IPAddressRange.mk (Some (snd p)) (Some (fst p))).

Definition rangeText (p : string * string) : string := fst p +:+ "-" +:+ snd p.

(** The order [sort.Strings] sorts by. *)
Definition sleb (a b : string) : Prop := String.leb a b = true.

Section FirewallRequests.
Context `{cis.Externals}.

(** The two requests of the firewall rule delete, and the vendor's answer to
    the first, for the record of [w]. *)
Definition deleteRuleCall (w : World) : Event :=
  let '(firewallruleid, zoneID, crn, _) := cis.ConvertTfToCisThreeVar (rd_id (d w)) in
  Call "firewallrules" "DeleteFirewallRules" [crn; zoneID; firewallruleid].

Definition deleteFilterCall (w : World) (filter_id : string) : Event :=
  let '(_, zoneID, crn, _) := cis.ConvertTfToCisThreeVar (rd_id (d w)) in
  Call "filters" "DeleteFilters" [crn; zoneID; filter_id].

Definition deleteRuleReply (cisClient : cis.FirewallRulesSession) (w : World) : SdkReply unit :=
  let '(firewallruleid, zoneID, crn, _) := cis.ConvertTfToCisThreeVar (rd_id (d w)) in
  cis.DeleteFirewallRules cisClient crn zoneID firewallruleid (trace w).

End FirewallRequests.

Section InstanceParameters.
Context `{hpcs.Externals}.

(** [instanceParameters["allowed_network"]] of the flattened parameters. *)
Definition allowedNetwork (parameters : list (string * Value)) : option string :=
  snd <$> List.find (fun p => String.eqb (fst p) "allowed_network") (hpcs.Flatten parameters).

End InstanceParameters.

(* ===================================================================== *)
(** * Part II: properties *)
(* ===================================================================== *)

(** ** Stepping through the monad *)

Lemma bind_Ok {A B} (m : M A) (k : A -> M B) (w w' : World) (a : A) :
  m w = (w', Ok a) -> (m ≫= k) w = k a w'.
Proof. intros E. unfold mbind, M_bind. now rewrite E. Qed.

Lemma bind_Fail {A B} (m : M A) (k : A -> M B) (w w' : World) (e : error) :
  m w = (w', Fail e) -> (m ≫= k) w = (w', Fail e).
Proof. intros E. unfold mbind, M_bind. now rewrite E. Qed.

Lemma bind_Panic {A B} (m : M A) (k : A -> M B) (w w' : World) (s : string) :
  m w = (w', Panic s) -> (m ≫= k) w = (w', Panic s).
Proof. intros E. unfold mbind, M_bind. now rewrite E. Qed.

Lemma bind_quiet {A B} (m : M A) (k : A -> M B) (w : World) :
  quiet m ->
  (m ≫= k) w = match snd (m w) with
               | Ok a => k a w
               | Fail e => (w, Fail e)
               | Panic s => (w, Panic s)
               end.
Proof.
  intros Hq. specialize (Hq w). unfold mbind, M_bind.
  destruct (m w) as [w' [a|e|s]]; simpl in *; now subst.
Qed.

Lemma quiet_ret {A} (a : A) : quiet (mret a).
Proof. intros w. reflexivity. Qed.

Lemma quiet_fail {A} (e : error) : quiet (@fail A e).
Proof. intros w. reflexivity. Qed.

Lemma quiet_panic {A} (s : string) : quiet (@panic A s).
Proof. intros w. reflexivity. Qed.

Lemma quiet_lift {A} (r : result A) : quiet (lift r).
Proof. intros w. reflexivity. Qed.

Lemma quiet_bind {A B} (m : M A) (k : A -> M B) :
  quiet m -> (forall a, quiet (k a)) -> quiet (m ≫= k).
Proof.
  intros Hm Hk w. rewrite bind_quiet by exact Hm.
  destruct (snd (m w)); [apply Hk | reflexivity | reflexivity].
Qed.

Lemma quiet_Id : quiet schema.Id.
Proof. intros w. reflexivity. Qed.

Lemma quiet_Get (key : string) : quiet (schema.Get key).
Proof. intros w. reflexivity. Qed.

Lemma quiet_GetOk (key : string) : quiet (schema.GetOk key).
Proof. intros w. reflexivity. Qed.

Lemma quiet_GetOkExists (key : string) : quiet (schema.GetOkExists key).
Proof. intros w. unfold schema.GetOkExists. now destruct (rd_fields (d w) !! key). Qed.

Lemma quiet_GetElem (key : string) (i : nat) : quiet (schema.GetElem key i).
Proof.
  intros w. unfold schema.GetElem.
  destruct (rd_fields (d w) !! key) as [[]|]; reflexivity.
Qed.

Lemma quiet_GetChange (key : string) : quiet (schema.GetChange key).
Proof. intros w. reflexivity. Qed.

Lemma quiet_HasChange (key : string) : quiet (schema.HasChange key).
Proof. intros w. reflexivity. Qed.

Lemma quiet_Timeout (key : string) : quiet (schema.Timeout key).
Proof. intros w. reflexivity. Qed.

Lemma quiet_asString (v : Value) : quiet (schema.asString v).
Proof. intros w. now destruct v. Qed.

Lemma quiet_asInt (v : Value) : quiet (schema.asInt v).
Proof. intros w. now destruct v. Qed.

Lemma quiet_asBool (v : Value) : quiet (schema.asBool v).
Proof. intros w. now destruct v. Qed.

Lemma quiet_asList (v : Value) : quiet (schema.asList v).
Proof. intros w. now destruct v. Qed.

Lemma quiet_asMap (v : Value) : quiet (schema.asMap v).
Proof. intros w. now destruct v. Qed.

Lemma quiet_HasChanges (keys : list string) : quiet (schema.HasChanges keys).
Proof.
  induction keys as [|k rest IH]; simpl; [apply quiet_ret|].
  apply quiet_bind; [apply quiet_HasChange|].
  intros [|]; [apply quiet_ret | exact IH].
Qed.

Create HintDb quiet.
#[export] Hint Resolve quiet_ret quiet_fail quiet_panic quiet_lift quiet_Id quiet_Get
  quiet_GetOk quiet_GetOkExists quiet_GetElem quiet_GetChange quiet_HasChange quiet_Timeout
  quiet_asString quiet_asInt quiet_asBool quiet_asList quiet_asMap quiet_HasChanges : quiet.

Lemma quiet_power_getString `{power.Externals} (key : string) : quiet (power.getString key).
Proof. apply quiet_bind; [apply quiet_Get | apply quiet_asString]. Qed.

#[export] Hint Resolve quiet_power_getString : quiet.

(** Structural proof of [quiet], directed by the shape of the term: a bind,
    a case split on whatever a branch inspects, or a leaf from the hint
    database. *)
Ltac quiet_step :=
  lazymatch goal with
  | |- quiet (mbind _ _) => apply quiet_bind; [|intros]
  | |- quiet (match ?x with _ => _ end) => destruct x
  | |- quiet _ => solve [auto with quiet]
  end.

Ltac quiet_solve := repeat quiet_step.

(** A key that did not change: [HasChange] answers [false]. *)
Lemma HasChanges_unchanged (keys : list string) (w : World) :
  Forall (fun k => k ∉ rd_changed (d w)) keys ->
  schema.HasChanges keys w = (w, Ok false).
Proof.
  induction 1 as [|k rest Hk Hrest IH]; simpl; [reflexivity|].
  unfold mbind, M_bind, schema.HasChange. simpl.
  rewrite bool_decide_eq_false_2 by exact Hk. exact IH.
Qed.

Lemma HasChange_unchanged (key : string) (w : World) :
  key ∉ rd_changed (d w) -> schema.HasChange key w = (w, Ok false).
Proof.
  intros Hk. unfold schema.HasChange. now rewrite bool_decide_eq_false_2.
Qed.

(** *** Events appended to the trace *)

Lemma emits_quiet {A} (P : Event -> Prop) (m : M A) : quiet m -> emits P m.
Proof.
  intros Hq w. exists []. rewrite (Hq w), app_nil_r. split; [reflexivity | constructor].
Qed.

Lemma emits_bind {A B} (P : Event -> Prop) (m : M A) (k : A -> M B) :
  emits P m -> (forall a, emits P (k a)) -> emits P (m ≫= k).
Proof.
  intros Hm Hk w. destruct (Hm w) as [l [El Hl]].
  unfold mbind, M_bind. destruct (m w) as [w' [a|e|s]]; simpl in *.
  - destruct (Hk a w') as [l' [El' Hl']].
    exists (l ++ l')%list. rewrite El', El, app_assoc. split; [reflexivity|].
    apply Forall_app; split; assumption.
  - exists l. split; assumption.
  - exists l. split; assumption.
Qed.

Lemma emits_request {R} (P : Event -> Prop) (ev : Event) (answer : list Event -> R) :
  P ev -> emits P (request ev answer).
Proof.
  intros Hev w. exists [ev]. split; [reflexivity|]. now constructor.
Qed.

Lemma emits_emit (P : Event -> Prop) (ev : Event) : P ev -> emits P (emit ev).
Proof.
  intros Hev w. exists [ev]. split; [reflexivity|]. now constructor.
Qed.

Lemma emits_store (P : Event -> Prop) (p s : string) : emits P (store p s).
Proof. intros w. exists []. simpl. rewrite app_nil_r. split; [reflexivity | constructor]. Qed.

Lemma emits_load (P : Event -> Prop) (p : string) : emits P (load p).
Proof. apply emits_quiet. intros w. reflexivity. Qed.

Lemma emits_SetId (P : Event -> Prop) (id : string) : emits P (schema.SetId id).
Proof. intros w. exists []. simpl. rewrite app_nil_r. split; [reflexivity | constructor]. Qed.

Lemma emits_Set (P : Event -> Prop) (key : string) (v : Value) : emits P (schema.Set_ key v).
Proof. intros w. exists []. simpl. rewrite app_nil_r. split; [reflexivity | constructor]. Qed.

Lemma emits_try {A} (P : Event -> Prop) (m : M A) : emits P m -> emits P (try m).
Proof.
  intros Hm w. destruct (Hm w) as [l [El Hl]]. exists l. unfold try.
  destruct (m w) as [w' [a|e|s]]; simpl in *; split; assumption.
Qed.

Lemma emits_defer {A} (P : Event -> Prop) (f : M unit) (body : M A) :
  emits P f -> emits P body -> emits P (defer f body).
Proof.
  intros Hf Hb w. destruct (Hb w) as [l [El Hl]]. unfold defer.
  destruct (body w) as [w' r]. simpl in *.
  destruct (Hf w') as [l' [El' Hl']].
  exists (l ++ l')%list. rewrite El', El, app_assoc. split; [reflexivity|].
  apply Forall_app; split; assumption.
Qed.

Lemma emits_poll {R} (P : Event -> Prop) (conf : retry.StateChangeConf R) (polls : nat) :
  emits P (retry.Refresh conf) -> emits P (retry.poll conf polls).
Proof.
  intros Href. induction polls as [|n IH]; simpl.
  - apply emits_quiet, quiet_fail.
  - apply emits_bind; [exact Href|]. intros [snapshot state].
    destruct (retry.has (retry.Target conf) state); [apply emits_quiet, quiet_ret|].
    destruct (retry.has (retry.Pending conf) state); [exact IH | apply emits_quiet, quiet_fail].
Qed.

Lemma emits_WaitForStateContext {R} (P : Event -> Prop) (conf : retry.StateChangeConf R) :
  emits P (retry.Refresh conf) -> emits P (retry.WaitForStateContext conf).
Proof. apply emits_poll. Qed.

(** Structural proof of [emits], as [quiet_solve]; a request is checked
    against the predicate by computation. *)
Ltac emits_step :=
  lazymatch goal with
  | |- emits _ (mbind _ _) => apply emits_bind; [|intros]
  | |- emits _ (request _ _) => apply emits_request; reflexivity
  | |- emits _ (emit _) => apply emits_emit; reflexivity
  | |- emits _ (store _ _) => apply emits_store
  | |- emits _ (load _) => apply emits_load
  | |- emits _ (schema.SetId _) => apply emits_SetId
  | |- emits _ (schema.Set_ _ _) => apply emits_Set
  | |- emits _ (try _) => apply emits_try
  | |- emits _ (defer _ _) => apply emits_defer
  | |- emits _ (retry.WaitForStateContext _) =>
      apply emits_WaitForStateContext; cbn [retry.Refresh]
  | |- emits _ (match ?x with _ => _ end) => destruct x
  | |- emits _ _ => apply emits_quiet; solve [auto with quiet]
  end.

Ltac emits_solve := repeat emits_step.

(** ** Sorting facts *)

Lemma insert_length (x : string) (l : list string) :
  length (sort.insert x l) = S (length l).
Proof.
  induction l as [|y tl IH]; simpl; [reflexivity|].
  destruct (String.leb x y); simpl; [reflexivity | now rewrite IH].
Qed.

Lemma Strings_length (l : list string) : length (sort.Strings l) = length l.
Proof.
  induction l as [|x tl IH]; simpl; [reflexivity|].
  now rewrite insert_length, IH.
Qed.

Lemma insert_perm (x : string) (l : list string) : Permutation (x :: l) (sort.insert x l).
Proof.
  induction l as [|y tl IH]; simpl; [reflexivity|].
  destruct (String.leb x y); [reflexivity|].
  rewrite perm_swap. now apply perm_skip.
Qed.

Lemma Strings_perm (l : list string) : Permutation l (sort.Strings l).
Proof.
  induction l as [|x tl IH]; simpl; [constructor|].
  rewrite <- insert_perm. now apply perm_skip.
Qed.

Lemma slice_at_middle {A} (pre tl : list A) (x : A) :
  slice_at (pre ++ x :: tl) (length pre) = Ok x.
Proof. unfold slice_at. now rewrite list_lookup_middle. Qed.

(** ** The update refresh of the Power network (C1) *)

Section PowerRefresh.
Context `{power.Externals}.
Import power.

(** The loop over [network.DNSServers] compares every element with the
    element of the same slice at the same index: no iteration takes the
    early return. *)
Lemma range_slice_self (pre l : list string) :
  range_slice (length pre) l
    (fun index dnsServer =>
       other ← slice_at (pre ++ l) index;
       Ok (negb (String.eqb dnsServer other)))
  = Ok false.
Proof.
  revert pre. induction l as [|x tl IH]; intros pre; simpl; [reflexivity|].
  rewrite slice_at_middle. simpl.
  rewrite String.eqb_refl. simpl.
  specialize (IH (pre ++ [x])%list).
  rewrite length_app in IH. simpl in IH.
  replace (length pre + 1)%nat with (S (length pre)) in IH by lia.
  rewrite <- app_assoc in IH. exact IH.
Qed.

(** Whatever DNS servers the update body asks for, an observed list of the
    same length is accepted. *)
Lemma compareUpdate_dns_only (dns : list string) (network : Network.t) :
  (0 < length dns)%nat ->
  length dns = length (Network.DNSServers network) ->
  compareUpdate (NetworkUpdate.mk "" "" dns None [] None) network
  = Ok (Some (Network.sortDNSServers network), State_Available).
Proof.
  intros Hpos Hlen. unfold compareUpdate. simpl.
  destruct (0 <? length dns)%nat eqn:E; [|apply Nat.ltb_ge in E; lia].
  simpl. rewrite !Strings_length, Hlen, Nat.eqb_refl. simpl.
  pose proof (range_slice_self [] (sort.Strings (Network.DNSServers network))) as R.
  simpl in R. rewrite R. reflexivity.
Qed.

(** C1: the update body asks for the DNS server 9.9.9.9, the network read
    back still has 8.8.8.8, and the refresh function reports the target
    state [State_Available] instead of [State_Retry]. *)
Theorem isIBMPINetworkRefreshUpdateFunc_dns_mismatch
    (create : NetworkCreate.t -> list Event -> Reply Network.t)
    (update : string -> NetworkUpdate.t -> list Event -> Reply Network.t)
    (delete : string -> list Event -> option error) (w : World) :
  let client :=
    IBMPINetworkClient.mk (fun _ _ => Success samples.observed) create update delete in
  NetworkUpdate.DNSServers samples.requested <> Network.DNSServers samples.observed
  /\ snd (isIBMPINetworkRefreshUpdateFunc client samples.requested "id1" w)
     = Ok (Some samples.observed, State_Available).
Proof.
  simpl. split; [discriminate|]. reflexivity.
Qed.

(** ** The deletion refresh of the Power network (C9) *)

(** C9: whatever error the status query returns, the deletion refresh
    reports [State_NotFound] with a nil snapshot and no error; a successful
    query reports [State_Found]. *)
Theorem isIBMPINetworkRefreshDeleteFunc_any_error
    (client : IBMPINetworkClient.t) (id : string) (w : World) :
  match IBMPINetworkClient.Get client id (trace w) with
  | Failure err =>
      snd (isIBMPINetworkRefreshDeleteFunc client id w) = Ok (None, State_NotFound)
  | Success network =>
      snd (isIBMPINetworkRefreshDeleteFunc client id w) = Ok (Some network, State_Found)
  end.
Proof.
  unfold isIBMPINetworkRefreshDeleteFunc, client_Get, request, mbind, M_bind. simpl.
  destruct (IBMPINetworkClient.Get client id (trace w)); reflexivity.
Qed.

End PowerRefresh.

(** ** The poll-converge loop (C7) *)

Section PollConverge.
Context {R : Type} (conf : retry.StateChangeConf R).
Import retry.

(** After a run of [k] pending refreshes the loop is where it would be
    with [k] polls less, in the world the run led to. *)
Lemma poll_pending_run (k : nat) (w w1 : World) :
  pending_run conf k w w1 -> forall n, poll conf (k + n) w = poll conf n w1.
Proof.
  induction 1 as [w | k w w1 w2 snapshot state Href Htarget Hpending Hrun IH]; intros n.
  - reflexivity.
  - simpl. erewrite bind_Ok by exact Href. simpl.
    rewrite Htarget, Hpending. apply IH.
Qed.

(** A pending run has pending runs of every shorter length as prefixes. *)
Lemma pending_run_prefix (k : nat) (w w1 : World) :
  pending_run conf k w w1 -> forall n, (n <= k)%nat -> exists w', pending_run conf n w w'.
Proof.
  induction 1 as [w | k w w1 w2 snapshot state Href Htarget Hpending Hrun IH]; intros n Hn.
  - assert (n = O) by lia. subst. exists w. constructor.
  - destruct n as [|n].
    + exists w. constructor.
    + destruct (IH n) as [w' Hw']; [lia|].
      exists w'. econstructor; eassumption.
Qed.

Lemma poll_timeout (polls k : nat) (w w1 : World) :
  pending_run conf k w w1 -> (polls <= k)%nat ->
  exists w', pending_run conf polls w w' /\ poll conf polls w = (w', Fail timeoutError).
Proof.
  intros Hrun Hle.
  destruct (pending_run_prefix k w w1 Hrun polls Hle) as [w' Hw'].
  exists w'. split; [exact Hw'|].
  pose proof (poll_pending_run polls w w' Hw' O) as E.
  rewrite Nat.add_0_r in E. rewrite E. reflexivity.
Qed.

Lemma poll_target (polls k : nat) (w w1 w2 : World) (snapshot : R) (state : string) :
  pending_run conf k w w1 -> (k < polls)%nat ->
  Refresh conf w1 = (w2, Ok (snapshot, state)) ->
  has (Target conf) state = true ->
  poll conf polls w = (w2, Ok snapshot).
Proof.
  intros Hrun Hlt Href Htarget.
  replace polls with (k + S (polls - k - 1))%nat by lia.
  rewrite (poll_pending_run k w w1 Hrun). simpl.
  erewrite bind_Ok by exact Href. simpl. now rewrite Htarget.
Qed.

(** C7: after [k] refreshes that all answered pending, the wait either has
    used up its window (the number of polls that fit before the timeout is
    at most [k]) and fails with the timeout error, or it polls once more,
    and a refresh that then answers with a target status ends the wait with
    the snapshot of that refresh. *)
Theorem WaitForStateContext_converges (k : nat) (w w1 : World)
    (Hrun : pending_run conf k w w1) :
  ((polls_within conf <= k)%nat ->
     snd (WaitForStateContext conf w) = Fail timeoutError)
  /\ ((k < polls_within conf)%nat ->
      forall w2 snapshot state,
        Refresh conf w1 = (w2, Ok (snapshot, state)) ->
        has (Target conf) state = true ->
        WaitForStateContext conf w = (w2, Ok snapshot)).
Proof.
  unfold WaitForStateContext. split.
  - intros Hle. destruct (poll_timeout _ _ _ _ Hrun Hle) as [w' [_ E]].
    now rewrite E.
  - intros Hlt w2 snapshot state Href Htarget.
    eapply poll_target; eassumption.
Qed.

End PollConverge.

(** The wait on a vendor that reports the network as built at the third
    query: with room for two polls it times out, with room for three it
    returns the network. *)
Lemma WaitForStateContext_converges_witness :
  snd (retry.WaitForStateContext (samples.availableConf 30) samples.world0)
  = Fail retry.timeoutError
  /\ snd (retry.WaitForStateContext (samples.availableConf 40) samples.world0)
     = Ok (Some samples.observed).
Proof.
  split.
  - refine (proj1 (WaitForStateContext_converges (samples.availableConf 30) 2 samples.world0 _ _) _).
    + eapply retry.pending_step; [reflexivity | reflexivity | reflexivity |].
      eapply retry.pending_step; [reflexivity | reflexivity | reflexivity |].
      apply retry.pending_done.
    + vm_compute. lia.
  - assert (Hrun : retry.pending_run (samples.availableConf 40) 2 samples.world0
                     (mkWorld (samples.record "inst/id1" [])
                        [Call "IBMPINetworkClient" "Get" ["id1"];
                         Call "IBMPINetworkClient" "Get" ["id1"]] ∅)).
    { eapply retry.pending_step; [reflexivity | reflexivity | reflexivity |].
      eapply retry.pending_step; [reflexivity | reflexivity | reflexivity |].
      apply retry.pending_done. }
    pose proof (proj2 (WaitForStateContext_converges _ _ _ _ Hrun)) as Htarget.
    erewrite Htarget; [reflexivity | vm_compute; lia | reflexivity | reflexivity].
Defined.

(** ** Composite identities (C3) *)

Lemma Split_nonempty (s : string) (sep : ascii) : strings.Split s sep <> [].
Proof.
  destruct s as [|c rest]; simpl; [discriminate|].
  destruct (Ascii.eqb c sep); [discriminate|].
  destruct (strings.Split rest sep); discriminate.
Qed.

Section Identity.
Context `{dnsservices.Externals}.
Import dnsservices.

(** The existence check of the monitor rejects an identity with fewer than
    two segments with an explicit error, before any request. *)
Lemma resourceIBMPrivateDNSGLBMonitorExists_short_id (sess : Session) (w : World) :
  (length (strings.Split (rd_id (d w)) "/") < 2)%nat ->
  resourceIBMPrivateDNSGLBMonitorExists (mkMeta (Success sess)) w
  = (w, Fail (Errorf ("[ERROR] Incorrect ID " +:+ rd_id (d w)
                      +:+ ": Id should be a combination of InstanceID/monitorID"))).
Proof.
  intros Hlen. apply Nat.ltb_lt in Hlen.
  unfold resourceIBMPrivateDNSGLBMonitorExists. cbn -[Nat.ltb].
  unfold mbind, M_bind, schema.Id. cbn -[Nat.ltb].
  now rewrite Hlen.
Qed.

(** So does the existence check of the permitted network, for fewer than
    three segments. *)
Lemma resourceIBMPrivateDNSPermittedNetworkExists_short_id (sess : Session) (w : World) :
  (length (strings.Split (rd_id (d w)) "/") < 3)%nat ->
  resourceIBMPrivateDNSPermittedNetworkExists (mkMeta (Success sess)) w
  = (w, Fail (Errorf ("[ERROR] Incorrect ID " +:+ rd_id (d w)
                      +:+ ": Id should be a combination of InstanceID/zoneID/permittedNetworkID"))).
Proof.
  intros Hlen. apply Nat.ltb_lt in Hlen.
  unfold resourceIBMPrivateDNSPermittedNetworkExists. cbn -[Nat.ltb].
  unfold mbind, M_bind, schema.Id. cbn -[Nat.ltb].
  now rewrite Hlen.
Qed.

(** The read, update-free delete and read of the two resources index the
    segments without that check: a short identity is an index out of range. *)
Lemma resourceIBMPrivateDNSGLBMonitorRead_short_id (sess : Session) (w : World) :
  (length (strings.Split (rd_id (d w)) "/") < 2)%nat ->
  resourceIBMPrivateDNSGLBMonitorRead (mkMeta (Success sess)) w
  = (w, Panic "index out of range").
Proof.
  intros Hlen. unfold resourceIBMPrivateDNSGLBMonitorRead. cbn.
  unfold mbind, M_bind, schema.Id. cbn.
  destruct (strings.Split (rd_id (d w)) "/") as [|a [|b l]]; cbn in *; try lia; reflexivity.
Qed.

Lemma resourceIBMPrivateDNSGLBMonitorDelete_short_id (sess : Session) (w : World) :
  (length (strings.Split (rd_id (d w)) "/") < 2)%nat ->
  resourceIBMPrivateDNSGLBMonitorDelete (mkMeta (Success sess)) w
  = (w, Panic "index out of range").
Proof.
  intros Hlen. unfold resourceIBMPrivateDNSGLBMonitorDelete. cbn.
  unfold mbind, M_bind, schema.Id. cbn.
  destruct (strings.Split (rd_id (d w)) "/") as [|a [|b l]]; cbn in *; try lia; reflexivity.
Qed.

Lemma resourceIBMPrivateDNSPermittedNetworkRead_short_id (sess : Session) (w : World) :
  (length (strings.Split (rd_id (d w)) "/") < 3)%nat ->
  resourceIBMPrivateDNSPermittedNetworkRead (mkMeta (Success sess)) w
  = (w, Panic "index out of range").
Proof.
  intros Hlen. unfold resourceIBMPrivateDNSPermittedNetworkRead. cbn.
  unfold mbind, M_bind, schema.Id. cbn.
  destruct (strings.Split (rd_id (d w)) "/") as [|a [|b [|c l]]]; cbn in *; try lia; reflexivity.
Qed.


End Identity.

(** ** Delete on an entity that is gone (C2) *)

Section DeleteNotFound.
Context `{cis.Externals} `{power.Externals}.

(** C2, as the handlers have it: when the vendor answers the delete request
    with not-found, the delete of the CIS firewall rule returns success and
    the delete refresh of the Power network reports its target state, while
    the deletes of the CIS mTLS certificate, of the DNS GLB monitor and of the
    DNS permitted network do not return success. *)
Theorem Delete_not_found_by_resource (w : World) (token : string)
    (fw : cis.FirewallRulesSession) (filters : Reply cis.FiltersSession)
    (mtls : cis.MtlsSession) (dns : dnsservices.Session)
    (client : power.IBMPINetworkClient.t) (networkID errPointer : string)
    (Hfw : forall crn zone id h, replied404 (cis.DeleteFirewallRules fw crn zone id h) = true)
    (Hmtls : forall crn zone id h, replied404 (cis.DeleteAccessCertificate mtls crn zone id h) = true)
    (Hmon : forall i m h, replied404 (dnsservices.DeleteMonitor dns i m h) = true)
    (Hpn : forall i z n h, replied404 (dnsservices.DeletePermittedNetwork dns i z n h) = true)
    (Hpi : forall h, exists e,
        power.IBMPINetworkClient.Delete client networkID h = Some e
        /\ strings.Contains (strings.ToLower (Error e)) power.NotFound = true) :
  let cisMeta := cis.mkMeta (Success token) (Success fw) filters (Success mtls) in
  let dnsMeta := dnsservices.mkMeta (Success dns) in
  snd (cis.ResourceIBMCISFirewallrulesDelete cisMeta w) = Ok tt
  /\ snd (power.retryNetworkDeleteFunc client networkID errPointer w)
     = Ok (Some "", power.State_NotFound)
  /\ (exists e, snd (cis.resourceIBMCISMtlsDelete cisMeta w) = Fail e)
  /\ is_Ok (snd (dnsservices.resourceIBMPrivateDNSGLBMonitorDelete dnsMeta w)) = false
  /\ is_Ok (snd (dnsservices.resourceIBMPrivateDNSPermittedNetworkDelete dnsMeta w)) = false.
Proof.
  cbn zeta. repeat split.
  - unfold cis.ResourceIBMCISFirewallrulesDelete. cbn.
    unfold mbind, M_bind, schema.Id, request. cbn.
    destruct (cis.ConvertTfToCisThreeVar (rd_id (d w))) as [[[id zone] crn] o]. cbn.
    specialize (Hfw crn zone id (trace w)).
    destruct (cis.DeleteFirewallRules fw crn zone id (trace w)) as [?|? resp ?]; cbn in Hfw;
      [discriminate|].
    rewrite Hfw. reflexivity.
  - unfold power.retryNetworkDeleteFunc, power.client_Delete. cbn.
    unfold mbind, M_bind, request. cbn.
    destruct (Hpi (trace w)) as [e [-> Hc]]. now rewrite Hc.
  - unfold cis.resourceIBMCISMtlsDelete. cbn.
    unfold mbind, M_bind, schema.Id, request. cbn.
    destruct (cis.ConvertTfToCisThreeVar (rd_id (d w))) as [[[id zone] crn] o]. cbn.
    specialize (Hmtls crn zone id (trace w)).
    destruct (cis.DeleteAccessCertificate mtls crn zone id (trace w)) as [?|? resp e];
      cbn in Hmtls; [discriminate|].
    eexists. reflexivity.
  - unfold dnsservices.resourceIBMPrivateDNSGLBMonitorDelete. cbn.
    unfold mbind, M_bind, schema.Id, request. cbn.
    destruct (strings.Split (rd_id (d w)) "/") as [|a [|b l]]; cbn; try reflexivity.
    specialize (Hmon a b (trace w)).
    destruct (dnsservices.DeleteMonitor dns a b (trace w)); cbn in Hmon; [discriminate|].
    reflexivity.
  - unfold dnsservices.resourceIBMPrivateDNSPermittedNetworkDelete, dnsservices.locked, defer, emit.
    cbn. unfold mbind, M_bind, schema.Id, request. cbn.
    destruct (strings.Split (rd_id (d w)) "/") as [|a [|b [|c l]]]; cbn; try reflexivity.
    specialize (Hpn a b c (trace w ++ [Lock ("private_dns_permitted_network_" +:+ a +:+ b)])%list).
    destruct (dnsservices.DeletePermittedNetwork dns a b c _); cbn in Hpn; [discriminate|].
    reflexivity.
Qed.

End DeleteNotFound.

(** ** Update with nothing changed (C6) *)

Section UpdateUnchanged.
Context `{power.Externals} `{dnsservices.Externals} `{cis.Externals}.

Lemma unchanged_HasChange (w : World) :
  rd_changed (d w) = ∅ ->
  (forall keys, schema.HasChanges keys w = (w, Ok false))
  /\ (forall key, schema.HasChange key w = (w, Ok false)).
Proof.
  intros Hno. split.
  - intros keys. apply HasChanges_unchanged. rewrite Hno.
    apply Forall_forall. intros; set_solver.
  - intros key. apply HasChange_unchanged. rewrite Hno. set_solver.
Qed.

Lemma resourceIBMPINetworkUpdate_unchanged (meta : power.Meta) (w : World) :
  rd_changed (d w) = ∅ ->
  power.resourceIBMPINetworkUpdate meta w = power.resourceIBMPINetworkRead meta w.
Proof.
  intros Hno. destruct (unchanged_HasChange w Hno) as [Hcs Hc].
  unfold power.resourceIBMPINetworkUpdate.
  destruct (power.IBMPISession_ meta) as [sess|err] eqn:E.
  2:{ unfold power.resourceIBMPINetworkRead. now rewrite E. }
  rewrite (bind_quiet schema.Id) by quiet_solve. cbn -[schema.HasChanges].
  rewrite (bind_quiet (lift _)) by quiet_solve. cbn -[schema.HasChanges].
  destruct (power.splitID (rd_id (d w))) as [[cid nid]|e|s] eqn:E2.
  2,3: unfold power.resourceIBMPINetworkRead; rewrite E;
       rewrite (bind_quiet schema.Id) by quiet_solve; cbn;
       rewrite (bind_quiet (lift _)) by quiet_solve; cbn; now rewrite E2.
  cbn -[schema.HasChanges].
  rewrite (bind_Ok _ _ _ _ _ (Hcs _)).
  rewrite (bind_Ok _ _ w w tt) by reflexivity.
  rewrite (bind_Ok _ _ _ _ _ (Hc _)).
  rewrite (bind_Ok _ _ w w tt) by reflexivity.
  reflexivity.
Qed.

Lemma resourceIBMPrivateDNSGLBMonitorUpdate_unchanged (meta : dnsservices.Meta) (w : World) :
  rd_changed (d w) = ∅ ->
  dnsservices.resourceIBMPrivateDNSGLBMonitorUpdate meta w
  = dnsservices.resourceIBMPrivateDNSGLBMonitorRead meta w.
Proof.
  intros Hno. destruct (unchanged_HasChange w Hno) as [Hcs Hc].
  unfold dnsservices.resourceIBMPrivateDNSGLBMonitorUpdate.
  destruct (dnsservices.PrivateDNSClientSession meta) as [sess|err] eqn:E.
  2:{ unfold dnsservices.resourceIBMPrivateDNSGLBMonitorRead. now rewrite E. }
  rewrite (bind_quiet schema.Id) by quiet_solve. cbn -[schema.HasChanges].
  rewrite (bind_Ok _ _ _ _ _ (Hcs _)).
  rewrite (bind_Ok _ _ w w tt) by reflexivity.
  reflexivity.
Qed.

Lemma ResourceIBMCISFirewallrulesUpdate_unchanged (token : string)
    (client : cis.FirewallRulesSession) (filters : Reply cis.FiltersSession)
    (mtls : Reply cis.MtlsSession) (w : World) :
  rd_changed (d w) = ∅ ->
  let meta := cis.mkMeta (Success token) (Success client) filters mtls in
  cis.ResourceIBMCISFirewallrulesUpdate meta w = cis.ResourceIBMCISFirewallrulesRead meta w.
Proof.
  intros Hno meta. destruct (unchanged_HasChange w Hno) as [Hcs Hc].
  unfold cis.ResourceIBMCISFirewallrulesUpdate. cbn -[schema.HasChanges].
  rewrite (bind_quiet schema.Id) by quiet_solve. cbn -[schema.HasChanges].
  destruct (cis.ConvertTfToCisThreeVar (rd_id (d w))) as [[[a b] c] o] eqn:E3.
  rewrite (bind_Ok _ _ _ _ _ (Hcs _)).
  rewrite (bind_Ok _ _ w w tt) by reflexivity.
  reflexivity.
Qed.

(** The reads send status queries only. *)
Lemma resourceIBMPINetworkRead_emits (meta : power.Meta) :
  emits (fun e => is_update_call e = false) (power.resourceIBMPINetworkRead meta).
Proof.
  unfold power.resourceIBMPINetworkRead.
  destruct (power.IBMPISession_ meta) as [sess|err]; [|emits_solve].
  unfold power.waitForPERWorkspaceActive, power.isPERWorkspaceRefreshFunc,
    power.client_Get, power.wsclient_Get.
  emits_solve.
Qed.

Lemma resourceIBMPrivateDNSGLBMonitorRead_emits (meta : dnsservices.Meta) :
  emits (fun e => is_update_call e = false)
        (dnsservices.resourceIBMPrivateDNSGLBMonitorRead meta).
Proof.
  unfold dnsservices.resourceIBMPrivateDNSGLBMonitorRead, dnsservices.setIfPresent.
  emits_solve.
Qed.

Lemma ResourceIBMCISFirewallrulesRead_emits (meta : cis.Meta) :
  emits (fun e => is_update_call e = false) (cis.ResourceIBMCISFirewallrulesRead meta).
Proof.
  unfold cis.ResourceIBMCISFirewallrulesRead. emits_solve.
Qed.

(** C6, as the handlers have it: with no field changed, the update of the
    Power network, of the DNS GLB monitor and of the CIS firewall rule does
    exactly what the read of the resource does (the read they end with still
    queries the vendor), and sends nothing to an update endpoint. *)
Theorem Update_without_changes (piMeta : power.Meta) (dnsMeta : dnsservices.Meta)
    (token : string) (client : cis.FirewallRulesSession) (filters : Reply cis.FiltersSession)
    (mtls : Reply cis.MtlsSession) (w : World) (Hno : rd_changed (d w) = ∅) :
  let cisMeta := cis.mkMeta (Success token) (Success client) filters mtls in
  (power.resourceIBMPINetworkUpdate piMeta w = power.resourceIBMPINetworkRead piMeta w
   /\ sends_no_update (power.resourceIBMPINetworkUpdate piMeta) w)
  /\ (dnsservices.resourceIBMPrivateDNSGLBMonitorUpdate dnsMeta w
      = dnsservices.resourceIBMPrivateDNSGLBMonitorRead dnsMeta w
      /\ sends_no_update (dnsservices.resourceIBMPrivateDNSGLBMonitorUpdate dnsMeta) w)
  /\ (cis.ResourceIBMCISFirewallrulesUpdate cisMeta w
      = cis.ResourceIBMCISFirewallrulesRead cisMeta w
      /\ sends_no_update (cis.ResourceIBMCISFirewallrulesUpdate cisMeta) w).
Proof.
  intros cisMeta. unfold sends_no_update.
  rewrite (resourceIBMPINetworkUpdate_unchanged piMeta w Hno),
    (resourceIBMPrivateDNSGLBMonitorUpdate_unchanged dnsMeta w Hno).
  unfold cisMeta.
  rewrite (ResourceIBMCISFirewallrulesUpdate_unchanged token client filters mtls w Hno).
  repeat split.
  - apply resourceIBMPINetworkRead_emits.
  - apply resourceIBMPrivateDNSGLBMonitorRead_emits.
  - apply ResourceIBMCISFirewallrulesRead_emits.
Qed.

End UpdateUnchanged.

(** The update of a GLB monitor with nothing changed still sends one request:
    the status query of its read. *)
Lemma Update_without_changes_counterexample :
  let r := samples.record "inst1/mon1" [] in
  rd_changed r = ∅
  /\ calls (fst (run (@dnsservices.resourceIBMPrivateDNSGLBMonitorUpdate samples.dns_externals
                       samples.dnsMetaPresent) r))
     = [Call "dnssvcs" "GetMonitor" ["inst1"; "mon1"]].
Proof.
  split; reflexivity.
Qed.

Lemma Update_without_changes_witness :
  let w := mkWorld (samples.record "inst1/mon1" []) [] ∅ in
  @dnsservices.resourceIBMPrivateDNSGLBMonitorUpdate samples.dns_externals
     samples.dnsMetaPresent w
  = @dnsservices.resourceIBMPrivateDNSGLBMonitorRead samples.dns_externals
      samples.dnsMetaPresent w
  /\ sends_no_update (@power.resourceIBMPINetworkUpdate samples.power_externals
                        samples.piMetaGone) w.
Proof.
  intros w.
  pose proof (@Update_without_changes samples.power_externals samples.dns_externals
                samples.cis_externals samples.piMetaGone samples.dnsMetaPresent
                "token" samples.firewallGone (Failure samples.notFound)
                (Failure samples.notFound) w eq_refl) as [[_ Hpi] [[Hdns _] _]].
  split; assumption.
Defined.

(** ** Read (C5) *)

Lemma lookup_write_all_other (ws : list (string * Value)) (m : gmap string Value) (k : string) :
  k ∉ ws.*1 -> write_all ws m !! k = m !! k.
Proof.
  revert m. induction ws as [|[k0 v0] ws IH]; intros m Hk; simpl; [reflexivity|].
  simpl in Hk. apply not_elem_of_cons in Hk as [Hne Hk].
  rewrite IH by exact Hk. now rewrite lookup_insert_ne.
Qed.

(** With pairwise distinct keys, every write is read back. *)
Lemma lookup_write_all (ws : list (string * Value)) (m : gmap string Value)
    (k : string) (v : Value) :
  NoDup ws.*1 -> (k, v) ∈ ws -> write_all ws m !! k = Some v.
Proof.
  revert m. induction ws as [|[k0 v0] ws IH]; intros m Hnd Hin; simpl.
  - inversion Hin.
  - simpl in Hnd. apply NoDup_cons in Hnd as [Hk0 Hnd].
    apply elem_of_cons in Hin as [Heq | Hin].
    + inversion Heq; subst. rewrite lookup_write_all_other by exact Hk0.
      apply lookup_insert_eq.
    + now apply IH.
Qed.

Section Read.
Context `{cis.Externals} `{power.Externals} `{dnsservices.Externals}.

Lemma ResourceIBMCISFirewallrulesRead_not_found (token : string)
    (fw : cis.FirewallRulesSession) (filters : Reply cis.FiltersSession)
    (mtls : Reply cis.MtlsSession) (w : World) :
  (forall crn zone id h, replied404 (cis.GetFirewallRule fw crn zone id h) = true) ->
  let meta := cis.mkMeta (Success token) (Success fw) filters mtls in
  snd (cis.ResourceIBMCISFirewallrulesRead meta w) = Ok tt
  /\ rd_id (d (fst (cis.ResourceIBMCISFirewallrulesRead meta w))) = "".
Proof.
  intros Hget meta. unfold cis.ResourceIBMCISFirewallrulesRead. cbn.
  unfold mbind, M_bind, schema.Id, request. cbn.
  destruct (cis.ConvertTfToCisThreeVar (rd_id (d w))) as [[[id zone] crn] o]. cbn.
  specialize (Hget crn zone id (trace w)).
  destruct (cis.GetFirewallRule fw crn zone id (trace w)); cbn in Hget; [discriminate|].
  rewrite Hget. split; reflexivity.
Qed.

Lemma resourceIBMCISMtlsRead_not_found (token : Reply string)
    (fw : Reply cis.FirewallRulesSession) (filters : Reply cis.FiltersSession)
    (mtls : cis.MtlsSession) (w : World) :
  (forall crn zone id h, replied404 (cis.GetAccessCertificate mtls crn zone id h) = true) ->
  let meta := cis.mkMeta token fw filters (Success mtls) in
  snd (cis.resourceIBMCISMtlsRead meta w) = Ok tt
  /\ rd_id (d (fst (cis.resourceIBMCISMtlsRead meta w))) = "".
Proof.
  intros Hget meta. unfold cis.resourceIBMCISMtlsRead. cbn.
  unfold mbind, M_bind, schema.Id, request. cbn.
  destruct (cis.ConvertTfToCisThreeVar (rd_id (d w))) as [[[id zone] crn] o]. cbn.
  specialize (Hget crn zone id (trace w)).
  destruct (cis.GetAccessCertificate mtls crn zone id (trace w)); cbn in Hget; [discriminate|].
  rewrite Hget. split; reflexivity.
Qed.

Lemma resourceIBMPrivateDNSGLBMonitorRead_not_found (dns : dnsservices.Session) (w : World) :
  (forall i m h, replied404 (dnsservices.GetMonitor dns i m h) = true) ->
  let meta := dnsservices.mkMeta (Success dns) in
  is_Ok (snd (dnsservices.resourceIBMPrivateDNSGLBMonitorRead meta w)) = false
  /\ rd_id (d (fst (dnsservices.resourceIBMPrivateDNSGLBMonitorRead meta w))) = rd_id (d w).
Proof.
  intros Hget meta. unfold dnsservices.resourceIBMPrivateDNSGLBMonitorRead. cbn.
  unfold mbind, M_bind, schema.Id, request. cbn.
  destruct (strings.Split (rd_id (d w)) "/") as [|a [|b l]]; cbn; try (split; reflexivity).
  specialize (Hget a b (trace w)).
  destruct (dnsservices.GetMonitor dns a b (trace w)); cbn in Hget; [discriminate|].
  split; reflexivity.
Qed.

Lemma resourceIBMPrivateDNSPermittedNetworkRead_not_found (dns : dnsservices.Session)
    (w : World) :
  (forall i z n h, replied404 (dnsservices.GetPermittedNetwork dns i z n h) = true) ->
  let meta := dnsservices.mkMeta (Success dns) in
  is_Ok (snd (dnsservices.resourceIBMPrivateDNSPermittedNetworkRead meta w)) = false
  /\ rd_id (d (fst (dnsservices.resourceIBMPrivateDNSPermittedNetworkRead meta w)))
     = rd_id (d w).
Proof.
  intros Hget meta. unfold dnsservices.resourceIBMPrivateDNSPermittedNetworkRead. cbn.
  unfold mbind, M_bind, schema.Id, request. cbn.
  destruct (strings.Split (rd_id (d w)) "/") as [|a [|b [|c l]]]; cbn; try (split; reflexivity).
  specialize (Hget a b c (trace w)).
  destruct (dnsservices.GetPermittedNetwork dns a b c (trace w)); cbn in Hget; [discriminate|].
  split; reflexivity.
Qed.

Lemma resourceIBMPINetworkRead_not_found (sess : power.IBMPISession)
    (tags : string -> list Event -> Value * option error)
    (upd : Value -> Value -> string -> list Event -> option error) (w : World) :
  (forall cid id h, exists e,
      power.IBMPINetworkClient.Get (power.NewIBMPINetworkClient sess cid) id h = Failure e) ->
  let meta := power.mkMeta (Success sess) tags upd in
  is_Ok (snd (power.resourceIBMPINetworkRead meta w)) = false
  /\ rd_id (d (fst (power.resourceIBMPINetworkRead meta w))) = rd_id (d w).
Proof.
  intros Hget meta. unfold power.resourceIBMPINetworkRead. cbn.
  rewrite (bind_quiet schema.Id) by quiet_solve. cbn.
  rewrite (bind_quiet (lift _)) by quiet_solve. cbn.
  destruct (power.splitID (rd_id (d w))) as [[cid nid]|e|s]; cbn; try (split; reflexivity).
  unfold power.client_Get, mbind, M_bind, request. cbn.
  destruct (Hget cid nid (trace w)) as [e ->]. split; reflexivity.
Qed.

Lemma ResourceIBMCISFirewallrulesRead_found (token : string)
    (fw : cis.FirewallRulesSession) (filters : Reply cis.FiltersSession)
    (mtls : Reply cis.MtlsSession) (w : World)
    (rule : cis.FirewallRule.Object) (filter : cis.FirewallRule.Filter_t)
    (resp : DetailedResponse) :
  (forall crn zone id h,
      cis.GetFirewallRule fw crn zone id h = SdkOk (cis.FirewallRule.mkResp (Some rule)) resp) ->
  cis.FirewallRule.Filter rule = Some filter ->
  NoDup [cis.cisID; cis.cisDomainID; cis.cisFilterID; cis.cisFirewallrulesAction;
         cis.cisFirewallrulesPaused; cis.cisFilterDescription] ->
  let meta := cis.mkMeta (Success token) (Success fw) filters mtls in
  let w' := fst (cis.ResourceIBMCISFirewallrulesRead meta w) in
  let '(_, zoneID, crn, _) := cis.ConvertTfToCisThreeVar (rd_id (d w)) in
  snd (cis.ResourceIBMCISFirewallrulesRead meta w) = Ok tt
  /\ rd_id (d w') = rd_id (d w)
  /\ Forall (fun kv => rd_fields (d w') !! kv.1 = Some kv.2)
       [(cis.cisID, VString crn); (cis.cisDomainID, VString zoneID);
        (cis.cisFilterID, VOptString (cis.FirewallRule.Filter_ID filter));
        (cis.cisFirewallrulesAction, VOptString (cis.FirewallRule.Action rule));
        (cis.cisFirewallrulesPaused, VOptBool (cis.FirewallRule.Paused rule));
        (cis.cisFilterDescription, VOptString (cis.FirewallRule.Description rule))].
Proof.
  intros Hget Hfilter Hnd meta w'. subst w'.
  unfold cis.ResourceIBMCISFirewallrulesRead. cbn.
  unfold mbind, M_bind, schema.Id, request. cbn.
  destruct (cis.ConvertTfToCisThreeVar (rd_id (d w))) as [[[id zone] crn] o]. cbn.
  rewrite Hget. cbn. rewrite Hfilter. cbn.
  split; [reflexivity|]. split; [reflexivity|].
  apply Forall_forall. intros [k v] Hin. simpl.
  match goal with Hin : _ ∈ ?ws |- _ => exact (lookup_write_all ws _ k v Hnd Hin) end.
Qed.

Lemma resourceIBMCISMtlsRead_found (token : Reply string)
    (fw : Reply cis.FirewallRulesSession) (filters : Reply cis.FiltersSession)
    (mtls : cis.MtlsSession) (w : World)
    (certID createdAt updatedAt expiresOn : string) (resp : DetailedResponse) :
  (forall crn zone id h,
      cis.GetAccessCertificate mtls crn zone id h
      = SdkOk (cis.AccessCertificate.mkResp
                 (Some (cis.AccessCertificate.mkObject (Some certID) (Some createdAt)
                          (Some updatedAt) (Some expiresOn)))) resp) ->
  NoDup [cis.cisID; cis.cisDomainID; cis.cisMtlsID; cis.cisMtlsCertCreatedAt;
         cis.cisMtlsCertUpdatedAt; cis.cisMtlsCertExpireOn; cis.cisMtlsCertID] ->
  let meta := cis.mkMeta token fw filters (Success mtls) in
  let w' := fst (cis.resourceIBMCISMtlsRead meta w) in
  let '(_, zoneID, crn, _) := cis.ConvertTfToCisThreeVar (rd_id (d w)) in
  snd (cis.resourceIBMCISMtlsRead meta w) = Ok tt
  /\ rd_id (d w') = rd_id (d w)
  /\ Forall (fun kv => rd_fields (d w') !! kv.1 = Some kv.2)
       [(cis.cisID, VString crn); (cis.cisDomainID, VString zoneID);
        (cis.cisMtlsID, VString certID); (cis.cisMtlsCertCreatedAt, VString createdAt);
        (cis.cisMtlsCertUpdatedAt, VString updatedAt);
        (cis.cisMtlsCertExpireOn, VString expiresOn); (cis.cisMtlsCertID, VString certID)].
Proof.
  intros Hget Hnd meta w'. subst w'.
  unfold cis.resourceIBMCISMtlsRead. cbn.
  unfold mbind, M_bind, schema.Id, request. cbn.
  destruct (cis.ConvertTfToCisThreeVar (rd_id (d w))) as [[[id zone] crn] o]. cbn.
  rewrite Hget. cbn.
  split; [reflexivity|]. split; [reflexivity|].
  apply Forall_forall. intros [k v] Hin. simpl.
  match goal with Hin : _ ∈ ?ws |- _ => exact (lookup_write_all ws _ k v Hnd Hin) end.
Qed.

(** C5, as the handlers have it.  On a vendor that answers the status query
    with not-found, the read of the CIS firewall rule and of the CIS mTLS
    certificate clears the identity and returns success, while the read of the
    DNS GLB monitor, of the DNS permitted network and of the Power network
    does not return success and keeps the identity.  On a vendor that answers
    with the entity, the reads of the two CIS resources return success, keep
    the identity and write the fields listed, from the response and the
    identity. *)
Theorem Read_by_resource (w : World) (token : string)
    (filters : Reply cis.FiltersSession)
    (fwGone fwThere : cis.FirewallRulesSession) (mtlsGone mtlsThere : cis.MtlsSession)
    (dns : dnsservices.Session) (sess : power.IBMPISession)
    (tags : string -> list Event -> Value * option error)
    (upd : Value -> Value -> string -> list Event -> option error)
    (rule : cis.FirewallRule.Object) (filter : cis.FirewallRule.Filter_t)
    (certID createdAt updatedAt expiresOn : string) (resp : DetailedResponse)
    (Hfw : forall crn zone id h, replied404 (cis.GetFirewallRule fwGone crn zone id h) = true)
    (Hmtls : forall crn zone id h,
        replied404 (cis.GetAccessCertificate mtlsGone crn zone id h) = true)
    (Hmon : forall i m h, replied404 (dnsservices.GetMonitor dns i m h) = true)
    (Hpn : forall i z n h, replied404 (dnsservices.GetPermittedNetwork dns i z n h) = true)
    (Hpi : forall cid id h, exists e,
        power.IBMPINetworkClient.Get (power.NewIBMPINetworkClient sess cid) id h = Failure e)
    (Hrule : forall crn zone id h,
        cis.GetFirewallRule fwThere crn zone id h
        = SdkOk (cis.FirewallRule.mkResp (Some rule)) resp)
    (Hfilter : cis.FirewallRule.Filter rule = Some filter)
    (Hcert : forall crn zone id h,
        cis.GetAccessCertificate mtlsThere crn zone id h
        = SdkOk (cis.AccessCertificate.mkResp
                   (Some (cis.AccessCertificate.mkObject (Some certID) (Some createdAt)
                            (Some updatedAt) (Some expiresOn)))) resp)
    (Hkeys : NoDup [cis.cisID; cis.cisDomainID; cis.cisFilterID; cis.cisFirewallrulesAction;
                    cis.cisFirewallrulesPaused; cis.cisFilterDescription])
    (Hkeys' : NoDup [cis.cisID; cis.cisDomainID; cis.cisMtlsID; cis.cisMtlsCertCreatedAt;
                     cis.cisMtlsCertUpdatedAt; cis.cisMtlsCertExpireOn; cis.cisMtlsCertID]) :
  let gone := cis.mkMeta (Success token) (Success fwGone) filters (Success mtlsGone) in
  let there := cis.mkMeta (Success token) (Success fwThere) filters (Success mtlsThere) in
  let dnsMeta := dnsservices.mkMeta (Success dns) in
  let piMeta := power.mkMeta (Success sess) tags upd in
  let '(_, zoneID, crn, _) := cis.ConvertTfToCisThreeVar (rd_id (d w)) in
  (snd (cis.ResourceIBMCISFirewallrulesRead gone w) = Ok tt
   /\ rd_id (d (fst (cis.ResourceIBMCISFirewallrulesRead gone w))) = "")
  /\ (snd (cis.resourceIBMCISMtlsRead gone w) = Ok tt
      /\ rd_id (d (fst (cis.resourceIBMCISMtlsRead gone w))) = "")
  /\ (is_Ok (snd (dnsservices.resourceIBMPrivateDNSGLBMonitorRead dnsMeta w)) = false
      /\ rd_id (d (fst (dnsservices.resourceIBMPrivateDNSGLBMonitorRead dnsMeta w)))
         = rd_id (d w))
  /\ (is_Ok (snd (dnsservices.resourceIBMPrivateDNSPermittedNetworkRead dnsMeta w)) = false
      /\ rd_id (d (fst (dnsservices.resourceIBMPrivateDNSPermittedNetworkRead dnsMeta w)))
         = rd_id (d w))
  /\ (is_Ok (snd (power.resourceIBMPINetworkRead piMeta w)) = false
      /\ rd_id (d (fst (power.resourceIBMPINetworkRead piMeta w))) = rd_id (d w))
  /\ (snd (cis.ResourceIBMCISFirewallrulesRead there w) = Ok tt
      /\ rd_id (d (fst (cis.ResourceIBMCISFirewallrulesRead there w))) = rd_id (d w)
      /\ Forall (fun kv => rd_fields (d (fst (cis.ResourceIBMCISFirewallrulesRead there w)))
                           !! kv.1 = Some kv.2)
           [(cis.cisID, VString crn); (cis.cisDomainID, VString zoneID);
            (cis.cisFilterID, VOptString (cis.FirewallRule.Filter_ID filter));
            (cis.cisFirewallrulesAction, VOptString (cis.FirewallRule.Action rule));
            (cis.cisFirewallrulesPaused, VOptBool (cis.FirewallRule.Paused rule));
            (cis.cisFilterDescription, VOptString (cis.FirewallRule.Description rule))])
  /\ (snd (cis.resourceIBMCISMtlsRead there w) = Ok tt
      /\ rd_id (d (fst (cis.resourceIBMCISMtlsRead there w))) = rd_id (d w)
      /\ Forall (fun kv => rd_fields (d (fst (cis.resourceIBMCISMtlsRead there w)))
                           !! kv.1 = Some kv.2)
           [(cis.cisID, VString crn); (cis.cisDomainID, VString zoneID);
            (cis.cisMtlsID, VString certID); (cis.cisMtlsCertCreatedAt, VString createdAt);
            (cis.cisMtlsCertUpdatedAt, VString updatedAt);
            (cis.cisMtlsCertExpireOn, VString expiresOn);
            (cis.cisMtlsCertID, VString certID)]).
Proof.
  intros gone there dnsMeta piMeta.
  pose proof (ResourceIBMCISFirewallrulesRead_not_found token fwGone filters
                (Success mtlsGone) w Hfw) as P1.
  pose proof (resourceIBMCISMtlsRead_not_found (Success token) (Success fwGone) filters
                mtlsGone w Hmtls) as P2.
  pose proof (resourceIBMPrivateDNSGLBMonitorRead_not_found dns w Hmon) as P3.
  pose proof (resourceIBMPrivateDNSPermittedNetworkRead_not_found dns w Hpn) as P4.
  pose proof (resourceIBMPINetworkRead_not_found sess tags upd w Hpi) as P5.
  pose proof (ResourceIBMCISFirewallrulesRead_found token fwThere filters (Success mtlsThere)
                w rule filter resp Hrule Hfilter Hkeys) as P6.
  pose proof (resourceIBMCISMtlsRead_found (Success token) (Success fwThere) filters
                mtlsThere w certID createdAt updatedAt expiresOn resp Hcert Hkeys') as P7.
  cbn zeta in *.
  destruct (cis.ConvertTfToCisThreeVar (rd_id (d w))) as [[[id zone] crn] o].
  repeat split; first [apply P1 | apply P2 | apply P3 | apply P4 | apply P5 | apply P6 | apply P7].
Qed.

End Read.

(** The read of a GLB monitor that is gone: the 404 answer comes back as an
    error, and the identity stays. *)
Lemma Read_by_resource_counterexample :
  let r := samples.record "inst1/mon1" [] in
  replied404 (dnsservices.GetMonitor samples.dnsGone "inst1" "mon1" []) = true
  /\ run (@dnsservices.resourceIBMPrivateDNSGLBMonitorRead samples.dns_externals
            samples.dnsMetaGone) r
     = (mkWorld r [Call "dnssvcs" "GetMonitor" ["inst1"; "mon1"]] ∅,
        Fail (Wrapf "[ERROR] Error fetching dns services GLB Monitor:" samples.notFound)).
Proof.
  split; reflexivity.
Qed.

Lemma Read_by_resource_witness :
  rd_id (d (fst (@cis.ResourceIBMCISFirewallrulesRead samples.cis_externals
                   samples.cisMetaGone samples.worldCis))) = ""
  /\ is_Ok (snd (@dnsservices.resourceIBMPrivateDNSGLBMonitorRead samples.dns_externals
                   samples.dnsMetaGone samples.worldCis)) = false
  /\ snd (@cis.ResourceIBMCISFirewallrulesRead samples.cis_externals
            samples.cisMetaPresent samples.worldCis) = Ok tt.
Proof.
  assert (P := @Read_by_resource samples.cis_externals samples.power_externals
                 samples.dns_externals samples.worldCis "token"
                 (Success (cis.mkFiltersSession (fun _ _ _ _ => SdkOk tt samples.ok200)))
                 samples.firewallGone samples.firewallPresent
                 samples.mtlsGone samples.mtlsPresent samples.dnsGone samples.piSessionGone
                 (fun _ _ => (VNil, None)) (fun _ _ _ _ => None)
                 samples.rule (cis.FirewallRule.mkFilter (Some "filter1"))
                 "cert1" "2024-01-01" "2024-01-02" "2034-01-01" samples.ok200
                 (fun _ _ _ _ => eq_refl) (fun _ _ _ _ => eq_refl) (fun _ _ _ => eq_refl)
                 (fun _ _ _ _ => eq_refl)
                 (fun _ _ _ => ex_intro _ samples.notFound eq_refl)
                 (fun _ _ _ _ => eq_refl) eq_refl (fun _ _ _ _ => eq_refl)
                 ltac:(apply (bool_decide_unpack _); vm_compute; exact I)
                 ltac:(apply (bool_decide_unpack _); vm_compute; exact I)).
  hnf in P. destruct P as [[_ P1] [_ [[P3 _] [_ [_ [[P6 _] _]]]]]].
  split; [exact P1 | split; [exact P3 | exact P6]].
Defined.

Lemma Delete_not_found_by_resource_witness :
  snd (@cis.ResourceIBMCISFirewallrulesDelete samples.cis_externals
         samples.cisMetaGone samples.worldDns) = Ok tt
  /\ (exists e, snd (@cis.resourceIBMCISMtlsDelete samples.cis_externals
                       samples.cisMetaGone samples.worldDns) = Fail e)
  /\ is_Ok (snd (dnsservices.resourceIBMPrivateDNSGLBMonitorDelete
                   samples.dnsMetaGone samples.worldDns)) = false.
Proof.
  assert (P := @Delete_not_found_by_resource samples.cis_externals samples.power_externals
                 samples.worldDns "token" samples.firewallGone
                 (Success (cis.mkFiltersSession (fun _ _ _ _ => samples.answer404)))
                 samples.mtlsGone samples.dnsGone samples.piGone "net1" "lastErr"
                 (fun _ _ _ _ => eq_refl) (fun _ _ _ _ => eq_refl) (fun _ _ _ => eq_refl)
                 (fun _ _ _ _ => eq_refl)
                 (fun _ => ex_intro _ samples.notFound (conj eq_refl eq_refl))).
  hnf in P. destruct P as [P1 [_ [P3 [P4 _]]]].
  split; [exact P1 | split; [exact P3 | exact P4]].
Defined.

(** The delete of an mTLS certificate that is gone: the 404 answer of the
    vendor comes back as an error. *)
Lemma Delete_not_found_counterexample :
  replied404 (cis.DeleteAccessCertificate samples.mtlsGone "crn1" "zone1" "cert1" []) = true
  /\ snd (run (@cis.resourceIBMCISMtlsDelete samples.cis_externals samples.cisMetaGone)
              (samples.record "cert1:zone1:crn1" []))
     = Fail (cis.TerraformErrorf
               "resourceIBMCISMtlsDelete CisMtlsSession initialization failed: "
               samples.notFound).
Proof.
  split; reflexivity.
Qed.

(** ** The lock of the permitted network (C8) *)

Section PermittedNetworkLock.
Context `{dnsservices.Externals}.
Import dnsservices.

Lemma appended_nil {A} (m : M A) (w : World) : fst (m w) = w -> appended m w [].
Proof. intros E. unfold appended. now rewrite E, app_nil_r. Qed.

Lemma getString_cases (key : string) (w : World) :
  getString key w = (w, Ok (fieldString w key)) \/ exists s, getString key w = (w, Panic s).
Proof.
  unfold getString, fieldString, mbind, M_bind, schema.Get. cbn.
  destruct (default VNil (rd_fields (d w) !! key)); cbn; eauto.
Qed.

(** [defer] at work: whatever the body appended, and however it ended, the
    section opens with the lock and closes with the unlock. *)
Lemma locked_appended {A} (key : string) (body : M A) (w : World) (calls : list Event) :
  appended body (mkWorld (d w) (trace w ++ [Lock key]) (cells w)) calls ->
  appended (locked key body) w (Lock key :: calls ++ [Unlock key]).
Proof.
  unfold appended, locked, defer, emit, mbind, M_bind. cbn.
  destruct (body _) as [w' r]. cbn. intros ->.
  now rewrite <- !app_assoc.
Qed.

Lemma resourceIBMPrivateDNSPermittedNetworkRead_appended (meta : Meta) (w : World) :
  exists l, appended (resourceIBMPrivateDNSPermittedNetworkRead meta) w l
    /\ (l = [] \/ exists e, l = [e] /\ is_call_of "dnssvcs" "GetPermittedNetwork" e = true).
Proof.
  unfold appended, resourceIBMPrivateDNSPermittedNetworkRead.
  destruct (PrivateDNSClientSession meta) as [sess|err].
  2:{ exists []. rewrite app_nil_r. split; [reflexivity | now left]. }
  unfold mbind, M_bind, schema.Id, request. cbn.
  destruct (strings.Split (rd_id (d w)) "/") as [|a [|b [|c l]]]; cbn;
    try (exists []; rewrite app_nil_r; split; [reflexivity | now left]).
  exists [Call "dnssvcs" "GetPermittedNetwork" [a; b; c]].
  split; [|right; eexists; split; reflexivity].
  destruct (GetPermittedNetwork sess a b c (trace w)) as [response ?|? ? ?]; cbn; [|reflexivity].
  destruct (PermittedNetwork.CreatedOn response); cbn; [|reflexivity].
  destruct (PermittedNetwork.ModifiedOn response); cbn; [|reflexivity].
  destruct (PermittedNetwork.PermittedNetwork_ response); cbn; reflexivity.
Qed.

Lemma resourceIBMPrivateDNSPermittedNetworkCreate_appended (meta : Meta) (w : World) :
  let key := permittedNetworkKey (fieldString w pdnsInstanceID) (fieldString w pdnsZoneID) in
  exists l, appended (resourceIBMPrivateDNSPermittedNetworkCreate meta) w l
    /\ (l = [] \/ critical key [] l \/ critical key ["CreatePermittedNetwork"] l
        \/ critical key ["CreatePermittedNetwork"; "GetPermittedNetwork"] l).
Proof.
  intros key. unfold resourceIBMPrivateDNSPermittedNetworkCreate.
  destruct (PrivateDNSClientSession meta) as [sess|err] eqn:Es.
  2:{ exists []. split; [now apply appended_nil | now left]. }
  destruct (getString_cases pdnsInstanceID w) as [E1|[s E1]].
  2:{ exists []. split; [|now left]. apply appended_nil. now erewrite bind_Panic by exact E1. }
  destruct (getString_cases pdnsZoneID w) as [E2|[s E2]].
  2:{ exists []. split; [|now left]. apply appended_nil.
      erewrite bind_Ok by exact E1. now erewrite bind_Panic by exact E2. }
  destruct (getString_cases pdnsVpcCRN w) as [E3|[s E3]].
  2:{ exists []. split; [|now left]. apply appended_nil.
      erewrite bind_Ok by exact E1. erewrite bind_Ok by exact E2.
      now erewrite bind_Panic by exact E3. }
  destruct (getString_cases pdnsNetworkType w) as [E4|[s E4]].
  2:{ exists []. split; [|now left]. apply appended_nil.
      erewrite bind_Ok by exact E1. erewrite bind_Ok by exact E2.
      erewrite bind_Ok by exact E3. now erewrite bind_Panic by exact E4. }
  unfold appended.
  erewrite bind_Ok by exact E1. erewrite bind_Ok by exact E2.
  erewrite bind_Ok by exact E3. erewrite bind_Ok by exact E4.
  fold key. unfold permittedNetworkKey in key.
  match goal with |- context [locked _ ?b] => set (body := b) end.
  assert (Hbody : forall w1, exists calls, appended body w1 calls
            /\ (Forall2 (fun op e => is_call_of "dnssvcs" op e = true) [] calls
                \/ Forall2 (fun op e => is_call_of "dnssvcs" op e = true)
                     ["CreatePermittedNetwork"] calls
                \/ Forall2 (fun op e => is_call_of "dnssvcs" op e = true)
                     ["CreatePermittedNetwork"; "GetPermittedNetwork"] calls)).
  { intros w1. subst body. unfold appended.
    destruct (NewPermittedNetworkVpc sess _) as [crn|err].
    2:{ exists []. rewrite app_nil_r. split; [reflexivity | left; constructor]. }
    unfold mbind, M_bind, request. cbn.
    destruct (CreatePermittedNetwork sess _ _ _ _ _) as [response ?|? ? ?]; cbn.
    2:{ eexists [_]. split; [reflexivity|]. right; left. repeat constructor. }
    destruct (PermittedNetwork.ID response) as [rid|]; cbn.
    2:{ eexists [_]. split; [reflexivity|]. right; left. repeat constructor. }
    match goal with |- context [resourceIBMPrivateDNSPermittedNetworkRead meta ?w2] =>
      destruct (resourceIBMPrivateDNSPermittedNetworkRead_appended meta w2)
        as [l [Hl Hcases]] end.
    unfold appended in Hl. rewrite Hl. cbn.
    destruct Hcases as [->|[e [-> He]]].
    - eexists [_]. rewrite app_nil_r. split; [reflexivity|]. right; left. repeat constructor.
    - eexists [_; e]. rewrite <- app_assoc. split; [reflexivity|]. right; right.
      repeat constructor. exact He. }
  destruct (Hbody (mkWorld (d w) (trace w ++ [Lock key]) (cells w))) as [calls [Hc Hcases]].
  exists (Lock key :: calls ++ [Unlock key])%list.
  split; [exact (locked_appended key body w calls Hc)|].
  right. destruct Hcases as [F|[F|F]]; [left | right; left | right; right];
    exists calls; split; auto.
Qed.

Lemma resourceIBMPrivateDNSPermittedNetworkDelete_appended (meta : Meta) (w : World) :
  let key := permittedNetworkKey (segment w 0) (segment w 1) in
  exists l, appended (resourceIBMPrivateDNSPermittedNetworkDelete meta) w l
    /\ (l = [] \/ critical key [] l \/ critical key ["DeletePermittedNetwork"] l).
Proof.
  intros key. subst key. unfold segment, resourceIBMPrivateDNSPermittedNetworkDelete.
  destruct (PrivateDNSClientSession meta) as [sess|err] eqn:Es.
  2:{ exists []. split; [now apply appended_nil | now left]. }
  unfold appended.
  rewrite (bind_quiet schema.Id) by quiet_solve. cbn.
  destruct (strings.Split (rd_id (d w)) "/") as [|a [|b rest]]; cbn;
    try (exists []; rewrite app_nil_r; split; [reflexivity | now left]).
  rewrite (bind_Ok _ _ w w a) by reflexivity.
  rewrite (bind_Ok _ _ w w b) by reflexivity.
  fold (permittedNetworkKey a b).
  match goal with |- context [locked _ ?b] => set (body := b) end.
  assert (Hbody : forall w1, exists calls, appended body w1 calls
            /\ (Forall2 (fun op e => is_call_of "dnssvcs" op e = true) [] calls
                \/ Forall2 (fun op e => is_call_of "dnssvcs" op e = true)
                     ["DeletePermittedNetwork"] calls)).
  { intros w1. subst body. unfold appended, mbind, M_bind, request, lift. cbn.
    destruct rest as [|c rest]; cbn.
    { exists []. rewrite app_nil_r. split; [reflexivity | left; constructor]. }
    exists [Call "dnssvcs" "DeletePermittedNetwork" [a; b; c]].
    split; [|right; repeat constructor].
    destruct (DeletePermittedNetwork sess a b c (trace w1)); reflexivity. }
  destruct (Hbody (mkWorld (d w) (trace w ++ [Lock (permittedNetworkKey a b)]) (cells w)))
    as [calls [Hc Hcases]].
  exists (Lock (permittedNetworkKey a b) :: calls ++ [Unlock (permittedNetworkKey a b)])%list.
  split; [exact (locked_appended _ body w calls Hc)|].
  right. destruct Hcases as [F|F]; [left | right]; exists calls; split; auto.
Qed.

Lemma resourceIBMPrivateDNSPermittedNetworkExists_appended (meta : Meta) (w : World) :
  let key := permittedNetworkKey (segment w 0) (segment w 1) in
  exists l, appended (resourceIBMPrivateDNSPermittedNetworkExists meta) w l
    /\ (l = [] \/ critical key ["GetPermittedNetwork"] l).
Proof.
  intros key. subst key. unfold segment, resourceIBMPrivateDNSPermittedNetworkExists.
  destruct (PrivateDNSClientSession meta) as [sess|err] eqn:Es.
  2:{ exists []. split; [now apply appended_nil | now left]. }
  unfold appended.
  rewrite (bind_quiet schema.Id) by quiet_solve. cbn.
  destruct (strings.Split (rd_id (d w)) "/") as [|a [|b [|c rest]]]; cbn;
    try (exists []; rewrite app_nil_r; split; [reflexivity | now left]).
  rewrite (bind_Ok _ _ w w a) by reflexivity.
  rewrite (bind_Ok _ _ w w b) by reflexivity.
  fold (permittedNetworkKey a b).
  match goal with |- context [locked _ ?b] => set (body := b) end.
  assert (Hbody : forall w1, exists calls, appended body w1 calls
            /\ Forall2 (fun op e => is_call_of "dnssvcs" op e = true)
                 ["GetPermittedNetwork"] calls).
  { intros w1. subst body. unfold appended, mbind, M_bind, request, lift. cbn.
    exists [Call "dnssvcs" "GetPermittedNetwork" [a; b; c]]. split; [|repeat constructor].
    destruct (GetPermittedNetwork sess a b c (trace w1)) as [|? resp ?]; [reflexivity|].
    destruct (is404 resp); reflexivity. }
  destruct (Hbody (mkWorld (d w) (trace w ++ [Lock (permittedNetworkKey a b)]) (cells w)))
    as [calls [Hc Hcases]].
  exists (Lock (permittedNetworkKey a b) :: calls ++ [Unlock (permittedNetworkKey a b)])%list.
  split; [exact (locked_appended _ body w calls Hc)|].
  right. exists calls; split; auto.
Qed.

(** C8: whatever the vendor answers and however the handler ends (return,
    error or panic), Create, Delete and Exists of the permitted network either
    send nothing and touch no lock, or run exactly one critical section on
    the lock named after the instance and zone identifiers: lock, then the
    one request of the operation (followed, in Create, by the status query of
    the read it ends with), then unlock. *)
Theorem permitted_network_lock_discipline (meta : Meta) (w : World) :
  (exists l, appended (resourceIBMPrivateDNSPermittedNetworkCreate meta) w l
     /\ let key := permittedNetworkKey (fieldString w pdnsInstanceID)
                                       (fieldString w pdnsZoneID) in
        (l = [] \/ critical key [] l \/ critical key ["CreatePermittedNetwork"] l
         \/ critical key ["CreatePermittedNetwork"; "GetPermittedNetwork"] l))
  /\ (exists l, appended (resourceIBMPrivateDNSPermittedNetworkDelete meta) w l
        /\ let key := permittedNetworkKey (segment w 0) (segment w 1) in
           (l = [] \/ critical key [] l \/ critical key ["DeletePermittedNetwork"] l))
  /\ (exists l, appended (resourceIBMPrivateDNSPermittedNetworkExists meta) w l
        /\ let key := permittedNetworkKey (segment w 0) (segment w 1) in
           (l = [] \/ critical key ["GetPermittedNetwork"] l)).
Proof.
  split; [|split].
  - apply resourceIBMPrivateDNSPermittedNetworkCreate_appended.
  - apply resourceIBMPrivateDNSPermittedNetworkDelete_appended.
  - apply resourceIBMPrivateDNSPermittedNetworkExists_appended.
Qed.

End PermittedNetworkLock.

(** ** Creating a Power network (C4) *)









Section Create.
Context `{power.Externals}.
Import power.

Lemma refused_bind {A B} (m : M A) (k : A -> M B) (w : World) :
  quiet m -> (forall a, refused w (k a w)) -> refused w ((m ≫= k) w).
Proof.
  intros Hq Hk. rewrite bind_quiet by exact Hq.
  destruct (snd (m w)); [apply Hk | split; reflexivity | split; reflexivity].
Qed.

Lemma getString_lookup (key s : string) (w : World) :
  rd_fields (d w) !! key = Some (VString s) -> getString key w = (w, Ok s).
Proof.
  intros E. unfold getString, mbind, M_bind, schema.Get. now rewrite E.
Qed.





End Create.


(** The two refusals are the validation errors of the handler, and the
    addresses of 192.168.10.0/24 are .1, .4 and .254. *)
Example resourceIBMPINetworkCreate_messages :
  snd (@power.resourceIBMPINetworkCreate samples.power_externals samples.piMetaGone
         samples.worldVlan)
  = Fail (Errorf "pi_cidr is required when pi_network_type is vlan")
  /\ snd (@power.resourceIBMPINetworkCreate samples.power_externals samples.piMetaGone
            samples.worldPubVlan)
     = Fail (Errorf "pi_cidr cannot be set when pi_network_type is pub-vlan")
  /\ power.generateIPData "192.168.10.77/24"
     = Ok ("192.168.10.1", "192.168.10.4", "192.168.10.254").
Proof.
  repeat split; reflexivity.
Qed.

(** ** The HPCS data source (C10) *)







Section HPCS.
Context `{hpcs.Externals}.
Import hpcs.



End HPCS.


(* ===================================================================== *)
(** * Part III: further properties of the handlers *)
(* ===================================================================== *)

(** ** More steps through the monad *)

Lemma bind_Ok_inv {A B} (m : M A) (k : A -> M B) (w w' : World) (b : B) :
  (m ≫= k) w = (w', Ok b) -> exists a w1, m w = (w1, Ok a) /\ k a w1 = (w', Ok b).
Proof.
  unfold mbind, M_bind. destruct (m w) as [w1 [a|e|s]]; [eauto | discriminate | discriminate].
Qed.

Lemma refused_left {A B} (m : M A) (k : A -> M B) (w : World) :
  refused w (m w) -> refused w ((m ≫= k) w).
Proof.
  intros [Hw Hr]. unfold mbind, M_bind.
  destruct (m w) as [w' [a|e|s]]; simpl in *; [discriminate| |]; split; auto.
Qed.

Lemma refused_or_bind {A B} (Q : World * result B -> Prop) (m : M A) (k : A -> M B)
    (w : World) :
  quiet m -> (forall a, refused w (k a w) \/ Q (k a w)) ->
  refused w ((m ≫= k) w) \/ Q ((m ≫= k) w).
Proof.
  intros Hq Hk. rewrite bind_quiet by exact Hq.
  destruct (snd (m w)); [apply Hk | left; split; reflexivity | left; split; reflexivity].
Qed.

Lemma HasChanges_existsb (keys : list string) (w : World) :
  schema.HasChanges keys w
  = (w, Ok (existsb (fun k => bool_decide (k ∈ rd_changed (d w))) keys)).
Proof.
  induction keys as [|k rest IH]; simpl; [reflexivity|].
  unfold mbind, M_bind, schema.HasChange. simpl.
  destruct (bool_decide (k ∈ rd_changed (d w))); [reflexivity | exact IH].
Qed.

(** One of the listed keys changed: [HasChanges] answers [true]. *)
Lemma HasChanges_changed (keys : list string) (w : World) :
  (exists key, key ∈ keys /\ key ∈ rd_changed (d w)) ->
  schema.HasChanges keys w = (w, Ok true).
Proof.
  intros [key [Hin Hc]]. rewrite HasChanges_existsb. do 2 f_equal.
  apply existsb_exists. exists key.
  split; [now apply list_elem_of_In | now apply bool_decide_eq_true_2].
Qed.

Lemma aborts_sending_left {A B} (service op : string) (m : M A) (k : A -> M B) (w : World) :
  aborts_sending service op w (m w) -> aborts_sending service op w ((m ≫= k) w).
Proof.
  intros [Hr Hl]. unfold mbind, M_bind.
  destruct (m w) as [w' [a|e|s]]; simpl in *; try discriminate; split; auto.
Qed.

Lemma aborts_sending_bind {A B} (service op : string) (m : M A) (k : A -> M B) (w : World) :
  quiet m -> (forall a, aborts_sending service op w (k a w)) ->
  aborts_sending service op w ((m ≫= k) w).
Proof.
  intros Hq Hk. rewrite bind_quiet by exact Hq.
  destruct (snd (m w)) as [a|e|s] eqn:E; [apply Hk | |];
    (split; [reflexivity|]; split; [reflexivity|]; exists []; rewrite app_nil_r;
     split; [reflexivity | constructor]).
Qed.

Lemma panics_sending_left {A B} (service op : string) (m : M A) (k : A -> M B) (w : World) :
  panics_sending service op w (m w) -> panics_sending service op w ((m ≫= k) w).
Proof.
  intros [[reason Hr] Hl]. unfold mbind, M_bind.
  destruct (m w) as [w' [a|e|s]]; simpl in *; try discriminate.
  split; [eauto | exact Hl].
Qed.

(** A step that reads the record and cannot return an error: it hands a
    value on, or it panics. *)
Lemma panics_sending_bind {A B} (service op : string) (m : M A) (k : A -> M B) (w : World) :
  quiet m -> (forall e, snd (m w) <> Fail e) ->
  (forall a, panics_sending service op w (k a w)) -> panics_sending service op w ((m ≫= k) w).
Proof.
  intros Hq Hnf Hk. rewrite bind_quiet by exact Hq.
  destruct (snd (m w)) as [a|e|s] eqn:E; [apply Hk | now destruct (Hnf e) |].
  split; [eauto|]. split; [reflexivity|].
  exists []. rewrite app_nil_r. split; [reflexivity | constructor].
Qed.

(** Reading a field with a type assertion never returns an error: a value
    of another type is a panic. *)
Ltac no_fail_get :=
  intros ?; unfold cis.optString, mbind, M_bind, schema.GetOk, schema.Get; cbn;
  match goal with
  | |- context [default VNil ?x] =>
      destruct (default VNil x) as [|[|? ?]|[|?|?]|[|]|[|? ?]|[|? ?]]
  end; cbn; discriminate.

(** ** Identities: composing and splitting *)

Lemma Split_whole (s : string) :
  strings.Contains s "/" = false -> strings.Split s "/" = [s].
Proof.
  induction s as [|c s IH]; [reflexivity|].
  cbn [strings.Contains strings.Split String.prefix].
  destruct (ascii_dec "/" c) as [<-|Hc]; [destruct s; discriminate|].
  cbn [orb]. intros Hs. rewrite (IH Hs).
  destruct (Ascii.eqb c "/") eqn:E; [|reflexivity].
  apply Ascii.eqb_eq in E. congruence.
Qed.

Lemma Split_segment (a b : string) :
  strings.Contains a "/" = false ->
  strings.Split (a +:+ "/" +:+ b) "/" = a :: strings.Split b "/".
Proof.
  induction a as [|c a IH]; [reflexivity|].
  cbn [strings.Contains String.prefix].
  destruct (ascii_dec "/" c) as [<-|Hc]; [destruct a; discriminate|].
  cbn [orb]. intros Ha.
  change (String c a +:+ "/" +:+ b) with (String c (a +:+ "/" +:+ b)).
  cbn [strings.Split]. rewrite (IH Ha).
  destruct (Ascii.eqb c "/") eqn:E; [|reflexivity].
  apply Ascii.eqb_eq in E. congruence.
Qed.

(** ** [sort.Strings] sorts: two slices sort to the same slice exactly when
    one is a reordering of the other *)

Lemma Ascii_compare_refl (c : ascii) : Ascii.compare c c = Eq.
Proof. unfold Ascii.compare. apply N.compare_refl. Qed.

Lemma String_leb_trans (a b c : string) :
  String.leb a b = true -> String.leb b c = true -> String.leb a c = true.
Proof.
  unfold String.leb. revert b c.
  induction a as [|x a IH]; intros [|y b] [|z c]; simpl; try congruence.
  destruct (Ascii.compare x y) eqn:E1; [| |discriminate];
    destruct (Ascii.compare y z) eqn:E2; try discriminate.
  - apply Ascii.compare_eq_iff in E1, E2. subst. rewrite Ascii_compare_refl. apply IH.
  - apply Ascii.compare_eq_iff in E1. subst. now rewrite E2.
  - apply Ascii.compare_eq_iff in E2. subst. now rewrite E1.
  - unfold Ascii.compare in *. rewrite N.compare_lt_iff in E1, E2.
    assert (E3 : (N_of_ascii x ?= N_of_ascii z)%N = Lt) by (apply N.compare_lt_iff; lia).
    now rewrite E3.
Qed.

#[local] Instance sleb_trans : Transitive sleb.
Proof. intros a b c. apply String_leb_trans. Qed.

#[local] Instance sleb_antisym : AntiSymm (=) sleb.
Proof. intros a b. apply String.leb_antisym. Qed.

Lemma insert_sorted (x : string) (l : list string) :
  Sorted sleb l -> Sorted sleb (sort.insert x l).
Proof.
  induction 1 as [|y tl Hs IH Hhd]; simpl; [repeat constructor|].
  destruct (String.leb x y) eqn:E.
  - repeat constructor; assumption.
  - constructor; [exact IH|].
    assert (Hyx : sleb y x).
    { destruct (String.leb_total x y) as [C|C]; [congruence | exact C]. }
    destruct tl as [|z tl]; simpl; [now constructor|].
    destruct (String.leb x z); constructor; [exact Hyx|].
    now inversion Hhd.
Qed.

Lemma Strings_sorted (l : list string) : Sorted sleb (sort.Strings l).
Proof. induction l; simpl; [constructor | now apply insert_sorted]. Qed.

Lemma Strings_permutation (l1 l2 : list string) :
  sort.Strings l1 = sort.Strings l2 <-> Permutation l1 l2.
Proof.
  split.
  - intros E. rewrite (Strings_perm l1), E. symmetry. apply Strings_perm.
  - intros P. apply (Sorted_unique sleb); try apply Strings_sorted.
    rewrite <- !Strings_perm. exact P.
Qed.

(** ** Power network: the update refresh compares address ranges in any
    order *)

Lemma joinRanges_texts (pa pb ra rb : list (string * string)) :
  length pa = length pb -> length ra = length rb ->
  power.joinRanges (length pa) (length ra) (mkRange <$> (pa ++ ra)%list)
    (mkRange <$> (pb ++ rb)%list)
  = Ok (rangeText <$> ra, rangeText <$> rb).
Proof.
  revert pa pb rb. induction ra as [|[sa ea] ra IH]; intros pa pb [|[sb eb] rb] Hp Hl;
    try discriminate; [reflexivity|].
  simpl length. cbn [power.joinRanges].
  assert (Ea : slice_at (mkRange <$> (pa ++ (sa, ea) :: ra)%list) (length pa)
               = Ok (mkRange (sa, ea))).
  { rewrite fmap_app, fmap_cons, <- (length_fmap mkRange pa). apply slice_at_middle. }
  assert (Eb : slice_at (mkRange <$> (pb ++ (sb, eb) :: rb)%list) (length pa)
               = Ok (mkRange (sb, eb))).
  { rewrite Hp, fmap_app, fmap_cons, <- (length_fmap mkRange pb). apply slice_at_middle. }
  rewrite Ea, Eb. cbn -[power.joinRanges].
  specialize (IH (pa ++ [(sa, ea)])%list (pb ++ [(sb, eb)])%list rb).
  rewrite !length_app, <- !app_assoc in IH. simpl in IH.
  replace (length pa + 1)%nat with (S (length pa)) in IH by lia.
  rewrite IH by (simpl in Hl; lia). reflexivity.
Qed.

(** The loop over the two sorted slices takes the early return exactly when
    they differ. *)
Lemma range_int_compare (pa pb la lb : list string) :
  length pa = length pb -> length la = length lb ->
  power.range_int (length pa) (length la)
    (fun index =>
       a ← slice_at (pa ++ la)%list index;
       b ← slice_at (pb ++ lb)%list index;
       Ok (negb (String.eqb a b)))
  = Ok (negb (bool_decide (la = lb))).
Proof.
  revert pa pb lb. induction la as [|x la IH]; intros pa pb [|y lb] Hp Hl;
    try discriminate; [reflexivity|].
  simpl length. cbn [power.range_int].
  rewrite slice_at_middle. rewrite Hp, slice_at_middle. cbn -[power.range_int].
  destruct (String.eqb x y) eqn:E; cbn -[power.range_int].
  - apply String.eqb_eq in E. subst y.
    specialize (IH (pa ++ [x])%list (pb ++ [x])%list lb).
    rewrite !length_app, <- !app_assoc in IH. simpl in IH.
    replace (length pb + 1)%nat with (S (length pb)) in IH by lia.
    rewrite <- Hp at 1.
    replace (length pa + 1)%nat with (S (length pa)) in IH by lia.
    rewrite Hp in IH |- *.
    rewrite IH by (simpl in Hl; lia).
    do 2 f_equal. apply bool_decide_ext. split; [now intros -> | now intros [= ->]].
  - apply String.eqb_neq in E. rewrite bool_decide_eq_false_2; [reflexivity|].
    intros [= ? ?]. contradiction.
Qed.

Section PowerMore.
Context `{power.Externals}.
Import power.

(** X3: when the update body asks for address ranges only, the update
    refresh reports [State_Available] if the ranges read back are the
    requested ones in any order (compared as the texts "first-last"), and
    [State_Retry] if they are not. *)
Theorem compareUpdate_ranges_any_order (ra rb : list (string * string)) (network : Network.t)
    (Hsome : ra <> [])
    (Hnet : Network.IPAddressRanges network = mkRange <$> rb) :
  let updateBody := NetworkUpdate.mk "" "" [] None (mkRange <$> ra) None in
  (Permutation (rangeText <$> ra) (rangeText <$> rb) ->
   compareUpdate updateBody network = Ok (Some network, State_Available))
  /\ (~ Permutation (rangeText <$> ra) (rangeText <$> rb) ->
      compareUpdate updateBody network = Ok (Some network, State_Retry)).
Proof.
  intros updateBody.
  assert (Hpos : match length (mkRange <$> ra) with 0%nat => false | S _ => true end = true).
  { destruct ra; [contradiction | reflexivity]. }
  assert (Hrun : forall differ,
             (if negb (length (mkRange <$> ra) =? length (mkRange <$> rb))%nat
              then Ok true
              else
                joined ← joinRanges 0 (length (mkRange <$> ra)) (mkRange <$> ra) (mkRange <$> rb);
                range_int 0 (length (mkRange <$> ra))
                  (fun index =>
                     a ← slice_at (sort.Strings (fst joined)) index;
                     b ← slice_at (sort.Strings (snd joined)) index;
                     Ok (negb (String.eqb a b)))) = Ok differ ->
             compareUpdate updateBody network
             = Ok (Some network, if differ : bool then State_Retry else State_Available)).
  { intros differ E. unfold compareUpdate, updateBody.
    cbn [NetworkUpdate.Advertise NetworkUpdate.ArpBroadcast NetworkUpdate.DNSServers
         NetworkUpdate.Gateway NetworkUpdate.IPAddressRanges NetworkUpdate.Name].
    cbn [String.eqb negb andb length Nat.ltb Nat.leb mbind result_bind].
    rewrite Hnet, Hpos, E. cbn [mbind result_bind].
    destruct differ; reflexivity. }
  rewrite !length_fmap in Hrun.
  destruct (Nat.eq_dec (length ra) (length rb)) as [Hlen|Hlen].
  - pose proof (joinRanges_texts [] [] ra rb eq_refl Hlen) as J. simpl in J.
    pose proof (range_int_compare [] [] (sort.Strings (rangeText <$> ra))
                  (sort.Strings (rangeText <$> rb)) eq_refl) as R.
    rewrite !Strings_length, !length_fmap in R. specialize (R Hlen). simpl in R.
    rewrite (proj2 (Nat.eqb_eq _ _) Hlen), J in Hrun. cbn [negb mbind result_bind fst snd] in Hrun.
    specialize (Hrun _ R).
    split; intros P.
    + rewrite Hrun, bool_decide_eq_true_2; [reflexivity|]. now apply Strings_permutation.
    + rewrite Hrun, bool_decide_eq_false_2; [reflexivity|].
      intros E. apply P. now apply Strings_permutation.
  - rewrite (proj2 (Nat.eqb_neq _ _) Hlen) in Hrun. specialize (Hrun true eq_refl).
    split; intros P; [|exact Hrun].
    exfalso. apply Hlen. apply Permutation_length in P. now rewrite !length_fmap in P.
Qed.

(** ** Power network: validation in Update and Create *)

(** X1: an update that changes the gateway or the address ranges of a
    network whose type is not [Vlan] is refused: it fails before anything is
    sent to the vendor or written to the record. *)
Theorem resourceIBMPINetworkUpdate_not_vlan (meta : Meta) (w : World) (networkType : string)
    (Hchange : Arg_IPAddressRange ∈ rd_changed (d w) \/ Arg_Gateway ∈ rd_changed (d w))
    (Htype : rd_fields (d w) !! Arg_NetworkType = Some (VString networkType))
    (Hvlan : networkType <> Vlan) :
  refused w (resourceIBMPINetworkUpdate meta w).
Proof.
  unfold resourceIBMPINetworkUpdate.
  destruct (IBMPISession_ meta) as [sess|err]; [|split; reflexivity].
  apply refused_bind; [quiet_solve|intros id].
  apply refused_bind; [quiet_solve|intros ids].
  rewrite (bind_Ok _ _ w w true).
  2:{ apply HasChanges_changed. destruct Hchange as [Hc|Hc].
      - exists Arg_IPAddressRange. split; [set_solver | exact Hc].
      - exists Arg_Gateway. split; [set_solver | exact Hc]. }
  apply refused_left.
  apply refused_bind; [quiet_solve|intros advertise].
  apply refused_bind; [quiet_solve|intros arpBroadcast].
  apply refused_bind; [quiet_solve|intros dnsServers].
  rewrite (bind_Ok _ _ _ _ _ (getString_lookup _ _ w Htype)).
  unfold schema.HasChange at 1. rewrite (bind_Ok _ _ w w _ eq_refl).
  unfold schema.HasChange at 1. rewrite (bind_Ok _ _ w w _ eq_refl).
  assert (Hor : bool_decide (Arg_IPAddressRange ∈ rd_changed (d w))
                || bool_decide (Arg_Gateway ∈ rd_changed (d w)) = true).
  { apply orb_true_iff. destruct Hchange; [left|right]; now apply bool_decide_eq_true_2. }
  rewrite Hor.
  assert (Hne : String.eqb networkType Vlan = false) by now apply String.eqb_neq.
  rewrite Hne.
  apply refused_left. split; reflexivity.
Qed.



(** ** Power network: what Read stores is what Update parses *)

Lemma getIPAddressRanges_mkRange (ranges : list (string * string)) :
  Arg_EndingIPAddress <> Arg_StartingIPAddress ->
  getIPAddressRanges
    ((fun p => VMap [(Arg_EndingIPAddress, VString (snd p));
                     (Arg_StartingIPAddress, VString (fst p))]) <$> ranges)
  = Ok (mkRange <$> ranges).
Proof.
  intros Hkeys. induction ranges as [|[s e] ranges IH]; [reflexivity|].
  rewrite !fmap_cons. cbn [getIPAddressRanges assertMap mbind result_bind].
  unfold map_index. cbn [List.find fst snd].
  rewrite String.eqb_refl. cbn [fmap option_fmap option_map snd default from_option id
                                assertString mbind result_bind].
  rewrite (proj2 (String.eqb_neq _ _) Hkeys), String.eqb_refl.
  cbn [fmap option_fmap option_map snd default from_option id assertString mbind result_bind].
  rewrite IH. reflexivity.
Qed.

(** X4: after a successful read of a network whose address ranges all carry
    both addresses, the value the record holds under [Arg_IPAddressRange] is
    a list that [getIPAddressRanges] (the parser Create and Update apply to
    that field) turns back into the ranges the vendor returned. *)
Theorem resourceIBMPINetworkRead_ranges_round_trip (meta : Meta) (sess : IBMPISession)
    (w : World) (cloudInstanceID networkID : string) (networkdata : Network.t)
    (ranges : list (string * string))
    (Hsess : IBMPISession_ meta = Success sess)
    (Hid : splitID (rd_id (d w)) = Ok (cloudInstanceID, networkID))
    (Hget : IBMPINetworkClient.Get (NewIBMPINetworkClient sess cloudInstanceID) networkID
              (trace w) = Success networkdata)
    (Hranges : Network.IPAddressRanges networkdata = mkRange <$> ranges)
    (Hkeys : Arg_EndingIPAddress <> Arg_StartingIPAddress)
    (Hread : snd (resourceIBMPINetworkRead meta w) = Ok tt) :
  exists l,
    rd_fields (d (fst (resourceIBMPINetworkRead meta w))) !! Arg_IPAddressRange = Some (VList l)
    /\ getIPAddressRanges l = Ok (Network.IPAddressRanges networkdata).
Proof.
  destruct (resourceIBMPINetworkRead meta w) as [w' r] eqn:Erun.
  simpl in Hread. subst r. cbn [fst].
  unfold resourceIBMPINetworkRead in Erun. rewrite Hsess in Erun.
  rewrite (bind_Ok _ _ w w _ eq_refl) in Erun.
  rewrite (bind_Ok _ _ w w (cloudInstanceID, networkID)) in Erun
    by (unfold lift; now rewrite Hid).
  cbn [fst snd] in Erun.
  unfold client_Get at 1 in Erun.
  rewrite (bind_Ok _ _ w _ (Success networkdata)) in Erun
    by (unfold request; now rewrite Hget).
  repeat (apply bind_Ok_inv in Erun as (? & ? & _ & Erun)).
  unfold schema.Set_ in Erun. injection Erun as <-.
  eexists. cbn [d rd_fields]. rewrite lookup_insert_eq. split; [reflexivity|].
  rewrite Hranges.
  replace (omap _ (mkRange <$> ranges))
    with ((fun p => VMap [(Arg_EndingIPAddress, VString (snd p));
                          (Arg_StartingIPAddress, VString (fst p))]) <$> ranges).
  - now apply getIPAddressRanges_mkRange.
  - clear. induction ranges as [|[s e] ranges IH]; [reflexivity|].
    rewrite !fmap_cons. cbn [omap list_omap mkRange]. now rewrite <- IH.
Qed.

(** X5: [natMapToNetworkAddressTranslation] undoes
    [networkAddressTranslationToMap] on a translation with a source address;
    for an empty source address the map has no [Attr_SourceIP] key, and
    reading it back panics on the type assertion. *)
Theorem networkAddressTranslation_round_trip (nat_ : NetworkAddressTranslation.t) :
  natMapToNetworkAddressTranslation (networkAddressTranslationToMap nat_)
  = if String.eqb (NetworkAddressTranslation.SourceIP nat_) ""
    then Panic "interface conversion: interface {} is not string"
    else Ok nat_.
Proof.
  destruct nat_ as [ip]. unfold natMapToNetworkAddressTranslation, networkAddressTranslationToMap.
  simpl. destruct (String.eqb ip "") eqn:E; [reflexivity|].
  unfold map_index. simpl. rewrite String.eqb_refl. reflexivity.
Qed.

(** X6: an update that changes the user tags only sends no request to the
    network's update endpoint; it sends the tag update for the CRN of the
    record and then returns what Read returns, whatever the tag service
    answered (its error is logged, not returned). *)
Theorem resourceIBMPINetworkUpdate_tags_only (meta : Meta) (sess : IBMPISession) (w : World)
    (crn : string)
    (Hsess : IBMPISession_ meta = Success sess)
    (Hid : is_Ok (splitID (rd_id (d w))) = true)
    (Hsame : Forall (fun k => k ∉ rd_changed (d w))
               [Arg_Advertise; Arg_ARPBroadcast; Arg_DNS; Arg_Gateway; Arg_IPAddressRange;
                Arg_NetworkName])
    (Htags : Arg_UserTags ∈ rd_changed (d w))
    (Hcrn : rd_fields (d w) !! Attr_CRN = Some (VString crn))
    (Hset : crn <> "") :
  resourceIBMPINetworkUpdate meta w
  = resourceIBMPINetworkRead meta
      (sent w [Call "GlobalTagging" "UpdateGlobalTagsUsingCRN" [crn]]).
Proof.
  unfold resourceIBMPINetworkUpdate. rewrite Hsess.
  rewrite (bind_Ok _ _ w w _ eq_refl).
  destruct (splitID (rd_id (d w))) as [ids| |] eqn:Eid; try discriminate.
  rewrite (bind_Ok _ _ w w ids) by (unfold lift; first [now rewrite Eid | reflexivity]).
  rewrite (bind_Ok _ _ _ _ _ (HasChanges_unchanged _ w Hsame)).
  rewrite (bind_Ok _ _ w w tt eq_refl).
  unfold schema.HasChange at 1. rewrite (bind_Ok _ _ w w true)
    by now rewrite bool_decide_eq_true_2.
  assert (Ecrn : schema.GetOk Attr_CRN w = (w, Ok (VString crn, true))).
  { unfold schema.GetOk. rewrite Hcrn. destruct crn; [contradiction | reflexivity]. }
  erewrite (bind_Ok _ _ w (sent w [Call "GlobalTagging" "UpdateGlobalTagsUsingCRN" [crn]]) tt);
    [reflexivity|].
  rewrite (bind_Ok _ _ _ _ _ Ecrn). cbn [fst snd schema.asString].
  rewrite (bind_Ok _ _ w w crn eq_refl).
  unfold updateTags. rewrite (bind_Ok _ _ w w _ eq_refl).
  unfold mbind, M_bind, request, sent. reflexivity.
Qed.

End PowerMore.

Lemma compareUpdate_ranges_any_order_witness :
  @power.compareUpdate samples.power_externals
    (power.NetworkUpdate.mk "" "" [] None
       (mkRange <$> [("10.0.0.5", "10.0.0.9"); ("10.0.0.20", "10.0.0.30")]) None)
    samples.shuffled
  = Ok (Some samples.shuffled, "available").
Proof.
  apply (proj1 (@compareUpdate_ranges_any_order samples.power_externals
                  [("10.0.0.5", "10.0.0.9"); ("10.0.0.20", "10.0.0.30")]
                  [("10.0.0.20", "10.0.0.30"); ("10.0.0.5", "10.0.0.9")]
                  samples.shuffled ltac:(discriminate) eq_refl)).
  apply perm_swap.
Defined.

Lemma resourceIBMPINetworkUpdate_not_vlan_witness :
  refused samples.worldGatewayChanged
    (@power.resourceIBMPINetworkUpdate samples.power_externals samples.piMetaGone
       samples.worldGatewayChanged).
Proof.
  apply (@resourceIBMPINetworkUpdate_not_vlan samples.power_externals samples.piMetaGone
           samples.worldGatewayChanged "pub-vlan").
  - right. vm_compute. reflexivity.
  - reflexivity.
  - discriminate.
Defined.

(** The refusal is the validation error of the handler. *)
Example resourceIBMPINetworkUpdate_not_vlan_message :
  snd (@power.resourceIBMPINetworkUpdate samples.power_externals samples.piMetaGone
         samples.worldGatewayChanged)
  = Fail (Errorf "pub-vlan type does not allow ip-address range or gateway update").
Proof. reflexivity. Qed.


Lemma resourceIBMPINetworkRead_ranges_round_trip_witness :
  exists l,
    rd_fields (d (fst (@power.resourceIBMPINetworkRead samples.power_externals
                         samples.piMetaRanges samples.world0)))
      !! "pi_ipaddress_range" = Some (VList l)
    /\ @power.getIPAddressRanges samples.power_externals l
       = Ok (power.Network.IPAddressRanges samples.shuffled).
Proof.
  refine (@resourceIBMPINetworkRead_ranges_round_trip samples.power_externals
            samples.piMetaRanges _ samples.world0 "inst" "id1" samples.shuffled
            [("10.0.0.20", "10.0.0.30"); ("10.0.0.5", "10.0.0.9")]
            eq_refl eq_refl eq_refl eq_refl _ _).
  - discriminate.
  - reflexivity.
Defined.

Lemma resourceIBMPINetworkUpdate_tags_only_witness :
  @power.resourceIBMPINetworkUpdate samples.power_externals samples.piMetaGone
    samples.worldTagsChanged
  = @power.resourceIBMPINetworkRead samples.power_externals samples.piMetaGone
      (sent samples.worldTagsChanged
         [Call "GlobalTagging" "UpdateGlobalTagsUsingCRN" ["crn:v1:net"]]).
Proof.
  refine (@resourceIBMPINetworkUpdate_tags_only samples.power_externals samples.piMetaGone
            _ samples.worldTagsChanged "crn:v1:net" eq_refl eq_refl _ _ eq_refl _).
  - repeat constructor; (intros Hin; vm_compute in Hin; discriminate Hin).
  - vm_compute. reflexivity.
  - discriminate.
Defined.

(** ** Private DNS: the GLB monitor *)

Section GlbMonitorMore.
Context `{dnsservices.Externals}.
Import dnsservices.

Lemma dns_getString_lookup (key s : string) (w : World) :
  rd_fields (d w) !! key = Some (VString s) -> getString key w = (w, Ok s).
Proof.
  intros E. unfold getString, mbind, M_bind, schema.Get. now rewrite E.
Qed.

Lemma quiet_dns_getString (key : string) : quiet (getString key).
Proof. unfold getString. quiet_solve. Qed.

Lemma quiet_dns_getInt (key : string) : quiet (getInt key).
Proof. unfold getInt. quiet_solve. Qed.

Lemma quiet_dns_optString (key : string) : quiet (optString key).
Proof. unfold optString. quiet_solve. Qed.


(** X8: when the status query of [Exists] is answered with an error and
    status 404, the handler reports absence ([false], no error) only if the
    answer also carries a result object; with a nil result the vendor's
    error is returned. *)
Theorem resourceIBMPrivateDNSGLBMonitorExists_not_found (sess : Session) (w : World)
    (instanceID monitorID : string) (rest : list string)
    (result : option Monitor.t) (err : error)
    (Hid : strings.Split (rd_id (d w)) "/" = instanceID :: monitorID :: rest)
    (Hgone : GetMonitor sess instanceID monitorID (trace w)
             = SdkErr result (Some (mkDetailedResponse 404)) err) :
  resourceIBMPrivateDNSGLBMonitorExists (mkMeta (Success sess)) w
  = (sent w [Call "dnssvcs" "GetMonitor" [instanceID; monitorID]],
     match result with
     | Some _ => Ok false
     | None => Fail err
     end).
Proof.
  unfold resourceIBMPrivateDNSGLBMonitorExists, sent. cbn [PrivateDNSClientSession].
  unfold mbind, M_bind, schema.Id, request. cbn. rewrite Hid. cbn. rewrite Hgone.
  destruct result; reflexivity.
Qed.

(** X9: when a monitor field changed and the vendor rejects the update
    request, the update handler fails, leaves the record as it was, and has
    sent nothing but the update request: the monitor is not read again. *)
Theorem resourceIBMPrivateDNSGLBMonitorUpdate_rejected (sess : Session) (w : World)
    (Hchanged : exists key, key ∈ monitorKeys /\ key ∈ rd_changed (d w))
    (Hrejected : forall options history, exists result detail err,
                   UpdateMonitor sess options history = SdkErr result detail err) :
  aborts_sending "dnssvcs" "UpdateMonitor" w
    (resourceIBMPrivateDNSGLBMonitorUpdate (mkMeta (Success sess)) w).
Proof.
  unfold resourceIBMPrivateDNSGLBMonitorUpdate. cbn [PrivateDNSClientSession].
  rewrite (bind_Ok _ _ w w _ eq_refl).
  rewrite (bind_Ok _ _ _ _ _ (HasChanges_changed _ w Hchanged)).
  apply aborts_sending_left.
  apply aborts_sending_bind; [quiet_solve | intros instanceID].
  apply aborts_sending_bind; [quiet_solve | intros monitorID].
  apply aborts_sending_bind; [apply quiet_dns_getString | intros uname].
  apply aborts_sending_bind; [apply quiet_dns_getString | intros udescription].
  apply aborts_sending_bind; [apply quiet_dns_getInt | intros uinterval].
  apply aborts_sending_bind; [apply quiet_dns_getInt | intros uretries].
  apply aborts_sending_bind; [apply quiet_dns_getInt | intros utimeout].
  apply aborts_sending_bind; [apply quiet_dns_optString | intros Mtype].
  apply aborts_sending_bind; [quiet_solve | intros Mport].
  apply aborts_sending_bind; [apply quiet_dns_optString | intros monitorpath].
  apply aborts_sending_bind; [apply quiet_dns_optString | intros monitorexpectedcodes].
  apply aborts_sending_bind; [apply quiet_dns_optString | intros monitormethod].
  apply aborts_sending_bind; [apply quiet_dns_optString | intros monitorexpectedbody].
  apply aborts_sending_bind; [quiet_solve | intros monitorheaders].
  apply aborts_sending_bind; [quiet_solve | intros monitorallowinsecure].
  unfold mbind, M_bind, request. cbn.
  match goal with |- context [UpdateMonitor sess ?o ?h] =>
    destruct (Hrejected o h) as [result [detail [err ->]]] end.
  cbn. split; [reflexivity|]. split; [reflexivity|].
  eexists. split; [reflexivity|]. repeat constructor.
Qed.

(** With an identity of at least two segments, the read sends exactly the
    status query for the first two, and keeps the identity. *)
Lemma resourceIBMPrivateDNSGLBMonitorRead_query (sess : Session) (w : World)
    (a b : string) (rest : list string) :
  strings.Split (rd_id (d w)) "/" = a :: b :: rest ->
  let w' := fst (resourceIBMPrivateDNSGLBMonitorRead (mkMeta (Success sess)) w) in
  rd_id (d w') = rd_id (d w)
  /\ trace w' = (trace w ++ [Call "dnssvcs" "GetMonitor" [a; b]])%list.
Proof.
  intros Hs. unfold resourceIBMPrivateDNSGLBMonitorRead.
  cbn [PrivateDNSClientSession]. unfold mbind, M_bind, schema.Id, request. cbn. rewrite Hs. cbn.
  destruct (GetMonitor sess a b (trace w)) as [response ?|? ? ?]; cbn; [|auto].
  destruct (Monitor.CreatedOn response); cbn; [|auto].
  destruct (Monitor.ModifiedOn response); cbn; [|auto].
  unfold setIfPresent.
  destruct (Monitor.Path response), (Monitor.Interval response), (Monitor.Retries response),
    (Monitor.Timeout response), (Monitor.Method response), (Monitor.ExpectedCodes response),
    (Monitor.AllowInsecure response), (Monitor.Description response),
    (Monitor.ExpectedBody response); cbn; auto.
Qed.

(** X10: when the vendor accepts the new monitor, the create handler either
    stops before sending anything (a field of the plan has the wrong type),
    or leaves an identity that splits back into the instance identifier of
    the plan and the monitor identifier the vendor returned, having sent the
    create request and then the status query for exactly these two, provided
    neither identifier contains the separator. *)
Theorem resourceIBMPrivateDNSGLBMonitorCreate_identity
    (CreateMonitor : CreateMonitorOptions.t -> list Event -> SdkReply Monitor.t)
    (sess : Session) (w : World) (instanceID monitorID : string)
    (response : Monitor.t) (detail : DetailedResponse)
    (Hinstance : rd_fields (d w) !! pdnsInstanceID = Some (VString instanceID))
    (Hcreate : forall options history, CreateMonitor options history = SdkOk response detail)
    (Hid : Monitor.ID response = Some monitorID)
    (Hplain : strings.Contains instanceID "/" = false
              /\ strings.Contains monitorID "/" = false) :
  let run := resourceIBMPrivateDNSGLBMonitorCreate CreateMonitor (mkMeta (Success sess)) w in
  refused w run
  \/ exists monitorname,
       created w [instanceID; monitorID]
         [Call "dnssvcs" "CreateMonitor" [instanceID; monitorname];
          Call "dnssvcs" "GetMonitor" [instanceID; monitorID]] run.
Proof.
  destruct Hplain as [Pi Pm].
  assert (Hsplit : strings.Split (instanceID +:+ "/" +:+ monitorID) "/"
                   = [instanceID; monitorID]).
  { rewrite (Split_segment _ _ Pi), (Split_whole _ Pm). reflexivity. }
  intros run. subst run. unfold resourceIBMPrivateDNSGLBMonitorCreate.
  cbn [PrivateDNSClientSession].
  rewrite (bind_Ok _ _ _ _ _ (dns_getString_lookup _ _ w Hinstance)).
  set (Q := fun p : World * result unit =>
              exists monitorname,
                created w [instanceID; monitorID]
                  [Call "dnssvcs" "CreateMonitor" [instanceID; monitorname];
                   Call "dnssvcs" "GetMonitor" [instanceID; monitorID]] p).
  match goal with |- refused w ?p \/ _ => change (refused w p \/ Q p) end.
  apply (refused_or_bind Q); [apply quiet_dns_getString | intros monitorname].
  apply (refused_or_bind Q); [apply quiet_dns_getInt | intros monitorinterval].
  apply (refused_or_bind Q); [apply quiet_dns_getInt | intros monitorretries].
  apply (refused_or_bind Q); [apply quiet_dns_getInt | intros monitortimeout].
  apply (refused_or_bind Q); [apply quiet_dns_optString | intros monitordescription].
  apply (refused_or_bind Q); [apply quiet_dns_optString | intros Mtype].
  apply (refused_or_bind Q); [quiet_solve | intros Mport].
  apply (refused_or_bind Q); [apply quiet_dns_optString | intros monitorpath].
  apply (refused_or_bind Q); [apply quiet_dns_optString | intros monitorexpectedcodes].
  apply (refused_or_bind Q); [apply quiet_dns_optString | intros monitormethod].
  apply (refused_or_bind Q); [apply quiet_dns_optString | intros monitorexpectedbody].
  apply (refused_or_bind Q); [quiet_solve | intros monitorheaders].
  apply (refused_or_bind Q); [quiet_solve | intros monitorallowinsecure].
  right. exists monitorname. unfold created.
  unfold mbind, M_bind, request, lift, schema.SetId. cbn [fst snd d trace cells].
  rewrite Hcreate, Hid. cbn [deref].
  match goal with |- context [resourceIBMPrivateDNSGLBMonitorRead _ ?w2] =>
    pose proof (resourceIBMPrivateDNSGLBMonitorRead_query sess w2
                  instanceID monitorID [] Hsplit) as [Rid Rtrace];
    destruct (resourceIBMPrivateDNSGLBMonitorRead (mkMeta (Success sess)) w2) as [w3 r] end.
  cbn [fst snd d trace cells rd_id] in *. rewrite Rid, Hsplit, Rtrace, <- app_assoc. auto.
Qed.

(** ** Private DNS: the permitted network *)

Lemma resourceIBMPrivateDNSPermittedNetworkRead_query (sess : Session) (w : World)
    (a b c : string) (rest : list string) :
  strings.Split (rd_id (d w)) "/" = a :: b :: c :: rest ->
  let w' := fst (resourceIBMPrivateDNSPermittedNetworkRead (mkMeta (Success sess)) w) in
  rd_id (d w') = rd_id (d w)
  /\ trace w' = (trace w ++ [Call "dnssvcs" "GetPermittedNetwork" [a; b; c]])%list.
Proof.
  intros Hs. unfold resourceIBMPrivateDNSPermittedNetworkRead.
  cbn [PrivateDNSClientSession]. unfold mbind, M_bind, schema.Id, request. cbn. rewrite Hs. cbn.
  destruct (GetPermittedNetwork sess a b c (trace w)) as [response ?|? ? ?]; cbn; [|auto].
  destruct (PermittedNetwork.CreatedOn response); cbn; [|auto].
  destruct (PermittedNetwork.ModifiedOn response); cbn; [|auto].
  destruct (PermittedNetwork.PermittedNetwork_ response); cbn; auto.
Qed.

(** X11: when the vendor accepts the permitted network, and the instance,
    zone and network identifiers contain no separator, the create handler
    leaves an identity that splits back into these three; the lock key that
    Delete and Exists derive from that identity is the key Create held; and
    Create sent, inside that one critical section, the create request and
    the status query for the network just created. *)
Theorem resourceIBMPrivateDNSPermittedNetworkCreate_identity (sess : Session) (w : World)
    (instanceID zoneID vpcCRN nwType responseID : string)
    (vpc : PermittedNetwork.Vpc) (response : PermittedNetwork.t) (detail : DetailedResponse)
    (Hinstance : rd_fields (d w) !! pdnsInstanceID = Some (VString instanceID))
    (Hzone : rd_fields (d w) !! pdnsZoneID = Some (VString zoneID))
    (Hcrn : rd_fields (d w) !! pdnsVpcCRN = Some (VString vpcCRN))
    (Htype : rd_fields (d w) !! pdnsNetworkType = Some (VString nwType))
    (Hvpc : NewPermittedNetworkVpc sess vpcCRN = Success vpc)
    (Hcreate : CreatePermittedNetwork sess instanceID zoneID nwType vpc
                 (trace w ++ [Lock (permittedNetworkKey instanceID zoneID)])%list
               = SdkOk response detail)
    (Hid : PermittedNetwork.ID response = Some responseID)
    (Hplain : strings.Contains instanceID "/" = false
              /\ strings.Contains zoneID "/" = false
              /\ strings.Contains responseID "/" = false) :
  let w' := fst (resourceIBMPrivateDNSPermittedNetworkCreate (mkMeta (Success sess)) w) in
  strings.Split (rd_id (d w')) "/" = [instanceID; zoneID; responseID]
  /\ permittedNetworkKey (segment w' 0) (segment w' 1) = permittedNetworkKey instanceID zoneID
  /\ trace w'
     = (trace w ++ [Lock (permittedNetworkKey instanceID zoneID);
                    Call "dnssvcs" "CreatePermittedNetwork" [instanceID; zoneID];
                    Call "dnssvcs" "GetPermittedNetwork" [instanceID; zoneID; responseID];
                    Unlock (permittedNetworkKey instanceID zoneID)])%list.
Proof.
  destruct Hplain as [Pi [Pz Pr]].
  assert (Hsplit : strings.Split (instanceID +:+ "/" +:+ zoneID +:+ "/" +:+ responseID) "/"
                   = [instanceID; zoneID; responseID]).
  { rewrite (Split_segment _ _ Pi), (Split_segment _ _ Pz), (Split_whole _ Pr). reflexivity. }
  set (key := permittedNetworkKey instanceID zoneID) in *.
  set (w2 := mkWorld
               (mkResourceData (instanceID +:+ "/" +:+ zoneID +:+ "/" +:+ responseID)
                  (rd_prior (d w)) (rd_fields (d w)) (rd_changed (d w)) (rd_timeout (d w)))
               ((trace w ++ [Lock key]) ++
                [Call "dnssvcs" "CreatePermittedNetwork" [instanceID; zoneID]])%list
               (cells w)).
  assert (Erun : resourceIBMPrivateDNSPermittedNetworkCreate (mkMeta (Success sess)) w
                 = let (w3, r) :=
                     resourceIBMPrivateDNSPermittedNetworkRead (mkMeta (Success sess)) w2 in
                   (mkWorld (d w3) (trace w3 ++ [Unlock key])%list (cells w3), r)).
  { unfold resourceIBMPrivateDNSPermittedNetworkCreate. cbn [PrivateDNSClientSession].
    rewrite (bind_Ok _ _ _ _ _ (dns_getString_lookup _ _ w Hinstance)).
    rewrite (bind_Ok _ _ _ _ _ (dns_getString_lookup _ _ w Hzone)).
    rewrite (bind_Ok _ _ _ _ _ (dns_getString_lookup _ _ w Hcrn)).
    rewrite (bind_Ok _ _ _ _ _ (dns_getString_lookup _ _ w Htype)).
    rewrite Hvpc. fold (permittedNetworkKey instanceID zoneID). fold key.
    unfold locked, defer, emit, request, lift, schema.SetId, mbind, M_bind.
    cbn [fst snd d trace cells]. rewrite Hcreate, Hid. reflexivity. }
  intros w'. subst w'. rewrite Erun.
  pose proof (resourceIBMPrivateDNSPermittedNetworkRead_query sess w2
                instanceID zoneID responseID [] Hsplit) as [Rid Rtrace].
  destruct (resourceIBMPrivateDNSPermittedNetworkRead (mkMeta (Success sess)) w2) as [w3 r].
  cbn [fst snd d trace cells rd_id w2] in *.
  unfold segment. cbn [d rd_id]. rewrite Rid, Hsplit. cbn [lookup list_lookup default from_option id].
  rewrite Rtrace, <- !app_assoc. auto.
Qed.

End GlbMonitorMore.


Lemma resourceIBMPrivateDNSGLBMonitorExists_not_found_witness :
  dnsservices.resourceIBMPrivateDNSGLBMonitorExists samples.dnsMetaGone samples.worldDns
  = (sent samples.worldDns [Call "dnssvcs" "GetMonitor" ["inst1"; "zone1"]],
     Fail samples.notFound).
Proof.
  exact (resourceIBMPrivateDNSGLBMonitorExists_not_found
           samples.dnsGone samples.worldDns "inst1" "zone1" ["net1"] None samples.notFound
           eq_refl eq_refl).
Defined.

Lemma resourceIBMPrivateDNSGLBMonitorUpdate_rejected_witness :
  aborts_sending "dnssvcs" "UpdateMonitor" samples.worldMonitorRenamed
    (@dnsservices.resourceIBMPrivateDNSGLBMonitorUpdate samples.dns_externals
       samples.dnsMetaGone samples.worldMonitorRenamed).
Proof.
  apply (@resourceIBMPrivateDNSGLBMonitorUpdate_rejected samples.dns_externals
           samples.dnsGone samples.worldMonitorRenamed).
  - exists "name". split; [apply list_elem_of_In; simpl; auto|].
    vm_compute. reflexivity.
  - intros options history. do 3 eexists. reflexivity.
Defined.

Lemma resourceIBMPrivateDNSGLBMonitorCreate_identity_witness :
  let run :=
    @dnsservices.resourceIBMPrivateDNSGLBMonitorCreate samples.dns_externals
      (fun _ _ => SdkOk samples.monitor samples.ok200) samples.dnsMetaPresent
      samples.worldMonitorNew in
  refused samples.worldMonitorNew run
  \/ exists monitorname,
       created samples.worldMonitorNew ["inst1"; "mon1"]
         [Call "dnssvcs" "CreateMonitor" ["inst1"; monitorname];
          Call "dnssvcs" "GetMonitor" ["inst1"; "mon1"]] run.
Proof.
  apply (@resourceIBMPrivateDNSGLBMonitorCreate_identity samples.dns_externals
           (fun _ _ => SdkOk samples.monitor samples.ok200) samples.dnsPresent
           samples.worldMonitorNew "inst1" "mon1" samples.monitor samples.ok200).
  - reflexivity.
  - intros options history. reflexivity.
  - reflexivity.
  - split; reflexivity.
Defined.

(** The run of the witness is not a refusal: the monitor is created and read
    back. *)
Example resourceIBMPrivateDNSGLBMonitorCreate_run :
  let run :=
    @dnsservices.resourceIBMPrivateDNSGLBMonitorCreate samples.dns_externals
      (fun _ _ => SdkOk samples.monitor samples.ok200) samples.dnsMetaPresent
      samples.worldMonitorNew in
  snd run = Ok tt
  /\ rd_id (d (fst run)) = "inst1/mon1"
  /\ trace (fst run) = [Call "dnssvcs" "CreateMonitor" ["inst1"; "health"];
                        Call "dnssvcs" "GetMonitor" ["inst1"; "mon1"]].
Proof. repeat split; reflexivity. Qed.

Lemma resourceIBMPrivateDNSPermittedNetworkCreate_identity_witness :
  let w' :=
    fst (@dnsservices.resourceIBMPrivateDNSPermittedNetworkCreate samples.dns_externals
           (dnsservices.mkMeta (Success samples.dnsCreating)) samples.worldNetworkNew) in
  strings.Split (rd_id (d w')) "/" = ["inst1"; "zone1"; "net1"]
  /\ permittedNetworkKey (segment w' 0) (segment w' 1) = permittedNetworkKey "inst1" "zone1"
  /\ trace w'
     = (trace samples.worldNetworkNew
          ++ [Lock (permittedNetworkKey "inst1" "zone1");
              Call "dnssvcs" "CreatePermittedNetwork" ["inst1"; "zone1"];
              Call "dnssvcs" "GetPermittedNetwork" ["inst1"; "zone1"; "net1"];
              Unlock (permittedNetworkKey "inst1" "zone1")])%list.
Proof.
  apply (@resourceIBMPrivateDNSPermittedNetworkCreate_identity samples.dns_externals
           samples.dnsCreating samples.worldNetworkNew "inst1" "zone1" "crn:v1:vpc" "vpc"
           "net1" (dnsservices.PermittedNetwork.mkVpc (Some "crn:v1:vpc")) samples.permitted
           samples.ok200).
  - reflexivity.
  - reflexivity.
  - reflexivity.
  - reflexivity.
  - reflexivity.
  - reflexivity.
  - reflexivity.
  - repeat split; reflexivity.
Defined.

(** ** CIS: firewall rules *)

Section FirewallMore.
Context `{cis.Externals}.
Import cis.

(** X12: the firewall rule delete sends nothing, or the rule deletion alone,
    or the rule deletion followed by one filter deletion; the filter
    deletion is only sent after the vendor answered the rule deletion
    without error, and only for the filter the record names. *)
Theorem ResourceIBMCISFirewallrulesDelete_order (meta : Meta) (w : World) :
  exists l, appended (ResourceIBMCISFirewallrulesDelete meta) w l
    /\ (l = []
        \/ l = [deleteRuleCall w]
        \/ exists cisClient response filter_id,
             l = [deleteRuleCall w; deleteFilterCall w filter_id]
             /\ CisFirewallRulesSession meta = Success cisClient
             /\ deleteRuleReply cisClient w = SdkOk tt response
             /\ rd_fields (d w) !! cisFilterID = Some (VString filter_id)).
Proof.
  unfold appended, ResourceIBMCISFirewallrulesDelete, deleteRuleCall, deleteFilterCall,
    deleteRuleReply.
  destruct (BluemixSession meta) as [token|err].
  2:{ exists []. rewrite app_nil_r. auto. }
  destruct (CisFirewallRulesSession meta) as [cisClient|err].
  2:{ exists []. rewrite app_nil_r. auto. }
  unfold mbind, M_bind, schema.Id, request. cbn.
  destruct (ConvertTfToCisThreeVar (rd_id (d w))) as [[[rid zone] crn] e]. cbn.
  destruct (DeleteFirewallRules cisClient crn zone rid (trace w))
    as [[] response|? response err] eqn:Er; cbn.
  2:{ exists [Call "firewallrules" "DeleteFirewallRules" [crn; zone; rid]].
      split; [|auto]. destruct (is404 response); reflexivity. }
  destruct (rd_fields (d w) !! cisFilterID) as [v|] eqn:Ev; cbn;
    [|eexists; split; [reflexivity | right; left; reflexivity]].
  destruct (is_zero v) eqn:Ez; cbn;
    [eexists; split; [reflexivity | right; left; reflexivity]|].
  destruct (CisFiltersSession meta) as [fc|err]; cbn;
    [|eexists; split; [reflexivity | right; left; reflexivity]].
  destruct v as [|f| | | |]; cbn;
    try (eexists; split; [reflexivity | right; left; reflexivity]); [discriminate|].
  exists [Call "firewallrules" "DeleteFirewallRules" [crn; zone; rid];
          Call "filters" "DeleteFilters" [crn; zone; f]].
  split.
  - destruct (DeleteFilters fc crn zone f _); cbn; now rewrite <- app_assoc.
  - right; right. exists cisClient, response, f. auto.
Qed.

(** X13: the firewall rule delete reports success while leaving the record,
    identity included, as it was, having sent the rule deletion only, in two
    cases: the vendor answered the rule deletion with status 404; or the
    rule was deleted, the record names a filter, and the filter client
    cannot be built. *)
Theorem ResourceIBMCISFirewallrulesDelete_keeps_identity (token : string)
    (cisClient : FirewallRulesSession) (filters : Reply FiltersSession)
    (mtls : Reply MtlsSession) (w : World)
    (Hcase : replied404 (deleteRuleReply cisClient w) = true
             \/ (exists response, deleteRuleReply cisClient w = SdkOk tt response)
                /\ is_zero (default VNil (rd_fields (d w) !! cisFilterID)) = false
                /\ (exists err, filters = Failure err)) :
  ResourceIBMCISFirewallrulesDelete (mkMeta (Success token) (Success cisClient) filters mtls) w
  = (sent w [deleteRuleCall w], Ok tt).
Proof.
  unfold ResourceIBMCISFirewallrulesDelete, deleteRuleCall, deleteRuleReply, sent in *.
  cbn [BluemixSession CisFirewallRulesSession CisFiltersSession].
  unfold mbind, M_bind, schema.Id, request. cbn.
  destruct (ConvertTfToCisThreeVar (rd_id (d w))) as [[[rid zone] crn] e]. cbn.
  destruct Hcase as [H404|[[response Hok] [Hset [err ->]]]].
  - destruct (DeleteFirewallRules cisClient crn zone rid (trace w)) as [? ?|? response err];
      [discriminate|]. cbn in *. rewrite H404. reflexivity.
  - rewrite Hok. cbn. rewrite Hset. reflexivity.
Qed.

(** X14: when a rule field changed and the vendor answers the update
    request with neither an error nor a result, the update handler panics
    (the error branch formats the message of a nil error); the record is
    left as it was and nothing but the update request was sent. *)
Theorem ResourceIBMCISFirewallrulesUpdate_nil_result (token : string)
    (cisClient : FirewallRulesSession) (filters : Reply FiltersSession)
    (mtls : Reply MtlsSession) (w : World)
    (Hchanged : exists key, key ∈ [cisFilterID; cisFirewallrulesAction; cisFirewallrulesPaused;
                                   cisFilterDescription; cisFirewallrulesPriority]
                            /\ key ∈ rd_changed (d w))
    (Hnil : forall crn zoneID item history, exists response,
              UpdateFirewllRules cisClient crn zoneID item history = SdkOk None response) :
  panics_sending "firewallrules" "UpdateFirewllRules" w
    (ResourceIBMCISFirewallrulesUpdate
       (mkMeta (Success token) (Success cisClient) filters mtls) w).
Proof.
  unfold ResourceIBMCISFirewallrulesUpdate. cbn [BluemixSession CisFirewallRulesSession].
  rewrite (bind_Ok _ _ w w _ eq_refl).
  destruct (ConvertTfToCisThreeVar (rd_id (d w))) as [[[rid zone] crn] e].
  rewrite (bind_Ok _ _ _ _ _ (HasChanges_changed _ w Hchanged)).
  apply panics_sending_left.
  apply panics_sending_bind; [unfold optString; quiet_solve | no_fail_get | intros action].
  apply panics_sending_bind; [quiet_solve | no_fail_get | intros paused].
  apply panics_sending_bind; [unfold optString; quiet_solve | no_fail_get | intros description].
  apply panics_sending_bind; [quiet_solve | no_fail_get | intros priority].
  apply panics_sending_bind; [unfold optString; quiet_solve | no_fail_get | intros filter].
  unfold mbind, M_bind, request. cbn.
  destruct (Hnil crn zone
              (FirewallRulesUpdateInputItem.mk (Some rid) action paused description priority
                 filter) (trace w)) as [response ->].
  cbn. split; [eauto|]. split; [reflexivity|].
  eexists. split; [reflexivity|]. repeat constructor.
Qed.

(** X15: when the vendor answers the create request without an error and
    with no rule (a nil result, or an empty list of rules), the create
    handler panics; the record is left as it was, so no identity is set, and
    nothing but the create request was sent. *)
Theorem ResourceIBMCISFirewallrulesCreate_without_rule
    (ConvertTftoCisTwoVar : string -> string * string * option error)
    (ConvertCisToTfThreeVar : string -> string -> string -> string)
    (CreateFirewallRules :
       string -> string -> FirewallRuleInput.t -> list Event
       -> SdkReply (option (list FirewallRule.Object)))
    (token : string) (cisClient : FirewallRulesSession) (filters : Reply FiltersSession)
    (mtls : Reply MtlsSession) (w : World)
    (Hnone : forall crn zoneID input history, exists response,
               CreateFirewallRules crn zoneID input history = SdkOk None response
               \/ CreateFirewallRules crn zoneID input history = SdkOk (Some []) response) :
  panics_sending "firewallrules" "CreateFirewallRules" w
    (ResourceIBMCISFirewallrulesCreate ConvertTftoCisTwoVar ConvertCisToTfThreeVar
       CreateFirewallRules (mkMeta (Success token) (Success cisClient) filters mtls) w).
Proof.
  unfold ResourceIBMCISFirewallrulesCreate. cbn [BluemixSession CisFirewallRulesSession].
  apply panics_sending_bind; [quiet_solve | no_fail_get | intros crn].
  apply panics_sending_bind; [quiet_solve | no_fail_get | intros domain].
  destruct (ConvertTftoCisTwoVar domain) as [[zoneID ?] ?].
  apply panics_sending_bind; [unfold optString; quiet_solve | no_fail_get | intros action].
  apply panics_sending_bind; [quiet_solve | no_fail_get | intros paused].
  apply panics_sending_bind; [unfold optString; quiet_solve | no_fail_get | intros description].
  apply panics_sending_bind; [unfold optString; quiet_solve | no_fail_get | intros filter].
  apply panics_sending_bind; [quiet_solve | no_fail_get | intros priority].
  unfold mbind, M_bind, request. cbn.
  destruct (Hnone crn zoneID (FirewallRuleInput.mk action paused description filter priority)
              (trace w)) as [response [-> | ->]];
    cbn; (split; [eauto|]; split; [reflexivity|];
          eexists; split; [reflexivity|]; repeat constructor).
Qed.

(** ** CIS: mTLS certificates *)

(** X16: the mTLS delete never touches the record: whatever the vendor
    answers, the identity and the fields are those it started with (the
    identity is not cleared after a successful deletion), and at most the one
    deletion request was sent. *)
Theorem resourceIBMCISMtlsDelete_keeps_record (meta : Meta) (w : World) :
  let w' := fst (resourceIBMCISMtlsDelete meta w) in
  d w' = d w
  /\ (trace w' = trace w
      \/ exists args, trace w' = (trace w ++ [Call "mtls" "DeleteAccessCertificate" args])%list).
Proof.
  unfold resourceIBMCISMtlsDelete.
  destruct (CisMtlsSession meta) as [sess|err]; [|cbn; auto].
  unfold mbind, M_bind, schema.Id, request. cbn.
  destruct (ConvertTfToCisThreeVar (rd_id (d w))) as [[[certID zone] crn] e]. cbn.
  destruct (DeleteAccessCertificate sess crn zone certID (trace w)); cbn; eauto.
Qed.

(** X17: an mTLS update in which neither the certificate name nor the
    associated host names changed sends no update request: it does exactly
    what the read does. *)
Theorem resourceIBMCISMtlsUpdate_unchanged (bluemix : Reply string)
    (firewall : Reply FirewallRulesSession) (filters : Reply FiltersSession)
    (sess : MtlsSession) (w : World) (crn : string)
    (Hname : cisMtlsCertName ∉ rd_changed (d w))
    (Hhosts : cisMtlsHostNames ∉ rd_changed (d w))
    (Hcrn : rd_fields (d w) !! cisID = Some (VString crn)) :
  let meta := mkMeta bluemix firewall filters (Success sess) in
  resourceIBMCISMtlsUpdate meta w = resourceIBMCISMtlsRead meta w.
Proof.
  intros meta. unfold resourceIBMCISMtlsUpdate. cbn [CisMtlsSession meta].
  assert (E : (schema.Get cisID ≫= schema.asString) w = (w, Ok crn)).
  { unfold mbind, M_bind, schema.Get. now rewrite Hcrn. }
  rewrite (bind_Ok _ _ _ _ _ E).
  rewrite (bind_Ok _ _ w w _ eq_refl).
  destruct (ConvertTfToCisThreeVar (rd_id (d w))) as [[[certID zone] crn'] e].
  rewrite (bind_Ok _ _ w w false).
  2:{ apply HasChanges_unchanged. repeat constructor; assumption. }
  reflexivity.
Qed.

(** X18: when the vendor answers the certificate creation with neither an
    error nor a result, the create handler panics; the record is left as it
    was, so no identity is set, and nothing but the create request was
    sent. *)
Theorem resourceIBMCISMtlsCreate_without_result
    (ConvertCisToTfThreeVar : string -> string -> string -> string)
    (CreateAccessCertificate :
       string -> string -> option string -> option string -> option (list string)
       -> list Event -> SdkReply (option AccessCertificate.Resp))
    (bluemix : Reply string) (firewall : Reply FirewallRulesSession)
    (filters : Reply FiltersSession) (sess : MtlsSession) (w : World)
    (Hexpand : forall l e, ExpandStringList l <> Fail e)
    (Hnone : forall crn zoneID name cert hostnames history, exists response,
               CreateAccessCertificate crn zoneID name cert hostnames history
               = SdkOk None response) :
  panics_sending "mtls" "CreateAccessCertificate" w
    (resourceIBMCISMtlsCreate ConvertCisToTfThreeVar CreateAccessCertificate
       (mkMeta bluemix firewall filters (Success sess)) w).
Proof.
  unfold resourceIBMCISMtlsCreate. cbn [CisMtlsSession].
  apply panics_sending_bind; [quiet_solve | no_fail_get | intros crn].
  apply panics_sending_bind; [quiet_solve | no_fail_get | intros zoneID].
  apply panics_sending_bind; [unfold optString; quiet_solve | no_fail_get | intros name].
  apply panics_sending_bind; [unfold optString; quiet_solve | no_fail_get | intros cert_val].
  apply panics_sending_bind; [quiet_solve | | intros hostnames].
  { intros e. rewrite (bind_quiet (schema.GetOk cisMtlsHostNames)) by quiet_solve.
    cbn [snd fst schema.GetOk].
    destruct (negb (is_zero (default VNil (rd_fields (d w) !! cisMtlsHostNames))));
      [|discriminate].
    rewrite (bind_quiet (schema.Get cisMtlsHostNames ≫= schema.asList)) by quiet_solve.
    assert (Hlist : forall e1,
              snd ((schema.Get cisMtlsHostNames ≫= schema.asList) w) <> Fail e1)
      by no_fail_get.
    destruct (snd ((schema.Get cisMtlsHostNames ≫= schema.asList) w)) as [l|e1|s1];
      [|now destruct (Hlist e1)|discriminate].
    unfold mbind, M_bind, lift. pose proof (Hexpand l) as Hl.
    destruct (ExpandStringList l) as [names|e2|s2]; cbn;
      [discriminate | now destruct (Hl e2) | discriminate]. }
  unfold mbind, M_bind, request. cbn.
  destruct (Hnone crn zoneID name cert_val hostnames (trace w)) as [response ->].
  cbn. split; [eauto|]. split; [reflexivity|].
  eexists. split; [reflexivity|]. repeat constructor.
Qed.

End FirewallMore.

Lemma expandStrings_never_fails (l : list Value) (e : error) :
  samples.expandStrings l <> Fail e.
Proof.
  induction l as [|v l IH]; [discriminate|].
  simpl. destruct v; simpl; try discriminate.
  destruct (samples.expandStrings l); simpl; [discriminate | exact IH | discriminate].
Qed.

Lemma ResourceIBMCISFirewallrulesDelete_keeps_identity_witness :
  @cis.ResourceIBMCISFirewallrulesDelete samples.cis_externals samples.cisMetaGone
    samples.worldCis
  = (sent samples.worldCis [@deleteRuleCall samples.cis_externals samples.worldCis], Ok tt).
Proof.
  apply (@ResourceIBMCISFirewallrulesDelete_keeps_identity samples.cis_externals "token"
           samples.firewallGone).
  left. reflexivity.
Defined.

Lemma ResourceIBMCISFirewallrulesUpdate_nil_result_witness :
  panics_sending "firewallrules" "UpdateFirewllRules" samples.worldRuleChanged
    (@cis.ResourceIBMCISFirewallrulesUpdate samples.cis_externals
       (cis.mkMeta (Success "token") (Success samples.firewallSilent)
          (Failure samples.notFound) (Failure samples.notFound))
       samples.worldRuleChanged).
Proof.
  apply (@ResourceIBMCISFirewallrulesUpdate_nil_result samples.cis_externals "token"
           samples.firewallSilent).
  - exists "action". split; [apply list_elem_of_In; simpl; auto|].
    vm_compute. reflexivity.
  - intros crn zoneID item history. eexists. reflexivity.
Defined.

Lemma ResourceIBMCISFirewallrulesCreate_without_rule_witness :
  panics_sending "firewallrules" "CreateFirewallRules" samples.worldCis
    (@cis.ResourceIBMCISFirewallrulesCreate samples.cis_externals samples.twoVar
       samples.joinThree (fun _ _ _ _ => SdkOk None samples.ok200)
       (cis.mkMeta (Success "token") (Success samples.firewallPresent)
          (Failure samples.notFound) (Failure samples.notFound))
       samples.worldCis).
Proof.
  apply (@ResourceIBMCISFirewallrulesCreate_without_rule samples.cis_externals samples.twoVar
           samples.joinThree (fun _ _ _ _ => SdkOk None samples.ok200) "token"
           samples.firewallPresent).
  intros crn zoneID input history. eexists. left. reflexivity.
Defined.

Lemma resourceIBMCISMtlsUpdate_unchanged_witness :
  @cis.resourceIBMCISMtlsUpdate samples.cis_externals samples.cisMetaPresent
    samples.worldCertificate
  = @cis.resourceIBMCISMtlsRead samples.cis_externals samples.cisMetaPresent
      samples.worldCertificate.
Proof.
  apply (@resourceIBMCISMtlsUpdate_unchanged samples.cis_externals (Success "token")
           (Success samples.firewallPresent)
           (Success (cis.mkFiltersSession (fun _ _ _ _ => SdkOk tt samples.ok200)))
           samples.mtlsPresent samples.worldCertificate "crn1").
  - intros Hin. vm_compute in Hin. discriminate Hin.
  - intros Hin. vm_compute in Hin. discriminate Hin.
  - reflexivity.
Defined.

Lemma resourceIBMCISMtlsCreate_without_result_witness :
  panics_sending "mtls" "CreateAccessCertificate" samples.worldCertificate
    (@cis.resourceIBMCISMtlsCreate samples.cis_externals samples.joinThree
       (fun _ _ _ _ _ _ => SdkOk None samples.ok200) samples.cisMetaPresent
       samples.worldCertificate).
Proof.
  apply (@resourceIBMCISMtlsCreate_without_result samples.cis_externals samples.joinThree
           (fun _ _ _ _ _ _ => SdkOk None samples.ok200) (Success "token")
           (Success samples.firewallPresent)
           (Success (cis.mkFiltersSession (fun _ _ _ _ => SdkOk tt samples.ok200)))
           samples.mtlsPresent samples.worldCertificate).
  - exact expandStrings_never_fails.
  - intros crn zoneID name cert hostnames history. eexists. reflexivity.
Defined.

(** ** HPCS data source *)

Section HpcsMore.
Context `{hpcs.Externals}.
Import hpcs.

(** X19: for an instance with parameters, the read stores under
    ["service_endpoints"] one of two values: ["private-only"] when the
    parameter ["allowed_network"] says so, ["public-and-private"] in every
    other case (another value, or no such parameter). *)
Theorem setParameters_service_endpoints (instance : ResourceInstance.t)
    (parameters : list (string * Value)) (w : World)
    (Hparameters : ResourceInstance.Parameters instance = Some parameters) :
  rd_fields (d (fst (setParameters instance w))) !! "service_endpoints"
  = Some (VString (if bool_decide (allowedNetwork parameters = Some "private-only")
                   then "private-only" else "public-and-private")).
Proof.
  unfold setParameters, allowedNetwork. rewrite Hparameters.
  unfold mbind, M_bind, schema.Set_.
  destruct (List.find (fun p => String.eqb (fst p) "allowed_network") (Flatten parameters))
    as [[k endpoint]|];
    destruct (List.find (fun p => String.eqb (fst p) "units") (Flatten parameters))
      as [[ku u]|];
    destruct (List.find (fun p => String.eqb (fst p) "failover_units") (Flatten parameters))
      as [[kf f]|];
    cbn [fst snd d rd_fields mret M_ret fmap option_fmap option_map];
    rewrite ?lookup_insert_ne by discriminate; rewrite lookup_insert_eq;
    try reflexivity;
    (destruct (String.eqb endpoint "private-only") eqn:E;
     [apply String.eqb_eq in E; subst; reflexivity
     |apply String.eqb_neq in E; rewrite bool_decide_eq_false_2 by congruence; reflexivity]).
Qed.

(** X20: when the read names a service and the catalog knows no offering of
    that name, the read stops after the catalog lookup, before any instance
    is listed: with the wrapped error if the lookup failed, with a panic
    (index out of range) if it returned an empty list without error. *)
Theorem dataSourceIBMHPCSRead_offering_missing (fuel : nat) (rsConClient : ResourceControllerV2)
    (rsCatRepo : ResourceCatalog) (hsm : Reply unit)
    (query : string -> list Event -> Reply (list HsmInfo.t))
    (w : World) (name service : string)
    (Hname : rd_fields (d w) !! "name" = Some (VString name))
    (Hgroup : rd_fields (d w) !! "resource_group_id" = None)
    (Hservice : rd_fields (d w) !! "service" = Some (VString service))
    (Hset : service <> "")
    (Hnone : match FindByName rsCatRepo service (trace w) with
             | Success (_ :: _) => False
             | _ => True
             end) :
  dataSourceIBMHPCSRead fuel (mkMeta (Success rsConClient) (Success rsCatRepo) hsm query) w
  = (sent w [Call "catalog" "FindByName" [service]],
     match FindByName rsCatRepo service (trace w) with
     | Success _ => Panic "index out of range"
     | Failure err => Fail (Wrapf "[ERROR] Error retrieving service offering: " err)
     end).
Proof.
  unfold dataSourceIBMHPCSRead. cbn [ResourceControllerV2API ResourceCatalogAPI].
  rewrite (bind_Ok _ _ w w name)
    by (unfold mbind, M_bind, schema.Get; now rewrite Hname).
  rewrite (bind_Ok _ _ w w None)
    by (unfold mbind, M_bind, schema.GetOk; now rewrite Hgroup).
  assert (Eservice : schema.GetOk "service" w = (w, Ok (VString service, true))).
  { unfold schema.GetOk. rewrite Hservice. destruct service; [contradiction | reflexivity]. }
  unfold sent.
  destruct (FindByName rsCatRepo service (trace w)) as [[|? ?]|err] eqn:Efind;
    [| contradiction |].
  - erewrite bind_Panic; [reflexivity|].
    rewrite (bind_Ok _ _ _ _ _ Eservice). cbn [fst snd schema.asString].
    unfold mbind, M_bind, request. cbn. now rewrite Efind.
  - erewrite bind_Fail; [reflexivity|].
    rewrite (bind_Ok _ _ _ _ _ Eservice). cbn [fst snd schema.asString].
    unfold mbind, M_bind, request. cbn. now rewrite Efind.
Qed.

End HpcsMore.

Lemma setParameters_service_endpoints_witness :
  rd_fields (d (fst (@hpcs.setParameters samples.hpcs_externals samples.instancePrivate
                       samples.worldHpcs))) !! "service_endpoints"
  = Some (VString "private-only").
Proof.
  exact (@setParameters_service_endpoints samples.hpcs_externals samples.instancePrivate
           [("allowed_network", VString "private-only"); ("units", VString "2")]
           samples.worldHpcs eq_refl).
Defined.

Lemma dataSourceIBMHPCSRead_offering_missing_witness :
  @hpcs.dataSourceIBMHPCSRead samples.hpcs_externals 5
    (hpcs.mkMeta (Success samples.twoPages) (Success samples.catalogEmpty) (Success tt)
       (fun _ _ => Success []))
    samples.worldHpcsService
  = (sent samples.worldHpcsService [Call "catalog" "FindByName" ["hs-crypto"]],
     Panic "index out of range").
Proof.
  exact (@dataSourceIBMHPCSRead_offering_missing samples.hpcs_externals 5%nat samples.twoPages
           samples.catalogEmpty (Success tt) (fun _ _ => Success []) samples.worldHpcsService
           "my-hpcs" "hs-crypto" eq_refl eq_refl eq_refl ltac:(discriminate) I).
Defined.
